(** * Fritter: social graph, VSP workflow, content-trust gating, recommendations

    A shallow embedding of the server side of the Fritter application.

    - The three MongoDB collections are lists of records in insertion
      order; [findOne] returns the first document that matches.
    - The collection classes are functions threading the database; a
      computation may throw, and what it saved before stays saved.
    - An Express route is a list of validators followed by a handler.
    - Strings are byte strings, ObjectIds are numbers, dates are numbers.

    The first part follows the source files, the second states what the
    specification says about them, the third proves or refutes it. *)

From Stdlib Require Import List String Ascii Bool Arith Lia.
From Stdlib Require Import Permutation Sorted.
Import ListNotations.
Local Open Scope string_scope.
Local Open Scope list_scope.

(* ================================================================== *)
(** ** JavaScript values used by the code *)
(* ================================================================== *)

(** [Array.prototype.includes] on an array of strings. *)
Definition Array_includes (l : list string) (x : string) : bool :=
  existsb (String.eqb x) l.

(** [Array.prototype.indexOf(x, 0)]; [None] stands for [-1]. *)
Fixpoint Array_indexOf (l : list string) (x : string) : option nat :=
  match l with
  | [] => None
  | y :: l' =>
      if String.eqb y x then Some 0
      else match Array_indexOf l' x with
           | Some i => Some (S i)
           | None => None
           end
  end.

(** [Array.prototype.splice(index, 1)]: drops the element at [index]. *)
Fixpoint Array_splice1 (l : list string) (index : nat) : list string :=
  match l, index with
  | [], _ => []
  | _ :: l', 0 => l'
  | y :: l', S i => y :: Array_splice1 l' i
  end.

(** [Array.prototype.push]. *)
Definition Array_push {A : Type} (l : list A) (x : A) : list A := l ++ [x].

(** The idiom of the collections:
    [const index = a.indexOf(x, 0); if (index > -1) a.splice(index, 1)]. *)
Definition removeFirst (l : list string) (x : string) : list string :=
  match Array_indexOf l x with
  | Some index => Array_splice1 l index
  | None => l
  end.

(** [String.prototype.includes]: literal substring test. *)
Fixpoint String_includes (s sub : string) : bool :=
  if String.prefix sub s then true
  else match s with
       | EmptyString => false
       | String _ s' => String_includes s' sub
       end.

(** Truthiness of a request field holding a string (or [undefined]). *)
Definition truthy (o : option string) : bool :=
  match o with
  | Some s => negb (String.eqb s "")
  | None => false
  end.

(** [a.includes(v)] where [v] may be [undefined]: the arrays hold strings
    only, so [undefined] is never found. *)
Definition includes_field (l : list string) (o : option string) : bool :=
  match o with
  | Some s => Array_includes l s
  | None => false
  end.

(** [s === v] where [v] may be [undefined]. *)
Definition strictEq_field (s : string) (o : option string) : bool :=
  match o with
  | Some t => String.eqb s t
  | None => false
  end.

(* ================================================================== *)
(** ** Documents and the database *)
(* ================================================================== *)

Definition ObjectId := nat.

(** A user document (the fields [UserCollection.addOne] creates). *)
Record User := mkUser {
  uid : ObjectId;
  username : string;
  password : string;
  VSP : bool;
  interests : list string;
  followers : list string;
  following : list string
}.

(** A freet document. *)
Record Freet := mkFreet {
  fid : ObjectId;
  authorId : ObjectId;
  content : string;
  dateModified : nat;
  endorsements : list string;
  denouncements : list string;
  fact : bool
}.

(** A VSP request document ([vsprequest/model.ts]). *)
Record VSPRequest := mkVSPRequest {
  rq_username : string;
  rq_content : string;
  granted : bool
}.

(** The three collections, each in insertion order. *)
Record Db := mkDb {
  users : list User;
  freets : list Freet;
  vsprequests : list VSPRequest
}.

Definition set_users (db : Db) (us : list User) : Db :=
  mkDb us (freets db) (vsprequests db).

Definition set_freets (db : Db) (fs : list Freet) : Db :=
  mkDb (users db) fs (vsprequests db).

Definition set_vsprequests (db : Db) (rs : list VSPRequest) : Db :=
  mkDb (users db) (freets db) rs.

(** The JSON body of a request, with the fields the server reads.  String
    fields may be absent; the flags are read for truthiness only. *)
Record Body := mkBody {
  b_VSP : bool;
  b_revoke : bool;
  b_password : option string;
  b_username : option string;
  b_interests : option string;
  b_deleteInterest : bool;
  b_following : option string;
  b_unfollow : bool;
  b_content : option string;
  b_freetId : ObjectId
}.

Definition emptyBody : Body :=
  mkBody false false None None None false None false None 0.

Record Request := mkRequest {
  session_userId : option ObjectId;
  body : Body
}.

(* ================================================================== *)
(** ** Database computations that may throw *)
(* ================================================================== *)

Inductive Exception : Type :=
| TypeError        (* a property of [null] was read or written *)
| ValidationError  (* Mongoose refused to save a document *)
| CastError.       (* Mongoose could not cast a value to an ObjectId *)

Inductive Result (A : Type) : Type :=
| Ok (a : A)
| Throw (e : Exception).
Arguments Ok {A} a.
Arguments Throw {A} e.

(** A computation reads and writes the database; when it throws, the
    writes already saved stay. *)
Definition M (A : Type) : Type := Db -> Result A * Db.

Definition ret {A : Type} (a : A) : M A := fun db => (Ok a, db).

Definition throw {A : Type} (e : Exception) : M A := fun db => (Throw e, db).

Definition bind {A B : Type} (m : M A) (k : A -> M B) : M B :=
  fun db =>
    match m db with
    | (Ok a, db') => k a db'
    | (Throw e, db') => (Throw e, db')
    end.

Definition get_db : M Db := fun db => (Ok db, db).

Definition put_db (db' : Db) : M unit := fun _ => (Ok tt, db').

Notation "x <- m ;; k" := (bind m (fun x => k))
  (at level 61, m at next level, right associativity).
Notation "m ;;; k" := (bind m (fun _ => k))
  (at level 61, right associativity).

(** Reading a property of a looked-up document that may be [null]. *)
Definition deref {A : Type} (o : option A) : M A :=
  match o with
  | Some a => ret a
  | None => throw TypeError
  end.

(* ================================================================== *)
(** ** UserCollection *)
(* ================================================================== *)

(** [UserModel.findOne({_id: userId})]. *)
Definition findOneByUserId (userId : ObjectId) (db : Db) : option User :=
  find (fun u => Nat.eqb (uid u) userId) (users db).

(** [UserModel.findOne({username: name})]: exact match. *)
Definition UserModel_findOne_username (name : string) (db : Db) : option User :=
  find (fun u => String.eqb (username u) name) (users db).

(** [followedUser.save()].  [user] and [followedUser] are two document
    objects, also when they stand for the same stored document; a save
    persists the paths modified on its object, on [followedUser] that is
    [followers] only. *)
Definition save_followers (d : User) : M unit :=
  fun db =>
    (Ok tt,
     set_users db
       (map (fun u =>
               if Nat.eqb (uid u) (uid d)
               then mkUser (uid u) (username u) (password u) (VSP u)
                      (interests u) (followers d) (following u)
               else u)
            (users db))).

(** [user.save()]: [updateOne] modifies every path of [user] except
    [followers], which keeps its stored value. *)
Definition save_user (d : User) : M unit :=
  fun db =>
    (Ok tt,
     set_users db
       (map (fun u =>
               if Nat.eqb (uid u) (uid d)
               then mkUser (uid u) (username d) (password d) (VSP d)
                      (interests d) (followers u) (following d)
               else u)
            (users db))).

Definition with_VSP (u : User) (v : bool) : User :=
  mkUser (uid u) (username u) (password u) v (interests u) (followers u) (following u).

Definition with_password (u : User) (p : string) : User :=
  mkUser (uid u) (username u) p (VSP u) (interests u) (followers u) (following u).

Definition with_username (u : User) (n : string) : User :=
  mkUser (uid u) n (password u) (VSP u) (interests u) (followers u) (following u).

Definition with_interests (u : User) (l : list string) : User :=
  mkUser (uid u) (username u) (password u) (VSP u) l (followers u) (following u).

Definition with_followers (u : User) (l : list string) : User :=
  mkUser (uid u) (username u) (password u) (VSP u) (interests u) l (following u).

Definition with_following (u : User) (l : list string) : User :=
  mkUser (uid u) (username u) (password u) (VSP u) (interests u) (followers u) l.

Definition field_value (o : option string) : string :=
  match o with Some s => s | None => "" end.

(** [UserCollection.updateOne(userId, userDetails)]. *)
Definition updateOne (userId : ObjectId) (userDetails : Body) : M User :=
  db <- get_db ;;
  user <- deref (findOneByUserId userId db) ;;
  if b_VSP userDetails then
    let user := with_VSP user (negb (b_revoke userDetails)) in
    save_user user ;;; ret user
  else
    (* update password *)
    let user :=
      if truthy (b_password userDetails)
      then with_password user (field_value (b_password userDetails))
      else user in
    (* update username *)
    let user :=
      if truthy (b_username userDetails)
      then with_username user (field_value (b_username userDetails))
      else user in
    (* add interest *)
    let user :=
      if truthy (b_interests userDetails) && negb (b_deleteInterest userDetails)
      then with_interests user
             (Array_push (interests user) (field_value (b_interests userDetails)))
      else user in
    (* delete interest *)
    let user :=
      if truthy (b_interests userDetails) && b_deleteInterest userDetails
      then with_interests user
             (removeFirst (interests user) (field_value (b_interests userDetails)))
      else user in
    (* update following, will automatically update followers of new user *)
    user <-
      (if truthy (b_following userDetails) && negb (b_unfollow userDetails)
       then
         let target := field_value (b_following userDetails) in
         followedUser <- deref (UserModel_findOne_username target db) ;;
         let user := with_following user (Array_push (following user) target) in
         let followedUser :=
           with_followers followedUser
             (Array_push (followers followedUser) (username user)) in
         save_followers followedUser ;;; ret user
       else ret user) ;;
    (* unfollow a user *)
    user <-
      (if truthy (b_following userDetails) && b_unfollow userDetails
       then
         let target := field_value (b_following userDetails) in
         followedUser <- deref (UserModel_findOne_username target db) ;;
         let followedUser :=
           with_followers followedUser
             (removeFirst (followers followedUser) (username user)) in
         let user := with_following user (removeFirst (following user) target) in
         save_followers followedUser ;;; ret user
       else ret user) ;;
    save_user user ;;; ret user.

(* ================================================================== *)
(** ** Express routes *)
(* ================================================================== *)

(** What a validator does with a request. *)
Inductive Verdict : Type :=
| Next                                     (* next() *)
| Reject (status : nat) (error : string)   (* res.status(..).json({error}) *)
| Silent.                                  (* neither: the request hangs *)

(** Validators only read the database. *)
Definition Middleware : Type := Request -> Db -> Result Verdict.

(** The outcome of a request. *)
Inductive Response (A : Type) : Type :=
| Sent (status : nat) (message : string) (payload : A)
| Refused (status : nat) (error : string)
| NoResponse
| Crashed (e : Exception).
Arguments Sent {A} status message payload.
Arguments Refused {A} status error.
Arguments NoResponse {A}.
Arguments Crashed {A} e.

(** The validators of a route run in order; the first one that does not
    call [next()] ends the request. *)
Fixpoint runValidators (validators : list Middleware) (req : Request) (db : Db)
  : Result Verdict :=
  match validators with
  | [] => Ok Next
  | v :: rest =>
      match v req db with
      | Ok Next => runValidators rest req db
      | other => other
      end
  end.

Definition Handler (A : Type) : Type := Request -> M (Response A).

Definition runRoute {A : Type} (validators : list Middleware) (handler : Handler A)
  (req : Request) (db : Db) : Response A * Db :=
  match runValidators validators req db with
  | Ok Next =>
      match handler req db with
      | (Ok r, db') => (r, db')
      | (Throw e, db') => (Crashed e, db')
      end
  | Ok (Reject status error) => (Refused status error, db)
  | Ok Silent => (NoResponse, db)
  | Throw e => (Crashed e, db)
  end.

(* ================================================================== *)
(** ** user/middleware *)
(* ================================================================== *)

(** Checks if the user is logged in, that is, whether the userId is set in
    session. *)
Definition isUserLoggedIn : Middleware :=
  fun req _ =>
    match session_userId req with
    | None => Ok (Reject 403 "You must be logged in to complete this action.")
    | Some _ => Ok Next
    end.

(** Checks if a user is already following another user (cannot re-follow). *)
Definition isUserAlreadyFollowingTargetUser : Middleware :=
  fun req db =>
    match session_userId req with
    | Some userId =>
        match findOneByUserId userId db with
        | None => Throw TypeError
        | Some user =>
            if includes_field (following user) (b_following (body req))
            then Ok (Reject 409 "You are already following this user.")
            else Ok Next
        end
    | None => Ok Next
    end.

(** Checks if a user has not yet followed a certain user (cannot unfollow if
    never followed). *)
Definition isUserNotYetFollowingTargetUser : Middleware :=
  fun req db =>
    match session_userId req with
    | Some userId =>
        match findOneByUserId userId db with
        | None => Throw TypeError
        | Some user =>
            if negb (includes_field (following user) (b_following (body req)))
            then Ok (Reject 409 "You cannot unfollow a user you have never followed.")
            else Ok Next
        end
    | None => Ok Next
    end.

(** Checks if user is trying to follow themselves. *)
Definition isUserTryingToFollowSelf : Middleware :=
  fun req db =>
    match session_userId req with
    | Some userId =>
        match findOneByUserId userId db with
        | None => Throw TypeError
        | Some user =>
            if strictEq_field (username user) (b_following (body req))
            then Ok (Reject 403 "You cannot follow yourself.")
            else Ok Next
        end
    | None => Ok Next
    end.

(** Checks if the user has any interests. *)
Definition isUserHasInterests : Middleware :=
  fun req db =>
    match session_userId req with
    | Some userId =>
        match findOneByUserId userId db with
        | None => Throw TypeError
        | Some user =>
            match interests user with
            | [] => Ok (Reject 404 "You do not currently have any interests added.")
            | _ :: _ => Ok Next
            end
        end
    | None => Ok Silent
    end.

(* ================================================================== *)
(** ** user/router: the social graph *)
(* ================================================================== *)

(** [(req.session.userId as string) ?? '']: without a session the empty
    string reaches the query, which cannot be cast to an ObjectId. *)
Definition withSessionUser {A : Type} (req : Request) (k : ObjectId -> M A) : M A :=
  match session_userId req with
  | Some userId => k userId
  | None => throw CastError
  end.

Definition with_unfollow (b : Body) : Body :=
  mkBody (b_VSP b) (b_revoke b) (b_password b) (b_username b) (b_interests b)
    (b_deleteInterest b) (b_following b) true (b_content b) (b_freetId b).

(** PATCH /api/users/followers *)
Definition patchFollowers : Request -> Db -> Response User * Db :=
  runRoute
    [isUserLoggedIn; isUserAlreadyFollowingTargetUser; isUserTryingToFollowSelf]
    (fun req =>
       withSessionUser req (fun userId =>
         user <- updateOne userId (body req) ;;
         ret (Sent 200 "Successfully followed." user))).

(** DELETE /api/users/followers *)
Definition deleteFollowers : Request -> Db -> Response User * Db :=
  runRoute
    [isUserLoggedIn; isUserNotYetFollowingTargetUser]
    (fun req =>
       withSessionUser req (fun userId =>
         user <- updateOne userId (with_unfollow (body req)) ;;
         ret (Sent 200 "Successfully unfollowed." user))).

(** The body the client sends to follow or unfollow: [{following: target}]. *)
Definition followingBody (target : string) : Body :=
  mkBody false false None None None false (Some target) false None 0.

(** [follow(actor, target)]: the actor is the signed-in user. *)
Definition follow (actor : ObjectId) (target : string) (db : Db) : Response User * Db :=
  patchFollowers (mkRequest (Some actor) (followingBody target)) db.

(** [unfollow(actor, target)]. *)
Definition unfollow (actor : ObjectId) (target : string) (db : Db) : Response User * Db :=
  deleteFollowers (mkRequest (Some actor) (followingBody target)) db.

(** The error kinds of the social graph as the routes report them. *)
Definition SelfFollow : Response User := Refused 403 "You cannot follow yourself.".
Definition AlreadyFollowing : Response User :=
  Refused 409 "You are already following this user.".
Definition NotFollowing : Response User :=
  Refused 409 "You cannot unfollow a user you have never followed.".

(* ================================================================== *)
(** ** UserCollection.findRecommended and its route *)
(* ================================================================== *)

(** [.sort({dateModified: -1})]: most recently modified first; documents
    with the same date keep their stored order. *)
Fixpoint insertByDate (f : Freet) (l : list Freet) : list Freet :=
  match l with
  | [] => [f]
  | g :: l' =>
      if Nat.leb (dateModified g) (dateModified f)
      then f :: g :: l'
      else g :: insertByDate f l'
  end.

Definition sortByDateModifiedDesc (l : list Freet) : list Freet :=
  fold_right insertByDate [] l.

(** First loop: get all freets from users the user isn't following. *)
Fixpoint freetsToCheck_loop (userFollowing : list string) (allFreets : list Freet)
  (freetsToCheck : list Freet) (db : Db) : Result (list Freet) :=
  match allFreets with
  | [] => Ok freetsToCheck
  | eachFreet :: rest =>
      match findOneByUserId (authorId eachFreet) db with
      | None => Throw TypeError
      | Some freetAuthor =>
          if negb (Array_includes userFollowing (username freetAuthor))
          then freetsToCheck_loop userFollowing rest
                 (Array_push freetsToCheck eachFreet) db
          else freetsToCheck_loop userFollowing rest freetsToCheck db
      end
  end.

(** Inner loop of the second: does the freet mention one of the interests? *)
Fixpoint mentionsInterest (eachFreet : Freet) (userInterests : list string) : bool :=
  match userInterests with
  | [] => false
  | eachInterest :: rest =>
      if String_includes (content eachFreet) eachInterest then true
      else mentionsInterest eachFreet rest
  end.

(** Second loop: check each freet for interest. *)
Fixpoint interestingFreets_loop (userInterests : list string)
  (freetsToCheck : list Freet) (interestingFreets : list Freet) : list Freet :=
  match freetsToCheck with
  | [] => interestingFreets
  | eachFreet :: rest =>
      if mentionsInterest eachFreet userInterests
      then interestingFreets_loop userInterests rest
             (Array_push interestingFreets eachFreet)
      else interestingFreets_loop userInterests rest interestingFreets
  end.

(** Third loop: the authors, each once. *)
Fixpoint authorsToFollow_loop (interestingFreets : list Freet)
  (authorsToFollow : list User) (authorNames : list string) (db : Db)
  : Result (list User) :=
  match interestingFreets with
  | [] => Ok authorsToFollow
  | eachFreet :: rest =>
      match findOneByUserId (authorId eachFreet) db with
      | None => Throw TypeError
      | Some freetAuthor =>
          if negb (Array_includes authorNames (username freetAuthor))
          then authorsToFollow_loop rest
                 (Array_push authorsToFollow freetAuthor)
                 (Array_push authorNames (username freetAuthor)) db
          else authorsToFollow_loop rest authorsToFollow authorNames db
      end
  end.

(** [UserCollection.findRecommended(userId)]. *)
Definition findRecommended (userId : ObjectId) : M (list User) :=
  fun db =>
    match findOneByUserId userId db with
    | None => (Throw TypeError, db)
    | Some user =>
        let userInterests := interests user in
        let userFollowing := following user in
        let allFreets := sortByDateModifiedDesc (freets db) in
        match freetsToCheck_loop userFollowing allFreets [] db with
        | Throw e => (Throw e, db)
        | Ok freetsToCheck =>
            let interestingFreets :=
              interestingFreets_loop userInterests freetsToCheck [] in
            (authorsToFollow_loop interestingFreets [] [] db, db)
        end
    end.

(** GET /api/users/recommended *)
Definition getRecommended : Request -> Db -> Response (list User) * Db :=
  runRoute
    [isUserLoggedIn; isUserHasInterests]
    (fun req =>
       withSessionUser req (fun userId =>
         allUsers <- findRecommended userId ;;
         ret (Sent 200 "Accounts have been retrieved successfully." allUsers))).

(** [recommend(user)]: the signed-in user asks for recommendations. *)
Definition recommend (user : ObjectId) (db : Db) : Response (list User) * Db :=
  getRecommended (mkRequest (Some user) emptyBody) db.

Definition NoInterests : Response (list User) :=
  Refused 404 "You do not currently have any interests added.".

(** *** The recommendation as the specification words it *)

(** The author of a content item. *)
Definition authorOf (db : Db) (f : Freet) : list User :=
  match findOneByUserId (authorId f) db with
  | Some a => [a]
  | None => []
  end.

(** Is the item's author already followed by the user? *)
Definition authorFollowed (db : Db) (user : User) (f : Freet) : bool :=
  existsb (fun a => Array_includes (following user) (username a)) (authorOf db f).

(** Does the body contain any of the interests as a literal substring? *)
Definition bodyMatches (user : User) (f : Freet) : bool :=
  existsb (fun i => String_includes (content f) i) (interests user).

(** The distinct authors, in order of first appearance. *)
Fixpoint distinctAuthors (l : list User) : list User :=
  match l with
  | [] => []
  | a :: l' =>
      a :: filter (fun b => negb (String.eqb (username b) (username a)))
             (distinctAuthors l')
  end.

(** Scan the content most-recent-first, keep the items whose author is not
    followed and whose body matches an interest, return their distinct
    authors in order of first match. *)
Definition recommend_spec (user : User) (db : Db) : list User :=
  distinctAuthors
    (flat_map (authorOf db)
       (filter (fun f => negb (authorFollowed db user f) && bodyMatches user f)
          (sortByDateModifiedDesc (freets db)))).

(* ================================================================== *)
(** ** FreetCollection and freet/middleware: the content-trust ledger *)
(* ================================================================== *)

(** [FreetModel.findOne({_id: freetId})]. *)
Definition FreetCollection_findOne (freetId : ObjectId) (db : Db) : option Freet :=
  find (fun f => Nat.eqb (fid f) freetId) (freets db).

Definition with_endorsements (f : Freet) (l : list string) : Freet :=
  mkFreet (fid f) (authorId f) (content f) (dateModified f) l (denouncements f) (fact f).

Definition with_denouncements (f : Freet) (l : list string) : Freet :=
  mkFreet (fid f) (authorId f) (content f) (dateModified f) (endorsements f) l (fact f).

(** [freet.save()]: the handlers below modify one of the two ledgers. *)
Definition save_freet (d : Freet) : M unit :=
  fun db =>
    (Ok tt,
     set_freets db
       (map (fun f => if Nat.eqb (fid f) (fid d) then d else f) (freets db))).

(** The user lookups of the freet module pass [req.session.userId] on as
    it is; without a session no document is found. *)
Definition findSessionUser (req : Request) (db : Db) : option User :=
  match session_userId req with
  | Some userId => findOneByUserId userId db
  | None => None
  end.

(** [FreetCollection.addOneEndorsement(freetId, userId)]. *)
Definition addOneEndorsement (freetId userId : ObjectId) : M Freet :=
  db <- get_db ;;
  freet <- deref (FreetCollection_findOne freetId db) ;;
  user <- deref (findOneByUserId userId db) ;;
  let freet := with_endorsements freet (Array_push (endorsements freet) (username user)) in
  save_freet freet ;;; ret freet.

(** [FreetCollection.deleteOneEndorsement(freetId, userId)]. *)
Definition deleteOneEndorsement (freetId userId : ObjectId) : M Freet :=
  db <- get_db ;;
  freet <- deref (FreetCollection_findOne freetId db) ;;
  user <- deref (findOneByUserId userId db) ;;
  let freet := with_endorsements freet (removeFirst (endorsements freet) (username user)) in
  save_freet freet ;;; ret freet.

(** [FreetCollection.addOneDenouncement(freetId, userId)]. *)
Definition addOneDenouncement (freetId userId : ObjectId) : M Freet :=
  db <- get_db ;;
  freet <- deref (FreetCollection_findOne freetId db) ;;
  user <- deref (findOneByUserId userId db) ;;
  let freet := with_denouncements freet (Array_push (denouncements freet) (username user)) in
  save_freet freet ;;; ret freet.

(** [FreetCollection.deleteOneDenouncement(freetId, userId)]. *)
Definition deleteOneDenouncement (freetId userId : ObjectId) : M Freet :=
  db <- get_db ;;
  freet <- deref (FreetCollection_findOne freetId db) ;;
  user <- deref (findOneByUserId userId db) ;;
  let freet := with_denouncements freet (removeFirst (denouncements freet) (username user)) in
  save_freet freet ;;; ret freet.

(** Checks if the user has already endorsed the freet. *)
Definition isUserAlreadyEndorsed : Middleware :=
  fun req db =>
    match FreetCollection_findOne (b_freetId (body req)) db, findSessionUser req db with
    | Some freet, Some user =>
        if Array_includes (endorsements freet) (username user)
        then Ok (Reject 409 "You have already endorsed this freet.")
        else Ok Next
    | _, _ => Throw TypeError
    end.

(** Checks if the user has already denounced the freet. *)
Definition isUserAlreadyDenounced : Middleware :=
  fun req db =>
    match FreetCollection_findOne (b_freetId (body req)) db, findSessionUser req db with
    | Some freet, Some user =>
        if Array_includes (denouncements freet) (username user)
        then Ok (Reject 409 "You have already denounced this freet.")
        else Ok Next
    | _, _ => Throw TypeError
    end.

(** Checks if the user has not yet endorsed the freet. *)
Definition isUserNotYetEndorsed : Middleware :=
  fun req db =>
    match FreetCollection_findOne (b_freetId (body req)) db, findSessionUser req db with
    | Some freet, Some user =>
        if negb (Array_includes (endorsements freet) (username user))
        then Ok (Reject 409 "You have not yet endorsed this freet.")
        else Ok Next
    | _, _ => Throw TypeError
    end.

(** Checks if the user has not yet denounced the freet. *)
Definition isUserNotYetDenounced : Middleware :=
  fun req db =>
    match FreetCollection_findOne (b_freetId (body req)) db, findSessionUser req db with
    | Some freet, Some user =>
        if negb (Array_includes (denouncements freet) (username user))
        then Ok (Reject 409 "You have not yet denounced this freet.")
        else Ok Next
    | _, _ => Throw TypeError
    end.

(** Checks if the freet is a fact. *)
Definition isFreetAFact : Middleware :=
  fun req db =>
    match FreetCollection_findOne (b_freetId (body req)) db with
    | None => Throw TypeError
    | Some freet =>
        if negb (fact freet)
        then Ok (Reject 403 "You cannot endorse or denounce a freet that is an opinion.")
        else Ok Next
    end.

(** Checks if the user is a VSP. *)
Definition isUserVSP : Middleware :=
  fun req db =>
    match findSessionUser req db with
    | None => Throw TypeError
    | Some user =>
        if negb (VSP user)
        then Ok (Reject 403 "You cannot endorse or denounce a freet if you are not a VSP.")
        else Ok Next
    end.

(** The error kinds of the ledger's gates. *)
Definition NotAFact : Verdict :=
  Reject 403 "You cannot endorse or denounce a freet that is an opinion.".
Definition NotVerified : Verdict :=
  Reject 403 "You cannot endorse or denounce a freet if you are not a VSP.".

(** The four mutations of the ledger. *)
Inductive LedgerOp : Type := Endorse | Unendorse | Denounce | Undenounce.

Definition ledgerMutation (op : LedgerOp) : ObjectId -> ObjectId -> M Freet :=
  match op with
  | Endorse => addOneEndorsement
  | Unendorse => deleteOneEndorsement
  | Denounce => addOneDenouncement
  | Undenounce => deleteOneDenouncement
  end.

(** Modelled from the spec: the handlers of the freet router, whose file
    is not among the sources.  Each ledger operation is applied to the
    content item named in the request on behalf of the signed-in user, and
    the updated item is sent back with status 200; the text of the success
    message is a parameter. *)
Definition ledgerHandler (op : LedgerOp) (message : string) : Handler Freet :=
  fun req =>
    withSessionUser req (fun userId =>
      freet <- ledgerMutation op (b_freetId (body req)) userId ;;
      ret (Sent 200 message freet)).

(* ================================================================== *)
(** ** Lookups by username, VSPRequestCollection, vsprequest/middleware *)
(* ================================================================== *)

(** The value the template literal [`^${username?.trim()}$`] is built
    from: an absent field prints as [undefined]. *)
Definition interpolated (o : option string) : string :=
  match o with
  | Some s => s
  | None => "undefined"
  end.

(** [VSPRequestModel.findOne({username: username})]: exact match; an
    absent username matches no document. *)
Definition VSPRequestModel_findOne (name : option string) (db : Db) : option VSPRequest :=
  match name with
  | Some n => find (fun r => String.eqb (rq_username r) n) (vsprequests db)
  | None => None
  end.

(** [vsprequest.granted = g; await vsprequest.save()] on the document
    that [VSPRequestModel.findOne({username: n})] returned. *)
Fixpoint setGrantedFirst (n : string) (g : bool) (rs : list VSPRequest)
  : list VSPRequest :=
  match rs with
  | [] => []
  | r :: rs' =>
      if String.eqb (rq_username r) n
      then mkVSPRequest (rq_username r) (rq_content r) g :: rs'
      else r :: setGrantedFirst n g rs'
  end.

(** [VSPRequestModel.deleteOne({username: n})]: removes the first match. *)
Fixpoint deleteFirst (n : string) (rs : list VSPRequest) : list VSPRequest :=
  match rs with
  | [] => []
  | r :: rs' =>
      if String.eqb (rq_username r) n then rs' else r :: deleteFirst n rs'
  end.

(** The schema marks [username] and [content] as required strings:
    Mongoose refuses to save a document where one is absent or empty. *)
Definition schemaAccepts (name : string) (justification : option string) : bool :=
  negb (String.eqb name "") && truthy justification.

(** [VSPRequestCollection.addOne(username, content)]. *)
Definition VSPRequestCollection_addOne (name : string) (justification : option string)
  : M VSPRequest :=
  let granted := false in
  if schemaAccepts name justification then
    let vsprequest := mkVSPRequest name (field_value justification) granted in
    db <- get_db ;;
    put_db (set_vsprequests db (Array_push (vsprequests db) vsprequest)) ;;;
    ret vsprequest
  else throw ValidationError.

(** [VSPRequestCollection.acceptOne(username)]. *)
Definition acceptOne (name : option string) : M VSPRequest :=
  db <- get_db ;;
  vsprequest <- deref (VSPRequestModel_findOne name db) ;;
  put_db (set_vsprequests db
            (setGrantedFirst (rq_username vsprequest) true (vsprequests db))) ;;;
  ret (mkVSPRequest (rq_username vsprequest) (rq_content vsprequest) true).

(** [VSPRequestCollection.ungrantOne(username)]. *)
Definition ungrantOne (name : option string) : M VSPRequest :=
  db <- get_db ;;
  vsprequest <- deref (VSPRequestModel_findOne name db) ;;
  put_db (set_vsprequests db
            (setGrantedFirst (rq_username vsprequest) false (vsprequests db))) ;;;
  ret (mkVSPRequest (rq_username vsprequest) (rq_content vsprequest) false).

(** [VSPRequestCollection.deleteOne(username)]. *)
Definition VSPRequestCollection_deleteOne (name : option string) : M bool :=
  db <- get_db ;;
  match name with
  | Some n =>
      put_db (set_vsprequests db (deleteFirst n (vsprequests db))) ;;; ret true
  | None => ret true
  end.

Definition with_VSP_flags (b : Body) (revoke : bool) : Body :=
  mkBody true revoke (b_password b) (b_username b) (b_interests b)
    (b_deleteInterest b) (b_following b) (b_unfollow b) (b_content b) (b_freetId b).

(** ASCII word characters, [\w]. *)
Definition isWordChar (c : ascii) : bool :=
  let n := nat_of_ascii c in
  (Nat.leb 48 n && Nat.leb n 57) || (Nat.leb 65 n && Nat.leb n 90)
  || (Nat.leb 97 n && Nat.leb n 122) || Nat.eqb n 95.

(** ASCII white space, [\s]. *)
Definition isSpaceChar (c : ascii) : bool :=
  let n := nat_of_ascii c in
  (Nat.leb 9 n && Nat.leb n 13) || Nat.eqb n 32.

Fixpoint forallChars (p : ascii -> bool) (s : string) : bool :=
  match s with
  | EmptyString => true
  | String c s' => p c && forallChars p s'
  end.

(** [/^\w+$/i.test(s)]. *)
Definition isWord (s : string) : bool :=
  negb (String.eqb s "") && forallChars isWordChar s.

(** [/^\S+$/.test(s)]. *)
Definition isNonBlank (s : string) : bool :=
  negb (String.eqb s "") && forallChars (fun c => negb (isSpaceChar c)) s.

(** [UserModel.deleteOne({_id: userId})]: removes the first match. *)
Fixpoint deleteFirstUser (userId : ObjectId) (us : list User) : list User :=
  match us with
  | [] => []
  | u :: us' =>
      if Nat.eqb (uid u) userId then us' else u :: deleteFirstUser userId us'
  end.

Section UsernameLookup.

(** [RegExp_test v candidate] tells whether the regular expression
    [new RegExp('^' + v.trim() + '$', 'i')] matches the stored username
    [candidate], [v] being the interpolated value.  The query is evaluated
    by the database; its regular-expression engine is a parameter of the
    model. *)
Variable RegExp_test : string -> string -> bool.

(** [UserCollection.findOneByUsername(username)] (case insensitive). *)
Definition findOneByUsername (name : option string) (db : Db) : option User :=
  find (fun u => RegExp_test (interpolated name) (username u)) (users db).

(** [VSPRequestCollection.findOneByUsername(username)] (case insensitive). *)
Definition VSPRequestCollection_findOneByUsername (name : option string) (db : Db)
  : option VSPRequest :=
  find (fun r => RegExp_test (interpolated name) (rq_username r)) (vsprequests db).

(** Checks if a user is already a VSP. *)
Definition isUserAlreadyVSP : Middleware :=
  fun req db =>
    match session_userId req with
    | Some userId =>
        match findOneByUserId userId db with
        | None => Throw TypeError
        | Some user =>
            if negb (VSP user) then Ok Next
            else Ok (Reject 409 "User is already a VSP.")
        end
    | None => Ok Silent
    end.

(** Checks if a user has already submitted a VSP request. *)
Definition isUserAlreadySubmittedRequest : Middleware :=
  fun req db =>
    match session_userId req with
    | Some userId =>
        match findOneByUserId userId db with
        | None => Throw TypeError
        | Some user =>
            match VSPRequestCollection_findOneByUsername (Some (username user)) db with
            | None => Ok Next
            | Some _ => Ok (Reject 409 "User has already submitted a request.")
            end
        end
    | None => Ok Silent
    end.

(** Checks if a user has admin status. *)
Definition isUserAdmin : Middleware :=
  fun req db =>
    match session_userId req with
    | Some userId =>
        match findOneByUserId userId db with
        | None => Throw TypeError
        | Some user =>
            if String.eqb (username user) "lola" then Ok Next
            else Ok (Reject 401 "You do not have permission to do this.")
        end
    | None => Ok Silent
    end.

(** Checks if the request named in the body exists. *)
Definition isRequestExists : Middleware :=
  fun req db =>
    match VSPRequestCollection_findOneByUsername (b_username (body req)) db with
    | Some _ => Ok Next
    | None => Ok (Reject 404 "Request not found.")
    end.

(** Checks if a request was already accepted. *)
Definition isRequestAlreadyAccepted : Middleware :=
  fun req db =>
    match VSPRequestCollection_findOneByUsername (b_username (body req)) db with
    | None => Throw TypeError
    | Some request =>
        if negb (granted request) then Ok Next
        else Ok (Reject 409 "Request already granted.")
    end.

(** Checks if a request has not yet been granted. *)
Definition isRequestNotYetGranted : Middleware :=
  fun req db =>
    match VSPRequestCollection_findOneByUsername (b_username (body req)) db with
    | None => Throw TypeError
    | Some request =>
        if granted request then Ok Next
        else Ok (Reject 409 "Request has not yet been granted.")
    end.

(** POST /api/vsprequest *)
Definition postVspRequest : Request -> Db -> Response VSPRequest * Db :=
  runRoute
    [isUserLoggedIn; isUserAlreadyVSP; isUserAlreadySubmittedRequest]
    (fun req =>
       withSessionUser req (fun userId =>
         db <- get_db ;;
         user <- deref (findOneByUserId userId db) ;;
         vsprequest <- VSPRequestCollection_addOne (username user) (b_content (body req)) ;;
         ret (Sent 201 "Request successfully created." vsprequest))).

(** PUT /api/vsprequest *)
Definition putVspRequest : Request -> Db -> Response (VSPRequest * User) * Db :=
  runRoute
    [isUserLoggedIn; isUserAdmin; isRequestExists; isRequestAlreadyAccepted]
    (fun req =>
       vsprequest <- acceptOne (b_username (body req)) ;;
       let body := with_VSP_flags (body req) (b_revoke (body req)) in
       db <- get_db ;;
       user <- deref (findOneByUsername (b_username body) db) ;;
       updatedUser <- updateOne (uid user) body ;;
       ret (Sent 200 "Request was successfully accepted." (vsprequest, updatedUser))).

(** DELETE /api/vsprequest/vspstatus *)
Definition deleteVspStatus : Request -> Db -> Response (VSPRequest * User) * Db :=
  runRoute
    [isUserLoggedIn; isUserAdmin; isRequestExists; isRequestNotYetGranted]
    (fun req =>
       vsprequest <- ungrantOne (b_username (body req)) ;;
       let body := with_VSP_flags (body req) true in
       db <- get_db ;;
       user <- deref (findOneByUsername (b_username body) db) ;;
       updatedUser <- updateOne (uid user) body ;;
       ret (Sent 200 "VSP status was successfully revoked." (vsprequest, updatedUser))).

(** DELETE /api/vsprequest *)
Definition deleteVspRequest : Request -> Db -> Response unit * Db :=
  runRoute
    [isUserLoggedIn; isUserAdmin]
    (fun req =>
       VSPRequestCollection_deleteOne (b_username (body req)) ;;;
       ret (Sent 200 "Request was deleted successfully." tt)).

(** The three transitions of the workflow as the client issues them. *)
Definition submitBody (justification : string) : Body :=
  mkBody false false None None None false None false (Some justification) 0.

Definition usernameBody (name : string) : Body :=
  mkBody false false None (Some name) None false None false None 0.

Definition submit (user : ObjectId) (justification : string) (db : Db)
  : Response VSPRequest * Db :=
  postVspRequest (mkRequest (Some user) (submitBody justification)) db.

Definition accept (admin : ObjectId) (name : string) (db : Db)
  : Response (VSPRequest * User) * Db :=
  putVspRequest (mkRequest (Some admin) (usernameBody name)) db.

Definition revoke (admin : ObjectId) (name : string) (db : Db)
  : Response (VSPRequest * User) * Db :=
  deleteVspStatus (mkRequest (Some admin) (usernameBody name)) db.

(** *** Accounts: sign-up, profile update, deletion *)

(** Checks if the user is signed out, that is, userId is undefined in
    session. *)
Definition isUserLoggedOut : Middleware :=
  fun req _ =>
    match session_userId req with
    | Some _ => Ok (Reject 403 "You are already signed in.")
    | None => Ok Next
    end.

(** Checks if a username in req.body is valid, that is, it matches the
    username regex [/^\w+$/i]; an absent field is tested as the text
    [undefined]. *)
Definition isValidUsername : Middleware :=
  fun req _ =>
    if negb (isWord (interpolated (b_username (body req))))
    then Ok (Reject 400 "Username must be a nonempty alphanumeric string.")
    else Ok Next.

(** Checks if a password in req.body is valid, that is, it matches
    [/^\S+$/]. *)
Definition isValidPassword : Middleware :=
  fun req _ =>
    if negb (isNonBlank (interpolated (b_password (body req))))
    then Ok (Reject 400 "Password must be a nonempty string.")
    else Ok Next.

(** Checks if a username in req.body is already in use. *)
Definition isUsernameNotAlreadyInUse : Middleware :=
  fun req db =>
    match findOneByUsername (b_username (body req)) db with
    | None => Ok Next
    | Some user =>
        match session_userId req with
        | Some userId =>
            if Nat.eqb (uid user) userId then Ok Next
            else Ok (Reject 409 "An account with this username already exists.")
        | None => Ok (Reject 409 "An account with this username already exists.")
        end
    end.

(** [UserCollection.addOne(username, password)]; [newId] is the ObjectId
    MongoDB assigns to the document.  The user schema is not among the
    sources: a document without a username or a password is taken to be
    refused by it. *)
Definition UserCollection_addOne (newId : ObjectId) (name pass : option string) : M User :=
  if truthy name && truthy pass then
    let user := mkUser newId (field_value name) (field_value pass) false [] [] [] in
    db <- get_db ;;
    put_db (set_users db (Array_push (users db) user)) ;;;
    ret user
  else throw ValidationError.

(** [UserCollection.deleteOne(userId)]. *)
Definition UserCollection_deleteOne (userId : ObjectId) : M bool :=
  db <- get_db ;;
  put_db (set_users db (deleteFirstUser userId (users db))) ;;;
  ret true.

(** [FreetCollection.deleteMany(authorId)]. *)
Definition FreetCollection_deleteMany (author : ObjectId) : M unit :=
  db <- get_db ;;
  put_db (set_freets db
            (filter (fun f => negb (Nat.eqb (authorId f) author)) (freets db))).

(** POST /api/users *)
Definition postUser (newId : ObjectId) : Request -> Db -> Response User * Db :=
  runRoute
    [isUserLoggedOut; isValidUsername; isUsernameNotAlreadyInUse; isValidPassword]
    (fun req =>
       user <- UserCollection_addOne newId (b_username (body req)) (b_password (body req)) ;;
       ret (Sent 201
              (String.append
                 "Your account was created successfully. You have been logged in as "
                 (username user))
              user)).

(** PUT /api/users *)
Definition putUser : Request -> Db -> Response User * Db :=
  runRoute
    [isUserLoggedIn; isValidUsername; isUsernameNotAlreadyInUse; isValidPassword]
    (fun req =>
       withSessionUser req (fun userId =>
         user <- updateOne userId (body req) ;;
         ret (Sent 200 "Your profile was updated successfully." user))).

(** DELETE /api/users *)
Definition deleteUser : Request -> Db -> Response unit * Db :=
  runRoute
    [isUserLoggedIn]
    (fun req =>
       withSessionUser req (fun userId =>
         UserCollection_deleteOne userId ;;;
         FreetCollection_deleteMany userId ;;;
         ret (Sent 200 "Your account has been deleted successfully." tt))).

(** The bodies the client sends to sign up or to update the profile. *)
Definition credentialsBody (name pass : string) : Body :=
  mkBody false false (Some pass) (Some name) None false None false None 0.

Definition signUp (newId : ObjectId) (name pass : string) (db : Db)
  : Response User * Db :=
  postUser newId (mkRequest None (credentialsBody name pass)) db.

Definition updateProfile (userId : ObjectId) (name pass : string) (db : Db)
  : Response User * Db :=
  putUser (mkRequest (Some userId) (credentialsBody name pass)) db.

Definition deleteAccount (userId : ObjectId) (db : Db) : Response unit * Db :=
  deleteUser (mkRequest (Some userId) emptyBody) db.

End UsernameLookup.

(** The error kinds of the workflow as the routes report them. *)
Definition AlreadyVerified : Response VSPRequest := Refused 409 "User is already a VSP.".
Definition RequestAlreadyExists : Response VSPRequest :=
  Refused 409 "User has already submitted a request.".
Definition NotAuthorized : Response (VSPRequest * User) :=
  Refused 401 "You do not have permission to do this.".
Definition RequestNotFound : Response (VSPRequest * User) :=
  Refused 404 "Request not found.".
Definition AlreadyGranted : Response (VSPRequest * User) :=
  Refused 409 "Request already granted.".
Definition NotYetGranted : Response (VSPRequest * User) :=
  Refused 409 "Request has not yet been granted.".

(** ASCII lower case. *)
Definition toLowerAscii (c : ascii) : ascii :=
  let n := nat_of_ascii c in
  if Nat.leb 65 n && Nat.leb n 90 then ascii_of_nat (n + 32) else c.

Fixpoint toLowerCase (s : string) : string :=
  match s with
  | EmptyString => EmptyString
  | String c s' => String (toLowerAscii c) (toLowerCase s')
  end.

(** What the regular expression [^name$] with flag [i] matches when
    [name] is made of word characters only, as the usernames that pass
    [isValidUsername] are: the strings equal to it up to case. *)
Definition wordRegExp_test (name candidate : string) : bool :=
  String.eqb (toLowerCase name) (toLowerCase candidate).

(* ================================================================== *)
(** ** user/router: interests *)
(* ================================================================== *)

(** Checks if the user has already added a certain interest (cannot be
    added again). *)
Definition isUserAlreadyAddedInterest : Middleware :=
  fun req db =>
    match session_userId req with
    | Some userId =>
        match findOneByUserId userId db with
        | None => Throw TypeError
        | Some user =>
            if includes_field (interests user) (b_interests (body req))
            then Ok (Reject 409 "You have already added this interest.")
            else Ok Next
        end
    | None => Ok Next
    end.

(** Checks if the user has not yet added a certain interest (cannot be
    deleted). *)
Definition isUserNotYetAddedInterest : Middleware :=
  fun req db =>
    match session_userId req with
    | Some userId =>
        match findOneByUserId userId db with
        | None => Throw TypeError
        | Some user =>
            if negb (includes_field (interests user) (b_interests (body req)))
            then Ok (Reject 409
                       "You are trying to delete an interest you have not yet added.")
            else Ok Next
        end
    | None => Ok Next
    end.

Definition with_deleteInterest (b : Body) : Body :=
  mkBody (b_VSP b) (b_revoke b) (b_password b) (b_username b) (b_interests b)
    true (b_following b) (b_unfollow b) (b_content b) (b_freetId b).

(** PATCH /api/users/interests *)
Definition patchInterests : Request -> Db -> Response User * Db :=
  runRoute
    [isUserLoggedIn; isUserAlreadyAddedInterest]
    (fun req =>
       withSessionUser req (fun userId =>
         user <- updateOne userId (body req) ;;
         ret (Sent 200 "Successfully added interest." user))).

(** DELETE /api/users/interests *)
Definition deleteInterests : Request -> Db -> Response User * Db :=
  runRoute
    [isUserLoggedIn; isUserNotYetAddedInterest]
    (fun req =>
       withSessionUser req (fun userId =>
         user <- updateOne userId (with_deleteInterest (body req)) ;;
         ret (Sent 200 "Successfully deleted interest." user))).

(** The body that names one interest: [{interests: keyword}]. *)
Definition interestBody (keyword : string) : Body :=
  mkBody false false None None (Some keyword) false None false None 0.

Definition addInterest (userId : ObjectId) (keyword : string) (db : Db)
  : Response User * Db :=
  patchInterests (mkRequest (Some userId) (interestBody keyword)) db.

Definition removeInterest (userId : ObjectId) (keyword : string) (db : Db)
  : Response User * Db :=
  deleteInterests (mkRequest (Some userId) (interestBody keyword)) db.

(* ================================================================== *)
(** ** vsprequest/router: the two listings *)
(* ================================================================== *)

(** [VSPRequestCollection.getAll()]: [VSPRequestModel.find({granted: false})]. *)
Definition getAll (db : Db) : list VSPRequest :=
  filter (fun r => negb (granted r)) (vsprequests db).

(** [VSPRequestCollection.getAllVSPs()]: [UserModel.find({VSP: true})]. *)
Definition getAllVSPs (db : Db) : list User :=
  filter (fun u => VSP u) (users db).

(** GET /api/vsprequest *)
Definition getVspRequests : Request -> Db -> Response (list VSPRequest) * Db :=
  runRoute
    [isUserLoggedIn; isUserAdmin]
    (fun req =>
       db <- get_db ;;
       ret (Sent 200 "VSP requests successfully retrieved." (getAll db))).

(** GET /api/vsprequest/VSPs *)
Definition getVSPs : Request -> Db -> Response (list User) * Db :=
  runRoute
    [isUserLoggedIn; isUserAdmin]
    (fun req =>
       db <- get_db ;;
       ret (Sent 200 "VSPs successfully retrieved." (getAllVSPs db))).

(* ================================================================== *)
(** ** user/router: signing in and out *)
(* ================================================================== *)

Section SignIn.

Variable RegExp_test : string -> string -> bool.

(** [UserCollection.findOneByUsernameAndPassword(username, password)]:
    the username up to case, the password exactly. *)
Definition findOneByUsernameAndPassword (name pass : string) (db : Db) : option User :=
  find (fun u => RegExp_test name (username u) && String.eqb (password u) pass)
       (users db).

(** Checks if a user with username and password in req.body exists. *)
Definition isAccountExists : Middleware :=
  fun req db =>
    if negb (truthy (b_username (body req))) then
      Ok (Reject 400 "Missing username credentials for sign in.")
    else if negb (truthy (b_password (body req))) then
      Ok (Reject 400 "Missing password credentials for sign in.")
    else
      match findOneByUsernameAndPassword
              (field_value (b_username (body req)))
              (field_value (b_password (body req))) db with
      | Some _ => Ok Next
      | None => Ok (Reject 401 "Invalid user login credentials provided.")
      end.

(** POST /api/users/session.  The handler stores the id of the user it
    answers with in the session. *)
Definition postSession : Request -> Db -> Response User * Db :=
  runRoute
    [isUserLoggedOut; isValidUsername; isValidPassword; isAccountExists]
    (fun req =>
       db <- get_db ;;
       user <- deref (findOneByUsernameAndPassword
                        (field_value (b_username (body req)))
                        (field_value (b_password (body req))) db) ;;
       ret (Sent 201 "You have logged in successfully" user)).

(** DELETE /api/users/session *)
Definition deleteSession : Request -> Db -> Response unit * Db :=
  runRoute
    [isUserLoggedIn]
    (fun req => ret (Sent 200 "You have been logged out successfully." tt)).


End SignIn.

(* ================================================================== *)
(** * Statements: what is written, invariants, example databases *)
(* ================================================================== *)

(** ** The social graph *)

(** *** What the saves of [updateOne] write *)

(** [user.save()] with nothing modified but the document's own paths. *)
Definition after_save (A : User) (u : User) : User :=
  if Nat.eqb (uid u) (uid A)
  then mkUser (uid u) (username A) (password A) (VSP A) (interests A)
         (followers u) (following A)
  else u.

(** The stored document [u] after [follow(A, B)] went through: [B]'s
    [followers] path first, then every other path of [A]. *)
Definition after_follow (A B : User) (target : string) (u : User) : User :=
  let u1 :=
    if Nat.eqb (uid u) (uid B)
    then mkUser (uid u) (username u) (password u) (VSP u) (interests u)
           (Array_push (followers B) (username A)) (following u)
    else u in
  if Nat.eqb (uid u1) (uid A)
  then mkUser (uid u1) (username A) (password A) (VSP A) (interests A)
         (followers u1) (Array_push (following A) target)
  else u1.

Definition after_unfollow (A B : User) (target : string) (u : User) : User :=
  let u1 :=
    if Nat.eqb (uid u) (uid B)
    then mkUser (uid u) (username u) (password u) (VSP u) (interests u)
           (removeFirst (followers B) (username A)) (following u)
    else u in
  if Nat.eqb (uid u1) (uid A)
  then mkUser (uid u1) (username A) (password A) (VSP A) (interests A)
         (followers u1) (removeFirst (following A) target)
  else u1.

(** *** Sequences of follow and unfollow *)

Inductive GraphOp : Type :=
| Follow (actor : ObjectId) (target : string)
| Unfollow (actor : ObjectId) (target : string).

(** Each operation goes through its route, validators included; only the
    database it leaves matters here. *)
Definition runGraphOp (op : GraphOp) (db : Db) : Db :=
  match op with
  | Follow actor target => snd (follow actor target db)
  | Unfollow actor target => snd (unfollow actor target db)
  end.

Definition runGraphOps (ops : list GraphOp) (db : Db) : Db :=
  fold_left (fun d op => runGraphOp op d) ops db.

(** *** Invariants of the data model *)

(** Graph symmetry: B.username ∈ A.following ⟺ A.username ∈ B.followers
    for all users A ≠ B. *)
Definition graph_symmetric (db : Db) : Prop :=
  forall a b,
    In a (users db) -> In b (users db) -> uid a <> uid b ->
    (In (username b) (following a) <-> In (username a) (followers b)).

(** The rest of the data model's invariants on users. *)
Definition unique_ids (db : Db) : Prop := NoDup (map uid (users db)).

Definition unique_usernames (db : Db) : Prop := NoDup (map username (users db)).

Definition unique_edges (db : Db) : Prop :=
  forall u, In u (users db) -> NoDup (following u) /\ NoDup (followers u).

Definition graph_invariant (db : Db) : Prop :=
  unique_ids db /\ unique_usernames db /\ unique_edges db /\ graph_symmetric db.

(** *** C1 and C5 as worded *)

(** C1 as the specification words it. *)
Definition symmetry_preserved : Prop :=
  forall (db : Db) (ops : list GraphOp),
    graph_symmetric db -> graph_symmetric (runGraphOps ops db).

(** C5 as the specification words it: follow(A, A) is refused with
    SelfFollow whatever the state, which stays unchanged. *)
Definition self_follow_always_SelfFollow : Prop :=
  forall (db : Db) (A : User),
    findOneByUserId (uid A) db = Some A ->
    follow (uid A) (username A) db = (SelfFollow, db).

(** ** Recommendations *)

(** Every content item has an author document. *)
Definition authors_exist (db : Db) : Prop :=
  forall f, In f (freets db) -> findOneByUserId (authorId f) db <> None.

Definition moreRecent (f g : Freet) : Prop := dateModified g <= dateModified f.

(** C2 as the specification words it: for a user with interests, the
    recommended list holds neither the user nor anyone already followed. *)
Definition recommend_excludes_self_and_followed : Prop :=
  forall (db db' : Db) (userId : ObjectId) (user : User)
         (status : nat) (message : string) (l : list User),
    findOneByUserId userId db = Some user ->
    interests user <> [] ->
    recommend userId db = (Sent status message l, db') ->
    forall a, In a l ->
      username a <> username user /\ ~ In (username a) (following user).

(** ** The content-trust ledger *)


Definition endorseValidators : list Middleware :=
  [isUserLoggedIn; isFreetAFact; isUserVSP; isUserAlreadyEndorsed].

(** ** The VSP workflow *)

(** The document [accept] and [revoke] save for the request, and the
    database they leave, once the validators have passed. *)
Definition decide (RegExp_test : string -> string -> bool)
  (name : string) (g : bool) (db : Db)
  : Response (VSPRequest * User) * Db :=
  match VSPRequestModel_findOne (Some name) db with
  | None => (Crashed TypeError, db)
  | Some r' =>
      let db1 := set_vsprequests db (setGrantedFirst (rq_username r') g (vsprequests db)) in
      match findOneByUsername RegExp_test (Some name) db1 with
      | None => (Crashed TypeError, db1)
      | Some u =>
          match findOneByUserId (uid u) db1 with
          | None => (Crashed TypeError, db1)
          | Some u0 =>
              (Sent 200
                 (if g then "Request was successfully accepted."
                  else "VSP status was successfully revoked.")
                 (mkVSPRequest (rq_username r') (rq_content r') g, with_VSP u0 g),
               set_users db1 (map (after_save (with_VSP u0 g)) (users db1)))
          end
      end
  end.

(** C3 as the specification words it: after submit, accept, revoke the
    user is not verified, and no accept succeeds before a new submit. *)
Definition revoke_requires_new_submit (RegExp_test : string -> string -> bool) : Prop :=
  forall (db db1 db2 db3 : Db) (userId admin : ObjectId) (u : User)
         (justification : string) (s1 s2 s3 : nat) (m1 m2 m3 : string)
         (p1 : VSPRequest) (p2 p3 : VSPRequest * User),
    findOneByUserId userId db = Some u ->
    submit RegExp_test userId justification db = (Sent s1 m1 p1, db1) ->
    accept RegExp_test admin (username u) db1 = (Sent s2 m2 p2, db2) ->
    revoke RegExp_test admin (username u) db2 = (Sent s3 m3 p3, db3) ->
    (exists u3, findOneByUserId userId db3 = Some u3 /\ VSP u3 = false) /\
    (forall admin' s4 m4 p4 db4,
        accept RegExp_test admin' (username u) db3 <> (Sent s4 m4 p4, db4)).


(** ** Sequences of requests to the account and graph routes *)

Inductive Call : Type :=
| SignUp (newId : ObjectId) (name pass : string)
| UpdateProfile (userId : ObjectId) (name pass : string)
| DeleteAccount (userId : ObjectId)
| CallFollow (actor : ObjectId) (target : string)
| CallUnfollow (actor : ObjectId) (target : string).

Definition whenSent {A : Type} (r : Response A * Db) : option Db :=
  match r with
  | (Sent _ _ _, db) => Some db
  | _ => None
  end.

(** The database a request leaves, provided it was answered with success. *)
Definition runCall (c : Call) (db : Db) : option Db :=
  match c with
  | SignUp newId name pass => whenSent (signUp wordRegExp_test newId name pass db)
  | UpdateProfile userId name pass =>
      whenSent (updateProfile wordRegExp_test userId name pass db)
  | DeleteAccount userId => whenSent (deleteAccount userId db)
  | CallFollow actor target => whenSent (follow actor target db)
  | CallUnfollow actor target => whenSent (unfollow actor target db)
  end.

Fixpoint runCalls (cs : list Call) (db : Db) : option Db :=
  match cs with
  | [] => Some db
  | c :: cs' =>
      match runCall c db with
      | Some db' => runCalls cs' db'
      | None => None
      end
  end.

(** ** Example databases *)

Definition emptyDb : Db := mkDb [] [] [].

Definition alice0 : User := mkUser 1 "alice" "pw1" false [] [] [].

Definition bob0 : User := mkUser 2 "bob" "pw2" false [] [] [].

Definition db_alice_bob : Db := mkDb [alice0; bob0] [] [].

(** alice follows bob: the state after one successful follow. *)
Definition db_alice_follows_bob : Db :=
  mkDb [mkUser 1 "alice" "pw1" false [] [] ["bob"];
        mkUser 2 "bob" "pw2" false [] ["alice"] []] [] [].

(** alice followed bob, bob renamed himself carl, alice renamed herself
    bob: her [following] now holds her own username. *)
Definition db_own_name_followed : Db :=
  mkDb [mkUser 1 "bob" "pw1" false [] [] ["bob"];
        mkUser 2 "carl" "pw2" false [] ["alice"] []] [] [].

(** bob deleted his account; alice still lists him. *)
Definition db_dangling_edge : Db :=
  mkDb [mkUser 1 "alice" "pw1" false [] [] ["bob"]] [] [].

(** bob's [followers] lists alice twice: an earlier account named alice
    followed bob and was deleted, then the present alice signed up and
    followed bob too. *)
Definition db_double_follower : Db :=
  mkDb [mkUser 2 "bob" "pw2" false [] ["alice"; "alice"] [];
        mkUser 3 "alice" "pw3" false [] [] ["bob"]] [] [].

(** alice is interested in rust and follows no one; bob wrote about rust,
    carol about go. *)
Definition db_rust_scenario : Db :=
  mkDb [mkUser 1 "alice" "pw1" false ["rust"] [] [];
        mkUser 2 "bob" "pw2" false [] [] [];
        mkUser 3 "carol" "pw3" false [] [] []]
       [mkFreet 10 2 "I love rust" 100 [] [] false;
        mkFreet 11 3 "I love go" 101 [] [] false]
       [].

(** alice is interested in rust and wrote about it herself. *)
Definition db_own_freet : Db :=
  mkDb [mkUser 1 "alice" "pw1" false ["rust"] [] []]
       [mkFreet 10 1 "rust is fun" 100 [] [] false]
       [].



(** A fact, and a verified user who may endorse it. *)
Definition db_fact_verified : Db :=
  mkDb [mkUser 1 "alice" "pw1" true [] [] []]
       [mkFreet 10 1 "water boils at 100 degrees" 100 [] [] true]
       [].

(** lola, the administrator, and dave. *)
Definition db_lola_dave : Db :=
  mkDb [mkUser 1 "lola" "pw1" false [] [] [];
        mkUser 2 "dave" "pw2" false [] [] []] [] [].

(** dave has submitted a request. *)
Definition db_pending : Db :=
  mkDb [mkUser 1 "lola" "pw1" false [] [] [];
        mkUser 2 "dave" "pw2" false [] [] []] []
       [mkVSPRequest "dave" "I report on science" false].

(** lola has accepted it. *)
Definition db_granted : Db :=
  mkDb [mkUser 1 "lola" "pw1" false [] [] [];
        mkUser 2 "dave" "pw2" true [] [] []] []
       [mkVSPRequest "dave" "I report on science" true].

(** ** Statements about the other routes *)

(** The database after a follow that went through, document by document. *)
Definition followed (A B : User) (target : string) (db : Db) : Db :=
  set_users db
    (map (fun u =>
            if Nat.eqb (uid u) (uid A)
            then with_following u (Array_push (following u) target)
            else if Nat.eqb (uid u) (uid B)
                 then with_followers u (Array_push (followers u) (username A))
                 else u)
         (users db)).


(** The fields of a user document outside the graph. *)
Definition profile (u : User) : ObjectId * string * string * bool * list string :=
  (uid u, username u, password u, VSP u, interests u).

(** What one operation leaves alone. *)
Definition graph_frame (db db' : Db) : Prop :=
  map profile (users db') = map profile (users db) /\
  freets db' = freets db /\
  vsprequests db' = vsprequests db.

(** The database in which the document with the id of [A'] is [A']. *)
Definition replaceUser (A' : User) (db : Db) : Db :=
  set_users db (map (fun u => if Nat.eqb (uid u) (uid A') then A' else u) (users db)).

(** No user lists an interest twice. *)
Definition unique_interests (db : Db) : Prop :=
  forall u, In u (users db) -> NoDup (interests u).

(** [a] wrote a freet that mentions one of the interests of [user], and
    [user] does not follow [a]. *)
Definition suggestible (db : Db) (user a : User) : Prop :=
  exists f i,
    In f (freets db) /\
    findOneByUserId (authorId f) db = Some a /\
    In i (interests user) /\
    String_includes (content f) i = true /\
    ~ In (username a) (following user).

(** No two accounts have usernames that are equal up to case. *)
Definition unique_usernames_nocase (db : Db) : Prop :=
  NoDup (map (fun u => toLowerCase (username u)) (users db)).

Definition accounts_invariant (db : Db) : Prop :=
  unique_ids db /\ unique_usernames_nocase db.

Definition unique_fids (db : Db) : Prop := NoDup (map fid (freets db)).

(** The database in which the freet with the id of [f'] is [f']. *)
Definition replaceFreet (f' : Freet) (db : Db) : Db :=
  set_freets db (map (fun g => if Nat.eqb (fid g) (fid f') then f' else g) (freets db)).

(** The request of a signed-in user that names a freet: [{freetId}]. *)
Definition ledgerRequest (userId freetId : ObjectId) : Request :=
  mkRequest (Some userId) (mkBody false false None None None false None false None freetId).

(** [deleteRequest(admin, username)]: the administrator deletes the
    request of a user. *)
Definition deleteRequest (admin : ObjectId) (name : string) (db : Db)
  : Response unit * Db :=
  deleteVspRequest (mkRequest (Some admin) (usernameBody name)) db.

(** The state in which dave has a pending request and no account any
    more: what [deleteAccount] leaves of [db_pending]. *)
Definition db_request_without_account : Db :=
  mkDb [mkUser 1 "lola" "pw1" false [] [] []] []
       [mkVSPRequest "dave" "I report on science" false].

(** The answer of [isUserLoggedIn] to a request without a session, and
    the answer of [isUserLoggedOut] to a request with one. *)
Definition MustSignIn {A : Type} : Response A :=
  Refused 403 "You must be logged in to complete this action.".

Definition AlreadySignedIn {A : Type} : Response A :=
  Refused 403 "You are already signed in.".

(* ================================================================== *)
(** * Properties *)
(* ================================================================== *)

(** ** Arrays *)

Lemma Array_includes_In (l : list string) (x : string) :
  Array_includes l x = true <-> In x l.
Proof.
  unfold Array_includes. rewrite existsb_exists. split.
  - intros [y [Hy Heq]]. apply String.eqb_eq in Heq. now subst.
  - intros H. exists x. split; [assumption | apply String.eqb_refl].
Qed.

Lemma Array_includes_not_In (l : list string) (x : string) :
  Array_includes l x = false <-> ~ In x l.
Proof.
  rewrite <- Array_includes_In. destruct (Array_includes l x); split; congruence.
Qed.

(** [removeFirst] drops the first occurrence and nothing else. *)
Lemma removeFirst_cons (y : string) (l : list string) (x : string) :
  removeFirst (y :: l) x = if String.eqb y x then l else y :: removeFirst l x.
Proof.
  unfold removeFirst. simpl. destruct (String.eqb y x); [reflexivity |].
  destruct (Array_indexOf l x); reflexivity.
Qed.

Lemma removeFirst_incl (l : list string) (x z : string) :
  In z (removeFirst l x) -> In z l.
Proof.
  induction l as [| y l IH]; [now unfold removeFirst |].
  rewrite removeFirst_cons. destruct (String.eqb y x); simpl; tauto.
Qed.

Lemma removeFirst_other (l : list string) (x z : string) :
  z <> x -> In z l -> In z (removeFirst l x).
Proof.
  intros Hne. induction l as [| y l IH]; [now unfold removeFirst |].
  rewrite removeFirst_cons. destruct (String.eqb y x) eqn:E; simpl.
  - apply String.eqb_eq in E. subst. intros [H | H]; [congruence | assumption].
  - tauto.
Qed.

Lemma removeFirst_NoDup (l : list string) (x : string) :
  NoDup l -> NoDup (removeFirst l x).
Proof.
  induction l as [| y l IH]; [now unfold removeFirst |].
  intros H. inversion H as [| ? ? Hy Hl]; subst.
  rewrite removeFirst_cons. destruct (String.eqb y x); [assumption |].
  constructor; [| auto]. intros Hin. apply Hy. eapply removeFirst_incl; eauto.
Qed.

Lemma removeFirst_gone (l : list string) (x : string) :
  NoDup l -> ~ In x (removeFirst l x).
Proof.
  induction l as [| y l IH]; [now unfold removeFirst |].
  intros H. inversion H as [| ? ? Hy Hl]; subst.
  rewrite removeFirst_cons. destruct (String.eqb y x) eqn:E.
  - apply String.eqb_eq in E. now subst.
  - apply String.eqb_neq in E. simpl. intros [H1 | H1]; [congruence | now apply IH].
Qed.

Lemma In_removeFirst_iff (l : list string) (x z : string) :
  NoDup l -> (In z (removeFirst l x) <-> In z l /\ z <> x).
Proof.
  intros Hnd. split.
  - intros H. split; [eapply removeFirst_incl; eauto |].
    intros ->. now apply (removeFirst_gone l x).
  - intros [H1 H2]. now apply removeFirst_other.
Qed.

(** ** Routes *)

Lemma findOneByUserId_In (userId : ObjectId) (db : Db) (u : User) :
  findOneByUserId userId db = Some u -> In u (users db) /\ uid u = userId.
Proof.
  unfold findOneByUserId. intros H. apply find_some in H as [H1 H2].
  apply Nat.eqb_eq in H2. tauto.
Qed.

Lemma UserModel_findOne_username_In (name : string) (db : Db) (u : User) :
  UserModel_findOne_username name db = Some u -> In u (users db) /\ username u = name.
Proof.
  unfold UserModel_findOne_username. intros H. apply find_some in H as [H1 H2].
  apply String.eqb_eq in H2. tauto.
Qed.

Lemma UserModel_findOne_username_None (name : string) (db : Db) :
  UserModel_findOne_username name db = None <->
  (forall u, In u (users db) -> username u <> name).
Proof.
  unfold UserModel_findOne_username. split.
  - intros H u Hu Heq. apply (find_none _ _ H) in Hu.
    apply String.eqb_neq in Hu. contradiction.
  - intros H. destruct (find _ _) eqn:E; [| reflexivity].
    apply find_some in E as [E1 E2]. apply String.eqb_eq in E2.
    exfalso. eapply H; eauto.
Qed.

(** ** C6: following an existing edge *)

(** C6. For distinct users A and B with B.username already in A.following,
    follow(A, B) is refused with AlreadyFollowing (409) and the database,
    hence both documents, is unchanged. *)
Theorem follow_existing_edge_refused (db : Db) (A B : User) :
  findOneByUserId (uid A) db = Some A ->
  In B (users db) ->
  uid A <> uid B ->
  In (username B) (following A) ->
  follow (uid A) (username B) db = (AlreadyFollowing, db).
Proof.
  intros HA _ _ Hin.
  unfold follow, patchFollowers, runRoute. cbn [runValidators isUserLoggedIn session_userId].
  unfold isUserAlreadyFollowingTargetUser. cbn [session_userId body followingBody b_following].
  rewrite HA. cbn [includes_field].
  apply Array_includes_In in Hin. rewrite Hin. reflexivity.
Qed.

Lemma follow_existing_edge_refused_witness :
  follow 1 "bob" db_alice_follows_bob = (AlreadyFollowing, db_alice_follows_bob).
Proof.
  apply (follow_existing_edge_refused db_alice_follows_bob
           (mkUser 1 "alice" "pw1" false [] [] ["bob"])
           (mkUser 2 "bob" "pw2" false [] ["alice"] [])).
  - reflexivity.
  - simpl. tauto.
  - simpl. lia.
  - simpl. tauto.
Defined.

(** ** What a completed follow or unfollow writes *)

Lemma truthy_Some (s : string) : s <> "" -> truthy (Some s) = true.
Proof.
  intros H. unfold truthy. apply String.eqb_neq in H. now rewrite H.
Qed.

Lemma updateOne_follow (db : Db) (userId : ObjectId) (A B : User) (target : string) :
  findOneByUserId userId db = Some A ->
  target <> "" ->
  UserModel_findOne_username target db = Some B ->
  updateOne userId (followingBody target) db =
    (Ok (with_following A (Array_push (following A) target)),
     set_users db (map (after_follow A B target) (users db))).
Proof.
  intros HA Ht HB. unfold updateOne, bind, get_db.
  rewrite HA. cbn [deref ret followingBody b_VSP b_password b_username b_interests
                     b_deleteInterest b_following b_unfollow andb negb field_value].
  rewrite (truthy_Some target Ht). cbn [andb negb]. rewrite HB.
  cbn [deref ret save_followers save_user set_users users freets vsprequests
         with_following with_followers uid username password VSP interests
         followers following].
  unfold set_users. cbn [users freets vsprequests]. rewrite map_map.
  destruct A, B. reflexivity.
Qed.

Lemma updateOne_unfollow (db : Db) (userId : ObjectId) (A B : User) (target : string) :
  findOneByUserId userId db = Some A ->
  target <> "" ->
  UserModel_findOne_username target db = Some B ->
  updateOne userId (with_unfollow (followingBody target)) db =
    (Ok (with_following A (removeFirst (following A) target)),
     set_users db (map (after_unfollow A B target) (users db))).
Proof.
  intros HA Ht HB. unfold updateOne, bind, get_db.
  rewrite HA. cbn [deref ret followingBody with_unfollow b_VSP b_password b_username
                     b_interests b_deleteInterest b_following b_unfollow andb
                     negb field_value].
  rewrite (truthy_Some target Ht). cbn [andb negb]. rewrite HB.
  cbn [deref ret save_followers save_user set_users users freets vsprequests
         with_following with_followers uid username password VSP interests
         followers following].
  unfold set_users. cbn [users freets vsprequests]. rewrite map_map.
  destruct A, B. reflexivity.
Qed.

Lemma updateOne_missing_target (db : Db) (userId : ObjectId) (A : User)
  (target : string) (un : bool) :
  findOneByUserId userId db = Some A ->
  target <> "" ->
  UserModel_findOne_username target db = None ->
  updateOne userId
    (if un then with_unfollow (followingBody target) else followingBody target) db =
    (Throw TypeError, db).
Proof.
  intros HA Ht HB. unfold updateOne, bind, get_db.
  rewrite HA. destruct un;
    cbn [deref ret followingBody with_unfollow b_VSP b_password b_username
           b_interests b_deleteInterest b_following b_unfollow andb
           negb field_value];
    rewrite (truthy_Some target Ht); cbn [andb negb]; rewrite HB; reflexivity.
Qed.

Lemma updateOne_empty_target (db : Db) (userId : ObjectId) (A : User) (un : bool) :
  findOneByUserId userId db = Some A ->
  updateOne userId
    (if un then with_unfollow (followingBody "") else followingBody "") db =
    (Ok A, set_users db (map (after_save A) (users db))).
Proof.
  intros HA. unfold updateOne, bind, get_db. rewrite HA.
  destruct un; destruct A; reflexivity.
Qed.

(** The outcome of [follow], case by case, in the order the route decides. *)
Lemma follow_cases (db : Db) (actor : ObjectId) (A : User) (target : string) :
  findOneByUserId actor db = Some A ->
  follow actor target db =
    if Array_includes (following A) target then (AlreadyFollowing, db)
    else if String.eqb (username A) target then (SelfFollow, db)
    else if String.eqb target "" then
      (Sent 200 "Successfully followed." A,
       set_users db (map (after_save A) (users db)))
    else match UserModel_findOne_username target db with
         | None => (Crashed TypeError, db)
         | Some B =>
             (Sent 200 "Successfully followed."
                (with_following A (Array_push (following A) target)),
              set_users db (map (after_follow A B target) (users db)))
         end.
Proof.
  intros HA. unfold follow, patchFollowers, runRoute.
  cbn [runValidators isUserLoggedIn session_userId].
  unfold isUserAlreadyFollowingTargetUser, isUserTryingToFollowSelf.
  cbn [session_userId body followingBody b_following includes_field strictEq_field].
  rewrite HA. cbn [includes_field strictEq_field].
  destruct (Array_includes (following A) target); [reflexivity |].
  destruct (String.eqb (username A) target); [reflexivity |].
  cbn [runValidators withSessionUser session_userId body]. unfold bind at 1.
  destruct (String.eqb target "") eqn:Et.
  - apply String.eqb_eq in Et. subst target.
    rewrite (updateOne_empty_target db actor A false HA). reflexivity.
  - apply String.eqb_neq in Et.
    destruct (UserModel_findOne_username target db) as [B |] eqn:HB.
    + rewrite (updateOne_follow db actor A B target HA Et HB). reflexivity.
    + rewrite (updateOne_missing_target db actor A target false HA Et HB). reflexivity.
Qed.

Lemma unfollow_cases (db : Db) (actor : ObjectId) (A : User) (target : string) :
  findOneByUserId actor db = Some A ->
  unfollow actor target db =
    if negb (Array_includes (following A) target) then (NotFollowing, db)
    else if String.eqb target "" then
      (Sent 200 "Successfully unfollowed." A,
       set_users db (map (after_save A) (users db)))
    else match UserModel_findOne_username target db with
         | None => (Crashed TypeError, db)
         | Some B =>
             (Sent 200 "Successfully unfollowed."
                (with_following A (removeFirst (following A) target)),
              set_users db (map (after_unfollow A B target) (users db)))
         end.
Proof.
  intros HA. unfold unfollow, deleteFollowers, runRoute.
  cbn [runValidators isUserLoggedIn session_userId].
  unfold isUserNotYetFollowingTargetUser.
  cbn [session_userId body followingBody b_following includes_field].
  rewrite HA. cbn [includes_field].
  destruct (Array_includes (following A) target); [| reflexivity].
  cbn [negb runValidators withSessionUser session_userId body]. unfold bind at 1.
  destruct (String.eqb target "") eqn:Et.
  - apply String.eqb_eq in Et. subst target.
    rewrite (updateOne_empty_target db actor A true HA). reflexivity.
  - apply String.eqb_neq in Et.
    destruct (UserModel_findOne_username target db) as [B |] eqn:HB.
    + rewrite (updateOne_unfollow db actor A B target HA Et HB). reflexivity.
    + rewrite (updateOne_missing_target db actor A target true HA Et HB). reflexivity.
Qed.

(** Without the signed-in user's document every validator that reads it
    throws; without a session the route refuses. *)
Lemma follow_no_actor (db : Db) (actor : ObjectId) (target : string) :
  findOneByUserId actor db = None ->
  follow actor target db = (Crashed TypeError, db).
Proof.
  intros HA. unfold follow, patchFollowers, runRoute.
  cbn [runValidators isUserLoggedIn session_userId].
  unfold isUserAlreadyFollowingTargetUser. cbn [session_userId]. now rewrite HA.
Qed.

Lemma unfollow_no_actor (db : Db) (actor : ObjectId) (target : string) :
  findOneByUserId actor db = None ->
  unfollow actor target db = (Crashed TypeError, db).
Proof.
  intros HA. unfold unfollow, deleteFollowers, runRoute.
  cbn [runValidators isUserLoggedIn session_userId].
  unfold isUserNotYetFollowingTargetUser. cbn [session_userId]. now rewrite HA.
Qed.

(** ** C5: following oneself *)

(** C5, counterexample: the already-following check runs before the
    self-follow check, so a user whose [following] holds their own
    username is answered AlreadyFollowing (409), not SelfFollow (403). *)
Lemma self_follow_counterexample : ~ self_follow_always_SelfFollow.
Proof.
  intros H.
  specialize (H db_own_name_followed (mkUser 1 "bob" "pw1" false [] [] ["bob"]) eq_refl).
  vm_compute in H. discriminate H.
Qed.

(** C5, amended. follow(A, A) is always refused and the database is
    unchanged; the error is SelfFollow unless A.username is already in
    A.following, in which case AlreadyFollowing is reported first. *)
Theorem follow_self_refused (db : Db) (A : User) :
  findOneByUserId (uid A) db = Some A ->
  follow (uid A) (username A) db =
    (if Array_includes (following A) (username A)
     then AlreadyFollowing else SelfFollow, db).
Proof.
  intros HA. rewrite (follow_cases db (uid A) A (username A) HA).
  destruct (Array_includes (following A) (username A)); [reflexivity |].
  now rewrite String.eqb_refl.
Qed.

Lemma follow_self_refused_witness :
  follow 1 "alice" db_alice_follows_bob = (SelfFollow, db_alice_follows_bob).
Proof.
  exact (follow_self_refused db_alice_follows_bob
           (mkUser 1 "alice" "pw1" false [] [] ["bob"]) eq_refl).
Defined.

(** ** C10: the target of follow and unfollow must exist *)

(** C10. When the requested (non-empty) target username matches no user
    document, no validator refuses the request: [updateOne] reads
    [followers] of the null lookup result and the request crashes with a
    TypeError instead of a typed not-found answer.  The database is left
    as it was.  When the target exists the same requests are answered. *)
Theorem follow_unfollow_missing_target (db : Db) (A : User) (target : string) :
  findOneByUserId (uid A) db = Some A ->
  target <> "" ->
  (UserModel_findOne_username target db = None ->
     (~ In target (following A) ->
        follow (uid A) target db = (Crashed TypeError, db)) /\
     (In target (following A) ->
        unfollow (uid A) target db = (Crashed TypeError, db))) /\
  (forall B, UserModel_findOne_username target db = Some B ->
     (exists r db', follow (uid A) target db = (r, db') /\ r <> Crashed TypeError) /\
     (exists r db', unfollow (uid A) target db = (r, db') /\ r <> Crashed TypeError)).
Proof.
  intros HA Ht. apply String.eqb_neq in Ht. split.
  - intros HB. split; intros Hin.
    + rewrite (follow_cases db (uid A) A target HA).
      apply Array_includes_not_In in Hin. rewrite Hin.
      assert (Hne : String.eqb (username A) target = false).
      { apply String.eqb_neq. apply findOneByUserId_In in HA as [HA1 _].
        rewrite UserModel_findOne_username_None in HB. now apply HB. }
      now rewrite Hne, Ht, HB.
    + rewrite (unfollow_cases db (uid A) A target HA).
      apply Array_includes_In in Hin. rewrite Hin. cbn [negb].
      now rewrite Ht, HB.
  - intros B HB. split.
    + rewrite (follow_cases db (uid A) A target HA). rewrite Ht, HB.
      destruct (Array_includes (following A) target);
        [| destruct (String.eqb (username A) target)];
        eexists; eexists; (split; [reflexivity | discriminate]).
    + rewrite (unfollow_cases db (uid A) A target HA). rewrite Ht, HB.
      destruct (Array_includes (following A) target); cbn [negb];
        eexists; eexists; (split; [reflexivity | discriminate]).
Qed.

Lemma follow_unfollow_missing_target_witness :
  follow 1 "carol" db_dangling_edge = (Crashed TypeError, db_dangling_edge) /\
  unfollow 1 "bob" db_dangling_edge = (Crashed TypeError, db_dangling_edge).
Proof.
  split.
  - destruct (follow_unfollow_missing_target db_dangling_edge
                (mkUser 1 "alice" "pw1" false [] [] ["bob"]) "carol" eq_refl)
      as [H _]; [discriminate |].
    destruct (H eq_refl) as [Hf _]. apply Hf. simpl. intros [E | []]. discriminate E.
  - destruct (follow_unfollow_missing_target db_dangling_edge
                (mkUser 1 "alice" "pw1" false [] [] ["bob"]) "bob" eq_refl)
      as [H _]; [discriminate |].
    destruct (H eq_refl) as [_ Hu]. apply Hu. simpl. tauto.
Defined.

(** ** C1: symmetry of the social graph *)

Lemma db_double_follower_symmetric : graph_symmetric db_double_follower.
Proof.
  intros a b Ha Hb Hne. simpl in Ha, Hb.
  destruct Ha as [<- | [<- | []]]; destruct Hb as [<- | [<- | []]];
    simpl in *; try congruence; intuition congruence.
Qed.

(** C1, counterexample: [unfollow] removes one occurrence on each side, so
    from a symmetric state with a repeated entry it leaves alice in
    bob.followers while bob is gone from alice.following. *)
Lemma symmetry_counterexample : ~ symmetry_preserved.
Proof.
  intros H.
  specialize (H db_double_follower [Unfollow 3 "bob"] db_double_follower_symmetric).
  assert (E : runGraphOps [Unfollow 3 "bob"] db_double_follower =
              mkDb [mkUser 2 "bob" "pw2" false [] ["alice"] [];
                    mkUser 3 "alice" "pw3" false [] [] []] [] [])
    by reflexivity.
  rewrite E in H. clear E.
  destruct (H (mkUser 3 "alice" "pw3" false [] [] [])
              (mkUser 2 "bob" "pw2" false [] ["alice"] [])) as [_ Hback].
  - simpl. tauto.
  - simpl. tauto.
  - simpl. lia.
  - simpl in Hback. apply Hback. left. reflexivity.
Qed.

Lemma NoDup_map_inj {A B : Type} (f : A -> B) (l : list A) (a b : A) :
  NoDup (map f l) -> In a l -> In b l -> f a = f b -> a = b.
Proof.
  induction l as [| x l IH]; simpl; [tauto |].
  intros Hnd Ha Hb Hf. inversion Hnd as [| ? ? Hx Hl]; subst.
  destruct Ha as [-> | Ha]; destruct Hb as [-> | Hb]; auto.
  - exfalso. apply Hx. rewrite Hf. now apply in_map.
  - exfalso. apply Hx. rewrite <- Hf. now apply in_map.
Qed.

Section GraphStep.

Variable db : Db.
Variables A B : User.
Variable target : string.
Hypothesis Hinv : graph_invariant db.
Hypothesis HA : In A (users db).

Let same_id (u : User) : In u (users db) -> uid u = uid A -> u = A.
Proof.
  intros Hu E. destruct Hinv as [Hid _].
  exact (NoDup_map_inj uid (users db) u A Hid Hu HA E).
Qed.

Lemma after_save_same (u : User) : In u (users db) -> after_save A u = u.
Proof.
  intros Hu. unfold after_save. destruct (Nat.eqb (uid u) (uid A)) eqn:E; [| reflexivity].
  apply Nat.eqb_eq in E. rewrite (same_id u Hu E). now destruct A.
Qed.

Lemma map_after_save : map (after_save A) (users db) = users db.
Proof.
  rewrite <- (map_id (users db)) at 2. apply map_ext_in. exact after_save_same.
Qed.

(** Field by field, what [follow] writes. *)
Lemma after_follow_uid (u : User) : uid (after_follow A B target u) = uid u.
Proof.
  unfold after_follow. destruct (Nat.eqb (uid u) (uid B)); cbn [uid];
    destruct (Nat.eqb (uid u) (uid A)); reflexivity.
Qed.

Lemma after_follow_username (u : User) :
  In u (users db) -> username (after_follow A B target u) = username u.
Proof.
  intros Hu. unfold after_follow.
  destruct (Nat.eqb (uid u) (uid B)); cbn [uid];
    destruct (Nat.eqb (uid u) (uid A)) eqn:E; cbn [username]; try reflexivity;
    apply Nat.eqb_eq in E; now rewrite (same_id u Hu E).
Qed.

Lemma after_follow_followers (u : User) :
  followers (after_follow A B target u) =
    if Nat.eqb (uid u) (uid B)
    then Array_push (followers B) (username A) else followers u.
Proof.
  unfold after_follow. destruct (Nat.eqb (uid u) (uid B)); cbn [uid];
    destruct (Nat.eqb (uid u) (uid A)); reflexivity.
Qed.

Lemma after_follow_following (u : User) :
  following (after_follow A B target u) =
    if Nat.eqb (uid u) (uid A)
    then Array_push (following A) target else following u.
Proof.
  unfold after_follow. destruct (Nat.eqb (uid u) (uid B)); cbn [uid];
    destruct (Nat.eqb (uid u) (uid A)); reflexivity.
Qed.

(** Field by field, what [unfollow] writes. *)
Lemma after_unfollow_uid (u : User) : uid (after_unfollow A B target u) = uid u.
Proof.
  unfold after_unfollow. destruct (Nat.eqb (uid u) (uid B)); cbn [uid];
    destruct (Nat.eqb (uid u) (uid A)); reflexivity.
Qed.

Lemma after_unfollow_username (u : User) :
  In u (users db) -> username (after_unfollow A B target u) = username u.
Proof.
  intros Hu. unfold after_unfollow.
  destruct (Nat.eqb (uid u) (uid B)); cbn [uid];
    destruct (Nat.eqb (uid u) (uid A)) eqn:E; cbn [username]; try reflexivity;
    apply Nat.eqb_eq in E; now rewrite (same_id u Hu E).
Qed.

Lemma after_unfollow_followers (u : User) :
  followers (after_unfollow A B target u) =
    if Nat.eqb (uid u) (uid B)
    then removeFirst (followers B) (username A) else followers u.
Proof.
  unfold after_unfollow. destruct (Nat.eqb (uid u) (uid B)); cbn [uid];
    destruct (Nat.eqb (uid u) (uid A)); reflexivity.
Qed.

Lemma after_unfollow_following (u : User) :
  following (after_unfollow A B target u) =
    if Nat.eqb (uid u) (uid A)
    then removeFirst (following A) target else following u.
Proof.
  unfold after_unfollow. destruct (Nat.eqb (uid u) (uid B)); cbn [uid];
    destruct (Nat.eqb (uid u) (uid A)); reflexivity.
Qed.

End GraphStep.

(** Is the stored document [a0] the actor [A], is [b0] the target [B]?
    With unique ids the document is the one that was looked up. *)
Ltac actor_or_target Hid a0 b0 A B Ea Eb :=
  destruct (Nat.eqb (uid a0) (uid A)) eqn:Ea;
    [apply Nat.eqb_eq in Ea;
     assert (a0 = A) by (now apply (NoDup_map_inj uid _ a0 A Hid));
     subst a0
    | apply Nat.eqb_neq in Ea];
  (destruct (Nat.eqb (uid b0) (uid B)) eqn:Eb;
    [apply Nat.eqb_eq in Eb;
     assert (b0 = B) by (now apply (NoDup_map_inj uid _ b0 B Hid));
     subst b0
    | apply Nat.eqb_neq in Eb]).

Lemma invariant_same_users (db db' : Db) :
  users db' = users db -> graph_invariant db -> graph_invariant db'.
Proof.
  unfold graph_invariant, unique_ids, unique_usernames, unique_edges, graph_symmetric.
  intros ->. tauto.
Qed.

Lemma follow_preserves_invariant (db : Db) (A B : User) (target : string) :
  graph_invariant db ->
  In A (users db) -> In B (users db) -> username B = target ->
  ~ In target (following A) -> username A <> target ->
  graph_invariant (set_users db (map (after_follow A B target) (users db))).
Proof.
  intros Hinv HA HB Ht Hnf Hself.
  pose proof Hinv as (Hid & Hname & Hedge & Hsym).
  assert (HAB : uid A <> uid B).
  { intros E. apply Hself. rewrite <- Ht.
    now rewrite (NoDup_map_inj uid (users db) A B Hid HA HB E). }
  assert (Hnb : ~ In (username A) (followers B)).
  { intros Hin. apply Hnf. rewrite <- Ht. now apply (Hsym A B HA HB HAB). }
  assert (Hpush : forall (l : list string) (x : string),
             NoDup l -> ~ In x l -> NoDup (Array_push l x)).
  { intros l x Hl Hx. unfold Array_push. apply NoDup_app; [assumption | |].
    - repeat constructor. simpl. tauto.
    - intros y Hy [<- | []]. contradiction. }
  unfold graph_invariant, unique_ids, unique_usernames.
  cbn [set_users users]. split; [| split; [| split]].
  - rewrite map_map.
    rewrite (map_ext _ uid (after_follow_uid A B target)). exact Hid.
  - rewrite map_map.
    rewrite (map_ext_in _ username _ (after_follow_username db A B target Hinv HA)).
    exact Hname.
  - intros u Hu. cbn [users] in Hu. apply in_map_iff in Hu as [u0 [<- Hu0]].
    rewrite after_follow_following, after_follow_followers. split.
    + destruct (Nat.eqb (uid u0) (uid A)); [| now apply Hedge].
      apply Hpush; [now apply (Hedge A) | assumption].
    + destruct (Nat.eqb (uid u0) (uid B)); [| now apply Hedge].
      apply Hpush; [now apply (Hedge B) | assumption].
  - intros a b Ha Hb Hne. cbn [users] in Ha, Hb.
    apply in_map_iff in Ha as [a0 [<- Ha0]].
    apply in_map_iff in Hb as [b0 [<- Hb0]].
    rewrite !after_follow_uid in Hne.
    rewrite (after_follow_username db A B target Hinv HA a0 Ha0).
    rewrite (after_follow_username db A B target Hinv HA b0 Hb0).
    rewrite after_follow_following, after_follow_followers.
    unfold Array_push.
    actor_or_target Hid a0 b0 A B Ea Eb;
      rewrite ?in_app_iff; simpl.
    + split; intros _; right; left; congruence.
    + rewrite (Hsym A b0 HA Hb0 Hne). split; [| tauto].
      intros [Hin | [E | []]]; [assumption |].
      exfalso. apply Eb. f_equal.
      apply (NoDup_map_inj username (users db) b0 B Hname Hb0 HB). congruence.
    + rewrite (Hsym a0 B Ha0 HB Hne). split; [tauto |].
      intros [Hin | [E | []]]; [assumption |].
      exfalso. apply Ea. f_equal.
      apply (NoDup_map_inj username (users db) a0 A Hname Ha0 HA). congruence.
    + now apply Hsym.
Qed.

Lemma unfollow_preserves_invariant (db : Db) (A B : User) (target : string) :
  graph_invariant db ->
  In A (users db) -> In B (users db) -> username B = target ->
  graph_invariant (set_users db (map (after_unfollow A B target) (users db))).
Proof.
  intros Hinv HA HB Ht.
  pose proof Hinv as (Hid & Hname & Hedge & Hsym).
  destruct (Hedge A HA) as [HndA _]. destruct (Hedge B HB) as [_ HndB].
  unfold graph_invariant, unique_ids, unique_usernames.
  cbn [set_users users]. split; [| split; [| split]].
  - rewrite map_map.
    rewrite (map_ext _ uid (after_unfollow_uid A B target)). exact Hid.
  - rewrite map_map.
    rewrite (map_ext_in _ username _ (after_unfollow_username db A B target Hinv HA)).
    exact Hname.
  - intros u Hu. cbn [users] in Hu. apply in_map_iff in Hu as [u0 [<- Hu0]].
    rewrite after_unfollow_following, after_unfollow_followers. split.
    + destruct (Nat.eqb (uid u0) (uid A)); [| now apply Hedge].
      now apply removeFirst_NoDup.
    + destruct (Nat.eqb (uid u0) (uid B)); [| now apply Hedge].
      now apply removeFirst_NoDup.
  - intros a b Ha Hb Hne. cbn [users] in Ha, Hb.
    apply in_map_iff in Ha as [a0 [<- Ha0]].
    apply in_map_iff in Hb as [b0 [<- Hb0]].
    rewrite !after_unfollow_uid in Hne.
    rewrite (after_unfollow_username db A B target Hinv HA a0 Ha0).
    rewrite (after_unfollow_username db A B target Hinv HA b0 Hb0).
    rewrite after_unfollow_following, after_unfollow_followers.
    actor_or_target Hid a0 b0 A B Ea Eb;
      rewrite ?(In_removeFirst_iff _ _ _ HndA), ?(In_removeFirst_iff _ _ _ HndB).
    + split; intros [_ Hx]; exfalso; apply Hx; congruence.
    + rewrite (Hsym A b0 HA Hb0 Hne). split; [tauto |].
      intros Hin. split; [assumption |]. intros E. apply Eb. f_equal.
      apply (NoDup_map_inj username (users db) b0 B Hname Hb0 HB). congruence.
    + rewrite (Hsym a0 B Ha0 HB Hne). split; [| tauto].
      intros Hin. split; [assumption |]. intros E. apply Ea. f_equal.
      now apply (NoDup_map_inj username (users db) a0 A Hname Ha0 HA).
    + now apply Hsym.
Qed.

Lemma runGraphOp_preserves_invariant (op : GraphOp) (db : Db) :
  graph_invariant db -> graph_invariant (runGraphOp op db).
Proof.
  intros Hinv. destruct op as [actor target | actor target]; cbn [runGraphOp].
  - destruct (findOneByUserId actor db) as [A |] eqn:HA.
    + rewrite (follow_cases db actor A target HA).
      pose proof (findOneByUserId_In _ _ _ HA) as [HAin _].
      destruct (Array_includes (following A) target) eqn:Hinc; [exact Hinv |].
      destruct (String.eqb (username A) target) eqn:Hself; [exact Hinv |].
      destruct (String.eqb target "").
      * cbn [snd]. apply (invariant_same_users db); [| exact Hinv].
        cbn [set_users users]. now apply map_after_save.
      * destruct (UserModel_findOne_username target db) as [B |] eqn:HB;
          [| exact Hinv].
        cbn [snd]. apply UserModel_findOne_username_In in HB as [HBin HBn].
        apply follow_preserves_invariant; try assumption.
        -- now apply Array_includes_not_In.
        -- now apply String.eqb_neq.
    + now rewrite (follow_no_actor db actor target HA).
  - destruct (findOneByUserId actor db) as [A |] eqn:HA.
    + rewrite (unfollow_cases db actor A target HA).
      pose proof (findOneByUserId_In _ _ _ HA) as [HAin _].
      destruct (negb (Array_includes (following A) target)); [exact Hinv |].
      destruct (String.eqb target "").
      * cbn [snd]. apply (invariant_same_users db); [| exact Hinv].
        cbn [set_users users]. now apply map_after_save.
      * destruct (UserModel_findOne_username target db) as [B |] eqn:HB;
          [| exact Hinv].
        cbn [snd]. apply UserModel_findOne_username_In in HB as [HBin HBn].
        now apply unfollow_preserves_invariant.
    + now rewrite (unfollow_no_actor db actor target HA).
Qed.

(** C1, amended. Starting from a state with unique ids and usernames that
    satisfies graph symmetry and edge uniqueness (no repeated entry in any
    following or followers list), every sequence of follow and unfollow
    requests leaves a state with the same properties: in particular
    B.username ∈ A.following ⟺ A.username ∈ B.followers for all users
    A ≠ B. *)
Theorem follow_unfollow_preserve_symmetry (db : Db) (ops : list GraphOp) :
  graph_invariant db -> graph_invariant (runGraphOps ops db).
Proof.
  unfold runGraphOps. revert db.
  induction ops as [| op ops IH]; intros db Hinv; cbn [fold_left].
  - exact Hinv.
  - apply IH. now apply runGraphOp_preserves_invariant.
Qed.

Lemma db_alice_bob_invariant : graph_invariant db_alice_bob.
Proof.
  unfold graph_invariant, unique_ids, unique_usernames, unique_edges, graph_symmetric.
  simpl. split; [| split; [| split]].
  - repeat constructor; simpl; intuition discriminate.
  - repeat constructor; simpl; intuition discriminate.
  - intros u [<- | [<- | []]]; split; constructor.
  - intros a b [<- | [<- | []]] [<- | [<- | []]] _; simpl; tauto.
Qed.

Lemma follow_unfollow_preserve_symmetry_witness :
  graph_invariant
    (runGraphOps [Follow 1 "bob"; Follow 2 "alice"; Unfollow 1 "bob"] db_alice_bob).
Proof.
  exact (follow_unfollow_preserve_symmetry db_alice_bob
           [Follow 1 "bob"; Follow 2 "alice"; Unfollow 1 "bob"]
           db_alice_bob_invariant).
Defined.

(** ** C7 and C2: recommendations *)

Lemma filter_filter {A : Type} (p r : A -> bool) (l : list A) :
  filter p (filter r l) = filter (fun x => r x && p x) l.
Proof.
  induction l as [| x l IH]; [reflexivity |]. simpl.
  destruct (r x); simpl; [destruct (p x) |]; now rewrite IH.
Qed.

Lemma filter_all {A : Type} (p : A -> bool) (l : list A) :
  (forall x, p x = true) -> filter p l = l.
Proof.
  intros Hp. induction l as [| x l IH]; [reflexivity |]. simpl.
  now rewrite Hp, IH.
Qed.

Lemma insertByDate_In (f g : Freet) (l : list Freet) :
  In g (insertByDate f l) <-> g = f \/ In g l.
Proof.
  induction l as [| h l IH]; simpl; [intuition congruence |].
  destruct (Nat.leb (dateModified h) (dateModified f)); simpl.
  - intuition congruence.
  - rewrite IH. intuition congruence.
Qed.

Lemma sortByDateModifiedDesc_In (g : Freet) (l : list Freet) :
  In g (sortByDateModifiedDesc l) <-> In g l.
Proof.
  induction l as [| f l IH]; simpl; [tauto |].
  rewrite insertByDate_In, IH. intuition congruence.
Qed.

Lemma insertByDate_Permutation (f : Freet) (l : list Freet) :
  Permutation (f :: l) (insertByDate f l).
Proof.
  induction l as [| h l IH]; simpl; [reflexivity |].
  destruct (Nat.leb (dateModified h) (dateModified f)); [reflexivity |].
  rewrite perm_swap. now constructor.
Qed.

Lemma sortByDateModifiedDesc_Permutation (l : list Freet) :
  Permutation l (sortByDateModifiedDesc l).
Proof.
  induction l as [| f l IH]; simpl; [constructor |].
  rewrite <- insertByDate_Permutation. now constructor.
Qed.

Lemma insertByDate_Sorted (f : Freet) (l : list Freet) :
  StronglySorted moreRecent l -> StronglySorted moreRecent (insertByDate f l).
Proof.
  induction l as [| h l IH]; intros Hs; simpl.
  - repeat constructor.
  - inversion Hs as [| ? ? Hl Hall]; subst.
    destruct (Nat.leb (dateModified h) (dateModified f)) eqn:E.
    + apply Nat.leb_le in E. constructor; [assumption |].
      constructor; [exact E |].
      rewrite Forall_forall in *. intros g Hg. unfold moreRecent in *.
      specialize (Hall g Hg). lia.
    + apply Nat.leb_gt in E. constructor; [now apply IH |].
      rewrite Forall_forall in *. intros g Hg.
      apply insertByDate_In in Hg as [-> | Hg]; [unfold moreRecent; lia | now apply Hall].
Qed.

(** The scan order is most-recent-first. *)
Lemma sortByDateModifiedDesc_Sorted (l : list Freet) :
  StronglySorted moreRecent (sortByDateModifiedDesc l).
Proof.
  induction l as [| f l IH]; simpl; [constructor | now apply insertByDate_Sorted].
Qed.

Lemma authorOf_Some (db : Db) (f : Freet) (a : User) :
  findOneByUserId (authorId f) db = Some a -> authorOf db f = [a].
Proof. unfold authorOf. now intros ->. Qed.

Lemma freetsToCheck_loop_spec (db : Db) (user : User) (l acc : list Freet) :
  (forall f, In f l -> findOneByUserId (authorId f) db <> None) ->
  freetsToCheck_loop (following user) l acc db =
    Ok (acc ++ filter (fun f => negb (authorFollowed db user f)) l).
Proof.
  revert acc. induction l as [| f l IH]; intros acc Hex; simpl.
  - now rewrite app_nil_r.
  - destruct (findOneByUserId (authorId f) db) as [a |] eqn:Ha.
    + unfold authorFollowed at 1. rewrite (authorOf_Some db f a Ha). simpl.
      rewrite orb_false_r.
      destruct (Array_includes (following user) (username a)); simpl.
      * apply IH. intros g Hg. apply Hex. now right.
      * rewrite IH; [| intros g Hg; apply Hex; now right].
        unfold Array_push. now rewrite <- app_assoc.
    + exfalso. apply (Hex f); [now left | assumption].
Qed.

Lemma mentionsInterest_existsb (f : Freet) (l : list string) :
  mentionsInterest f l = existsb (fun i => String_includes (content f) i) l.
Proof.
  induction l as [| i l IH]; [reflexivity |]. simpl.
  destruct (String_includes (content f) i); [reflexivity | exact IH].
Qed.

Lemma interestingFreets_loop_spec (user : User) (l acc : list Freet) :
  interestingFreets_loop (interests user) l acc = acc ++ filter (bodyMatches user) l.
Proof.
  revert acc. induction l as [| f l IH]; intros acc; simpl.
  - now rewrite app_nil_r.
  - unfold bodyMatches at 1. rewrite <- mentionsInterest_existsb.
    destruct (mentionsInterest f (interests user)).
    + rewrite IH. unfold Array_push. now rewrite <- app_assoc.
    + apply IH.
Qed.

Lemma distinctAuthors_filter (q : string -> bool) (l : list User) :
  distinctAuthors (filter (fun b => q (username b)) l) =
  filter (fun b => q (username b)) (distinctAuthors l).
Proof.
  induction l as [| a l IH]; [reflexivity |]. simpl.
  destruct (q (username a)) eqn:Hq; simpl.
  - rewrite ?Hq, IH. f_equal. rewrite !filter_filter.
    apply filter_ext. intros b. apply andb_comm.
  - rewrite ?Hq, IH, filter_filter. apply filter_ext. intros b.
    destruct (String.eqb (username b) (username a)) eqn:E; [| reflexivity].
    apply String.eqb_eq in E. rewrite E, Hq. reflexivity.
Qed.

Lemma Array_includes_push (l : list string) (x y : string) :
  Array_includes (Array_push l y) x = Array_includes l x || String.eqb x y.
Proof.
  unfold Array_includes, Array_push. rewrite existsb_app. simpl.
  now rewrite orb_false_r.
Qed.

Lemma authorsToFollow_loop_spec (db : Db) (l : list Freet) (acc : list User)
  (names : list string) :
  (forall f, In f l -> findOneByUserId (authorId f) db <> None) ->
  authorsToFollow_loop l acc names db =
    Ok (acc ++ distinctAuthors
                 (filter (fun a => negb (Array_includes names (username a)))
                    (flat_map (authorOf db) l))).
Proof.
  revert acc names. induction l as [| f l IH]; intros acc names Hex; simpl.
  - now rewrite app_nil_r.
  - destruct (findOneByUserId (authorId f) db) as [a |] eqn:Ha.
    + rewrite (authorOf_Some db f a Ha). simpl.
      destruct (Array_includes names (username a)) eqn:Hin; simpl.
      * apply IH. intros g Hg. apply Hex. now right.
      * rewrite IH; [| intros g Hg; apply Hex; now right].
        unfold Array_push at 1. rewrite <- app_assoc. simpl. do 3 f_equal.
        rewrite <- (distinctAuthors_filter
                      (fun n => negb (String.eqb n (username a)))).
        f_equal. rewrite filter_filter. apply filter_ext. intros b.
        rewrite Array_includes_push. now rewrite negb_orb.
    + exfalso. apply (Hex f); [now left | assumption].
Qed.

Lemma findRecommended_spec (db : Db) (userId : ObjectId) (user : User) :
  findOneByUserId userId db = Some user ->
  authors_exist db ->
  findRecommended userId db = (Ok (recommend_spec user db), db).
Proof.
  intros Hu Hex. unfold findRecommended. rewrite Hu.
  assert (Hs : forall f, In f (sortByDateModifiedDesc (freets db)) ->
                         findOneByUserId (authorId f) db <> None).
  { intros f Hf. apply Hex. now apply sortByDateModifiedDesc_In. }
  rewrite (freetsToCheck_loop_spec db user _ [] Hs).
  cbn [app]. rewrite interestingFreets_loop_spec. cbn [app].
  rewrite authorsToFollow_loop_spec.
  - cbn [app]. unfold recommend_spec. rewrite filter_filter.
    do 3 f_equal. apply filter_all. reflexivity.
  - intros f Hf. apply filter_In in Hf as [Hf _]. apply filter_In in Hf as [Hf _].
    now apply Hs.
Qed.

Lemma distinctAuthors_incl (l : list User) (a : User) :
  In a (distinctAuthors l) -> In a l.
Proof.
  induction l as [| b l IH]; simpl; [tauto |].
  intros [-> | H]; [now left |]. apply filter_In in H as [H _]. right. now apply IH.
Qed.

Lemma distinctAuthors_usernames (l : list User) (n : string) :
  In n (map username l) <-> In n (map username (distinctAuthors l)).
Proof.
  induction l as [| b l IH]; simpl; [tauto |]. split.
  - intros [<- | H]; [now left |].
    destruct (String.eqb n (username b)) eqn:E.
    + apply String.eqb_eq in E. now left.
    + right. apply IH in H. apply in_map_iff in H as [c [<- Hc]].
      apply in_map. apply filter_In. split; [assumption |]. now rewrite E.
  - intros [<- | H]; [now left |]. right. apply IH.
    apply in_map_iff in H as [c [<- Hc]]. apply filter_In in Hc as [Hc _].
    now apply in_map.
Qed.

(** The recommended authors are pairwise distinct by username. *)
Lemma distinctAuthors_NoDup (l : list User) :
  NoDup (map username (distinctAuthors l)).
Proof.
  induction l as [| b l IH]; simpl; constructor.
  - intros H. apply in_map_iff in H as [c [Hc Hin]].
    apply filter_In in Hin as [_ Hne]. rewrite Hc, String.eqb_refl in Hne.
    discriminate Hne.
  - clear -IH. induction (distinctAuthors l) as [| c m IHm]; simpl; [constructor |].
    inversion IH as [| ? ? Hc Hm]; subst.
    destruct (negb (String.eqb (username c) (username b))); simpl; [| now apply IHm].
    constructor; [| now apply IHm].
    intros H. apply Hc. apply in_map_iff in H as [d [Hd Hin]].
    apply filter_In in Hin as [Hin _]. rewrite <- Hd. now apply in_map.
Qed.

Lemma freetsToCheck_loop_Ok (db : Db) (fl : list string) (l acc r : list Freet) :
  freetsToCheck_loop fl l acc db = Ok r ->
  forall f, In f l -> findOneByUserId (authorId f) db <> None.
Proof.
  revert acc. induction l as [| g l IH]; intros acc H f Hf; [destruct Hf |].
  simpl in H. destruct (findOneByUserId (authorId g) db) as [a |] eqn:Ha;
    [| discriminate H].
  destruct Hf as [<- | Hf]; [congruence |].
  destruct (negb (Array_includes fl (username a))); eapply IH; eauto.
Qed.

Lemma findRecommended_Ok (db db' : Db) (userId : ObjectId) (l : list User) :
  findRecommended userId db = (Ok l, db') -> authors_exist db.
Proof.
  unfold findRecommended. intros H.
  destruct (findOneByUserId userId db) as [user |]; [| discriminate H].
  destruct (freetsToCheck_loop _ _ _ _) as [r | e] eqn:E; [| discriminate H].
  intros f Hf. apply (freetsToCheck_loop_Ok _ _ _ _ _ E).
  now apply sortByDateModifiedDesc_In.
Qed.

Lemma recommend_cases (db : Db) (userId : ObjectId) (user : User) :
  findOneByUserId userId db = Some user ->
  recommend userId db =
    match interests user with
    | [] => (NoInterests, db)
    | _ :: _ =>
        match findRecommended userId db with
        | (Ok l, db') => (Sent 200 "Accounts have been retrieved successfully." l, db')
        | (Throw e, db') => (Crashed e, db')
        end
    end.
Proof.
  intros Hu. unfold recommend, getRecommended, runRoute.
  cbn [runValidators isUserLoggedIn session_userId].
  unfold isUserHasInterests. cbn [session_userId]. rewrite Hu.
  destruct (interests user); [reflexivity |].
  cbn [runValidators withSessionUser session_userId]. unfold bind.
  destruct (findRecommended userId db) as [[l0 | e] db']; reflexivity.
Qed.

Lemma recommend_spec_not_followed (db : Db) (user a : User) :
  In a (recommend_spec user db) -> ~ In (username a) (following user).
Proof.
  unfold recommend_spec. intros H. apply distinctAuthors_incl in H.
  apply in_flat_map in H as [f [Hf Ha]]. apply filter_In in Hf as [_ Hkeep].
  apply andb_prop in Hkeep as [Hnf _]. apply negb_true_iff in Hnf.
  unfold authorFollowed in Hnf.
  intros Hin. apply Array_includes_In in Hin.
  assert (Ht : existsb (fun a0 => Array_includes (following user) (username a0))
                 (authorOf db f) = true).
  { apply existsb_exists. now exists a. }
  congruence.
Qed.

Lemma recommend_answer (db : Db) (userId : ObjectId) (user : User) :
  findOneByUserId userId db = Some user ->
  interests user <> [] ->
  authors_exist db ->
  recommend userId db =
    (Sent 200 "Accounts have been retrieved successfully."
       (recommend_spec user db), db).
Proof.
  intros Hu Hi Hex.
  rewrite (recommend_cases db userId user Hu).
  destruct (interests user); [congruence |].
  now rewrite (findRecommended_spec db userId user Hu Hex).
Qed.


Lemma db_rust_scenario_authors : authors_exist db_rust_scenario.
Proof.
  intros f [<- | [<- | []]]; discriminate.
Qed.


(** C2, counterexample: the scan leaves out followed authors only, so a
    user whose own content matches an interest is recommended to
    themselves. *)
Lemma recommend_self_counterexample : ~ recommend_excludes_self_and_followed.
Proof.
  intros H.
  destruct (H db_own_freet db_own_freet 1 (mkUser 1 "alice" "pw1" false ["rust"] [] [])
              200 "Accounts have been retrieved successfully."
              [mkUser 1 "alice" "pw1" false ["rust"] [] []]
              eq_refl ltac:(discriminate) eq_refl
              (mkUser 1 "alice" "pw1" false ["rust"] [] []) (or_introl eq_refl))
    as [Hself _].
  now apply Hself.
Qed.

(** C2, amended. For a user with a non-empty interest set, the list that
    recommend(user) returns holds no author whose username is in
    user.following, and a list is returned whenever every content item has
    an author document.  (The user's own username is not excluded.) *)
Theorem recommend_excludes_followed (db : Db) (userId : ObjectId) (user : User) :
  findOneByUserId userId db = Some user ->
  interests user <> [] ->
  (forall db' status message l,
     recommend userId db = (Sent status message l, db') ->
     forall a, In a l -> ~ In (username a) (following user)) /\
  (authors_exist db ->
   exists l,
     recommend userId db =
       (Sent 200 "Accounts have been retrieved successfully." l, db)).
Proof.
  intros Hu Hi. split.
  - intros db' status message l H a Ha.
    rewrite (recommend_cases db userId user Hu) in H.
    destruct (interests user); [congruence |].
    destruct (findRecommended userId db) as [[found | e] db0] eqn:E; [| discriminate H].
    pose proof (findRecommended_Ok _ _ _ _ E) as Hex.
    rewrite (findRecommended_spec db userId user Hu Hex) in E.
    injection E as <- <-. injection H as _ _ <- _.
    now apply (recommend_spec_not_followed db user a).
  - intros Hex. exists (recommend_spec user db).
    now apply recommend_answer.
Qed.

Lemma recommend_excludes_followed_witness :
  exists l,
    recommend 1 db_rust_scenario =
      (Sent 200 "Accounts have been retrieved successfully." l, db_rust_scenario).
Proof.
  apply (proj2 (recommend_excludes_followed db_rust_scenario 1
                  (mkUser 1 "alice" "pw1" false ["rust"] [] [])
                  eq_refl ltac:(discriminate))).
  exact db_rust_scenario_authors.
Defined.

(** ** C9: the gates of the content-trust ledger *)








(** When every validator passes, the mutation runs: a verified user
    endorses a fact and is recorded as its endorser. *)
Lemma endorse_fact_by_verified :
  runRoute endorseValidators (ledgerHandler Endorse "Endorsed.")
    (mkRequest (Some 1) (mkBody false false None None None false None false None 10))
    db_fact_verified =
  (Sent 200 "Endorsed."
     (mkFreet 10 1 "water boils at 100 degrees" 100 ["alice"] [] true),
   mkDb [mkUser 1 "alice" "pw1" true [] [] []]
        [mkFreet 10 1 "water boils at 100 degrees" 100 ["alice"] [] true]
        []).
Proof. vm_compute. reflexivity. Qed.

(** ** The VSP workflow: what each route does *)

Lemma find_map_after_save (X : User) (userId : ObjectId) (us : list User) :
  find (fun u => Nat.eqb (uid u) userId) (map (after_save X) us) =
  option_map (after_save X) (find (fun u => Nat.eqb (uid u) userId) us).
Proof.
  induction us as [| u us IH]; [reflexivity |]. simpl.
  assert (E : uid (after_save X u) = uid u).
  { unfold after_save. now destruct (Nat.eqb (uid u) (uid X)). }
  rewrite E. destruct (Nat.eqb (uid u) userId); [reflexivity | exact IH].
Qed.

Lemma updateOne_VSP (db : Db) (userId : ObjectId) (u0 : User) (b : Body) (rv : bool) :
  findOneByUserId userId db = Some u0 ->
  updateOne userId (with_VSP_flags b rv) db =
    (Ok (with_VSP u0 (negb rv)),
     set_users db (map (after_save (with_VSP u0 (negb rv))) (users db))).
Proof.
  intros H. unfold updateOne, bind, get_db. rewrite H. reflexivity.
Qed.

(** After [user.save()] the saved document is the one stored under its id. *)
Lemma findOneByUserId_after_save (db : Db) (userId : ObjectId) (u0 : User) (v : bool) :
  findOneByUserId userId db = Some u0 ->
  findOneByUserId userId
    (set_users db (map (after_save (with_VSP u0 v)) (users db))) =
  Some (with_VSP u0 v).
Proof.
  intros H. unfold findOneByUserId in *. cbn [set_users users].
  rewrite find_map_after_save, H. cbn [option_map]. f_equal.
  unfold after_save, with_VSP. cbn [uid]. rewrite Nat.eqb_refl. reflexivity.
Qed.

Lemma find_exact_setGrantedFirst (n : string) (g : bool) (rs : list VSPRequest)
  (r : VSPRequest) :
  find (fun x => String.eqb (rq_username x) n) rs = Some r ->
  find (fun x => String.eqb (rq_username x) n) (setGrantedFirst n g rs) =
  Some (mkVSPRequest (rq_username r) (rq_content r) g).
Proof.
  induction rs as [| x rs IH]; [discriminate |]. simpl.
  destruct (String.eqb (rq_username x) n) eqn:E; simpl.
  - intros [= <-]. now rewrite E.
  - rewrite E. exact IH.
Qed.

(** When both lookups find the same request, so they do after it is saved. *)
Lemma find_both_setGrantedFirst (p : string -> bool) (n : string) (g : bool)
  (rs : list VSPRequest) (r : VSPRequest) :
  find (fun x => p (rq_username x)) rs = Some r ->
  find (fun x => String.eqb (rq_username x) n) rs = Some r ->
  find (fun x => p (rq_username x)) (setGrantedFirst n g rs) =
  Some (mkVSPRequest (rq_username r) (rq_content r) g).
Proof.
  induction rs as [| x rs IH]; [discriminate |]. simpl.
  destruct (p (rq_username x)) eqn:Ep; destruct (String.eqb (rq_username x) n) eqn:Ee;
    simpl; rewrite ?Ep.
  - now intros [= <-] _.
  - intros [= <-] H. apply find_some in H as [_ H]. congruence.
  - intros H [= <-]. apply find_some in H as [_ H]. congruence.
  - exact IH.
Qed.

Section Workflow.

Variable RegExp_test : string -> string -> bool.

Local Abbreviation findRequest := (VSPRequestCollection_findOneByUsername RegExp_test).
Local Abbreviation findUser := (findOneByUsername RegExp_test).

(** The outcome of [submit], case by case, in the order the route decides. *)
Lemma submit_cases (db : Db) (userId : ObjectId) (user : User) (justification : string) :
  findOneByUserId userId db = Some user ->
  submit RegExp_test userId justification db =
    if VSP user then (AlreadyVerified, db)
    else match findRequest (Some (username user)) db with
         | Some _ => (RequestAlreadyExists, db)
         | None =>
             if schemaAccepts (username user) (Some justification)
             then
               (Sent 201 "Request successfully created."
                  (mkVSPRequest (username user) justification false),
                set_vsprequests db
                  (Array_push (vsprequests db)
                     (mkVSPRequest (username user) justification false)))
             else (Crashed ValidationError, db)
         end.
Proof.
  intros Hu. unfold submit, postVspRequest, runRoute.
  cbn [runValidators isUserLoggedIn session_userId].
  unfold isUserAlreadyVSP, isUserAlreadySubmittedRequest.
  cbn [session_userId]. rewrite Hu.
  destruct (VSP user); [reflexivity |]. cbn [negb].
  destruct (findRequest (Some (username user)) db); [reflexivity |].
  cbn [runValidators withSessionUser session_userId body submitBody b_content].
  unfold bind, get_db. rewrite Hu. cbn [deref ret].
  unfold VSPRequestCollection_addOne.
  destruct (schemaAccepts (username user) (Some justification)); reflexivity.
Qed.

Lemma accept_cases (db : Db) (admin : ObjectId) (a : User) (name : string) :
  findOneByUserId admin db = Some a ->
  accept RegExp_test admin name db =
    if negb (String.eqb (username a) "lola") then (NotAuthorized, db)
    else match findRequest (Some name) db with
         | None => (RequestNotFound, db)
         | Some r => if granted r then (AlreadyGranted, db) else decide RegExp_test name true db
         end.
Proof.
  intros Ha. unfold accept, putVspRequest, runRoute.
  cbn [runValidators isUserLoggedIn session_userId].
  unfold isUserAdmin. cbn [session_userId]. rewrite Ha.
  destruct (String.eqb (username a) "lola"); [| reflexivity]. cbn [negb].
  unfold isRequestExists, isRequestAlreadyAccepted.
  cbn [body usernameBody b_username].
  destruct (findRequest (Some name) db) as [r |]; [| reflexivity].
  destruct (granted r); [reflexivity |].
  cbn [negb runValidators]. unfold decide, acceptOne, bind, get_db.
  cbn [body usernameBody b_username].
  destruct (VSPRequestModel_findOne (Some name) db) as [r' |]; [| reflexivity].
  cbn [deref ret put_db with_VSP_flags usernameBody b_username b_revoke].
  destruct (findUser (Some name) _) as [u |]; [| reflexivity].
  cbn [deref ret].
  destruct (findOneByUserId (uid u) _) as [u0 |] eqn:Hu0.
  - rewrite (updateOne_VSP _ (uid u) u0 _ false Hu0). reflexivity.
  - unfold updateOne, bind, get_db. rewrite Hu0. reflexivity.
Qed.

Lemma revoke_cases (db : Db) (admin : ObjectId) (a : User) (name : string) :
  findOneByUserId admin db = Some a ->
  revoke RegExp_test admin name db =
    if negb (String.eqb (username a) "lola") then (NotAuthorized, db)
    else match findRequest (Some name) db with
         | None => (RequestNotFound, db)
         | Some r => if granted r then decide RegExp_test name false db else (NotYetGranted, db)
         end.
Proof.
  intros Ha. unfold revoke, deleteVspStatus, runRoute.
  cbn [runValidators isUserLoggedIn session_userId].
  unfold isUserAdmin. cbn [session_userId]. rewrite Ha.
  destruct (String.eqb (username a) "lola"); [| reflexivity]. cbn [negb].
  unfold isRequestExists, isRequestNotYetGranted.
  cbn [body usernameBody b_username].
  destruct (findRequest (Some name) db) as [r |]; [| reflexivity].
  destruct (granted r); [| reflexivity].
  cbn [runValidators]. unfold decide, ungrantOne, bind, get_db.
  cbn [body usernameBody b_username].
  destruct (VSPRequestModel_findOne (Some name) db) as [r' |]; [| reflexivity].
  cbn [deref ret put_db with_VSP_flags usernameBody b_username b_revoke].
  destruct (findUser (Some name) _) as [u |]; [| reflexivity].
  cbn [deref ret].
  destruct (findOneByUserId (uid u) _) as [u0 |] eqn:Hu0.
  - rewrite (updateOne_VSP _ (uid u) u0 _ true Hu0). reflexivity.
  - unfold updateOne, bind, get_db. rewrite Hu0. reflexivity.
Qed.

(** Without the administrator's document [isUserAdmin] throws. *)
Lemma accept_no_admin (db : Db) (admin : ObjectId) (name : string) :
  findOneByUserId admin db = None ->
  accept RegExp_test admin name db = (Crashed TypeError, db).
Proof.
  intros Ha. unfold accept, putVspRequest, runRoute.
  cbn [runValidators isUserLoggedIn session_userId].
  unfold isUserAdmin. cbn [session_userId]. now rewrite Ha.
Qed.

Lemma revoke_no_admin (db : Db) (admin : ObjectId) (name : string) :
  findOneByUserId admin db = None ->
  revoke RegExp_test admin name db = (Crashed TypeError, db).
Proof.
  intros Ha. unfold revoke, deleteVspStatus, runRoute.
  cbn [runValidators isUserLoggedIn session_userId].
  unfold isUserAdmin. cbn [session_userId]. now rewrite Ha.
Qed.

End Workflow.

Lemma findOneByUserId_set_vsprequests (db : Db) (rs : list VSPRequest) (userId : ObjectId) :
  findOneByUserId userId (set_vsprequests db rs) = findOneByUserId userId db.
Proof. reflexivity. Qed.

(** Saving the VSP flag of one user leaves every username as it was. *)
Lemma username_after_save (db : Db) (userId target : ObjectId) (a u0 : User) (v : bool) :
  findOneByUserId userId db = Some a ->
  findOneByUserId target db = Some u0 ->
  exists a',
    findOneByUserId userId
      (set_users db (map (after_save (with_VSP u0 v)) (users db))) = Some a' /\
    username a' = username a.
Proof.
  intros Ha Hu. exists (after_save (with_VSP u0 v) a). split.
  - unfold findOneByUserId in *. cbn [set_users users].
    now rewrite find_map_after_save, Ha.
  - unfold after_save. cbn [uid with_VSP].
    destruct (Nat.eqb (uid a) (uid u0)) eqn:E; [| reflexivity].
    apply Nat.eqb_eq in E. cbn [username].
    pose proof (findOneByUserId_In _ _ _ Ha) as [_ Ea].
    pose proof (findOneByUserId_In _ _ _ Hu) as [_ Eu].
    assert (Et : target = userId) by congruence.
    rewrite Et, Ha in Hu. injection Hu as <-. reflexivity.
Qed.

Lemma find_app_none {A : Type} (p : A -> bool) (l1 l2 : list A) :
  find p l1 = None -> find p (l1 ++ l2) = find p l2.
Proof.
  induction l1 as [| x l1 IH]; [reflexivity |]. simpl.
  destruct (p x); [discriminate | exact IH].
Qed.

Lemma setGrantedFirst_app_none (n : string) (g : bool) (l1 l2 : list VSPRequest) :
  find (fun x => String.eqb (rq_username x) n) l1 = None ->
  setGrantedFirst n g (l1 ++ l2) = l1 ++ setGrantedFirst n g l2.
Proof.
  induction l1 as [| x l1 IH]; [reflexivity |]. simpl.
  destruct (String.eqb (rq_username x) n); [discriminate |].
  intros H. now rewrite IH.
Qed.

Lemma setGrantedFirst_app_some (n : string) (g : bool) (l1 l2 : list VSPRequest)
  (r : VSPRequest) :
  find (fun x => String.eqb (rq_username x) n) l1 = Some r ->
  setGrantedFirst n g (l1 ++ l2) = setGrantedFirst n g l1 ++ l2.
Proof.
  induction l1 as [| x l1 IH]; [discriminate |]. simpl.
  destruct (String.eqb (rq_username x) n); [reflexivity |].
  intros H. now rewrite IH.
Qed.

Lemma find_regex_setGrantedFirst_none (p : string -> bool) (n : string) (g : bool)
  (l : list VSPRequest) :
  find (fun x => p (rq_username x)) l = None ->
  find (fun x => p (rq_username x)) (setGrantedFirst n g l) = None.
Proof.
  induction l as [| x l IH]; [reflexivity |]. simpl.
  destruct (p (rq_username x)) eqn:Ep; [discriminate |].
  destruct (String.eqb (rq_username x) n); simpl; rewrite Ep; [tauto | exact IH].
Qed.

(** The lookups by username and by id that find the same user still do
    after that user's VSP flag is saved. *)
Lemma find_username_after_save (p : string -> bool) (us : list User) (u : User) (v : bool) :
  find (fun d => p (username d)) us = Some u ->
  find (fun d => Nat.eqb (uid d) (uid u)) us = Some u ->
  find (fun d => p (username d)) (map (after_save (with_VSP u v)) us) =
  Some (with_VSP u v).
Proof.
  induction us as [| d us IH]; [discriminate |]. simpl.
  destruct (p (username d)) eqn:Ep.
  - intros [= ->] _.
    assert (E : after_save (with_VSP u v) u = with_VSP u v).
    { unfold after_save, with_VSP. cbn [uid]. now rewrite Nat.eqb_refl. }
    rewrite E. unfold with_VSP at 1. cbn [username]. now rewrite Ep.
  - intros Hp Hid. destruct (Nat.eqb (uid d) (uid u)) eqn:Ed.
    + injection Hid as ->. apply find_some in Hp as [_ Hp]. congruence.
    + assert (E : after_save (with_VSP u v) d = d).
      { unfold after_save, with_VSP. cbn [uid]. now rewrite Ed. }
      rewrite E, Ep. now apply IH.
Qed.

Section WorkflowClaims.

Variable RegExp_test : string -> string -> bool.

Local Abbreviation findRequest := (VSPRequestCollection_findOneByUsername RegExp_test).
Local Abbreviation findUser := (findOneByUsername RegExp_test).

(** What a successful [accept] or [revoke] found and wrote. *)
Lemma decide_Sent (name : string) (g : bool) (db db' : Db) (status : nat)
  (message : string) (r : VSPRequest) (u : User) :
  decide RegExp_test name g db = (Sent status message (r, u), db') ->
  exists r' u1 u0,
    VSPRequestModel_findOne (Some name) db = Some r' /\
    findUser (Some name) db = Some u1 /\
    findOneByUserId (uid u1) db = Some u0 /\
    r = mkVSPRequest name (rq_content r') g /\
    u = with_VSP u0 g /\
    db' = mkDb (map (after_save (with_VSP u0 g)) (users db)) (freets db)
            (setGrantedFirst name g (vsprequests db)).
Proof.
  unfold decide. intros H.
  destruct (VSPRequestModel_findOne (Some name) db) as [r' |] eqn:Hr; [| discriminate H].
  assert (En : rq_username r' = name).
  { cbn [VSPRequestModel_findOne] in Hr. apply find_some in Hr as [_ Hr].
    now apply String.eqb_eq in Hr. }
  rewrite En in H.
  change (findOneByUsername RegExp_test (Some name)
            (set_vsprequests db (setGrantedFirst name g (vsprequests db))))
    with (findUser (Some name) db) in H.
  destruct (findUser (Some name) db) as [u1 |] eqn:Hu1; [| discriminate H].
  rewrite findOneByUserId_set_vsprequests in H.
  destruct (findOneByUserId (uid u1) db) as [u0 |] eqn:Hu0; [| discriminate H].
  injection H as _ _ <- <- <-.
  exists r', u1, u0.
  do 5 (split; [first [reflexivity | assumption] |]). reflexivity.
Qed.



Lemma submit_Sent (db db1 : Db) (userId : ObjectId) (user : User) (justification : string)
  (status : nat) (message : string) (r : VSPRequest) :
  findOneByUserId userId db = Some user ->
  submit RegExp_test userId justification db = (Sent status message r, db1) ->
  VSP user = false /\
  findRequest (Some (username user)) db = None /\
  r = mkVSPRequest (username user) justification false /\
  db1 = mkDb (users db) (freets db)
          (vsprequests db ++ [mkVSPRequest (username user) justification false]).
Proof.
  intros Hu H. rewrite (submit_cases RegExp_test db userId user justification Hu) in H.
  destruct (VSP user); [discriminate H |].
  destruct (findRequest (Some (username user)) db); [discriminate H |].
  destruct (schemaAccepts (username user) (Some justification)); [| discriminate H].
  injection H as _ _ <- <-. repeat split; reflexivity.
Qed.

Lemma decide_succeeds (name : string) (g : bool) (db : Db) (r' : VSPRequest)
  (u1 u0 : User) :
  VSPRequestModel_findOne (Some name) db = Some r' ->
  findUser (Some name) db = Some u1 ->
  findOneByUserId (uid u1) db = Some u0 ->
  decide RegExp_test name g db =
    (Sent 200
       (if g then "Request was successfully accepted."
        else "VSP status was successfully revoked.")
       (mkVSPRequest name (rq_content r') g, with_VSP u0 g),
     mkDb (map (after_save (with_VSP u0 g)) (users db)) (freets db)
       (setGrantedFirst name g (vsprequests db))).
Proof.
  intros Hr Hu1 Hu0. unfold decide. rewrite Hr.
  assert (En : rq_username r' = name).
  { cbn [VSPRequestModel_findOne] in Hr. apply find_some in Hr as [_ Hr].
    now apply String.eqb_eq in Hr. }
  rewrite En.
  change (findOneByUsername RegExp_test (Some name)
            (set_vsprequests db (setGrantedFirst name g (vsprequests db))))
    with (findUser (Some name) db).
  rewrite Hu1, findOneByUserId_set_vsprequests, Hu0. reflexivity.
Qed.

(** C3, amended. After a successful submit, accept and revoke for a
    username (the lookup by username finding the submitting user), the
    user's verified flag is false and the request document is still
    stored, with granted=false, exactly as after the submit; a further
    accept for that username therefore succeeds without a new submit. *)
Theorem revoke_clears_flag_keeps_request
  (db db1 db2 db3 : Db) (userId admin : ObjectId) (u : User) (justification : string)
  (s1 s2 s3 : nat) (m1 m2 m3 : string) (p1 : VSPRequest) (p2 p3 : VSPRequest * User) :
  findOneByUserId userId db = Some u ->
  findUser (Some (username u)) db = Some u ->
  submit RegExp_test userId justification db = (Sent s1 m1 p1, db1) ->
  accept RegExp_test admin (username u) db1 = (Sent s2 m2 p2, db2) ->
  revoke RegExp_test admin (username u) db2 = (Sent s3 m3 p3, db3) ->
  (exists u3, findOneByUserId userId db3 = Some u3 /\ VSP u3 = false) /\
  vsprequests db3 = vsprequests db1 /\
  VSPRequestModel_findOne (Some (username u)) db3 =
    Some (mkVSPRequest (username u) justification false) /\
  (exists p4 db4,
     accept RegExp_test admin (username u) db3 =
       (Sent 200 "Request was successfully accepted." p4, db4)).
Proof.
  intros Hu Hlook Hs Ha Hr.
  destruct p2 as [r2 u2]. destruct p3 as [r3 u3].
  pose proof (findOneByUserId_In _ _ _ Hu) as [_ Eid].
  apply (submit_Sent db db1 userId u justification s1 m1 p1 Hu) in Hs
    as (Hv & Hnone & -> & ->).
  set (name := username u) in *.
  (* the first accept *)
  destruct (findOneByUserId admin (mkDb (users db) (freets db) ((vsprequests db) ++ [mkVSPRequest name justification false])))
    as [a |] eqn:Hadm;
    [| rewrite (accept_no_admin RegExp_test _ admin name Hadm) in Ha; discriminate Ha].
  rewrite (accept_cases RegExp_test _ admin a name Hadm) in Ha.
  destruct (String.eqb (username a) "lola") eqn:Hlola; [| discriminate Ha].
  cbn [negb] in Ha.
  assert (Hreq1 : forall g,
            find (fun x => RegExp_test name (rq_username x))
              ((vsprequests db) ++ [mkVSPRequest name justification g]) =
            if RegExp_test name name
            then Some (mkVSPRequest name justification g) else None).
  { intros g. rewrite (find_app_none _ (vsprequests db) _ Hnone). reflexivity. }
  unfold VSPRequestCollection_findOneByUsername in Ha.
  cbn [vsprequests interpolated] in Ha.
  rewrite (Hreq1 false) in Ha.
  destruct (RegExp_test name name) eqn:Hrefl; [| discriminate Ha].
  cbn [granted] in Ha.
  apply decide_Sent in Ha as (r' & u1 & u0 & Hr' & Hu1 & Hu0 & -> & -> & ->).
  change (findUser (Some name) db = Some u1) in Hu1.
  rewrite Hlook in Hu1. injection Hu1 as <-.
  change (findOneByUserId (uid u) db = Some u0) in Hu0.
  rewrite Eid, Hu in Hu0. injection Hu0 as <-.
  cbn [users freets vsprequests] in Hr.
  (* the revoke *)
  assert (Hid : find (fun d => Nat.eqb (uid d) (uid u)) (users db) = Some u).
  { rewrite Eid. exact Hu. }
  destruct (username_after_save
              (mkDb (users db) (freets db) ((vsprequests db) ++ [mkVSPRequest name justification false])) admin (uid u) a u true
              Hadm ltac:(rewrite Eid; exact Hu)) as [a2 [Ha2 Hn2]].
  cbn [set_users users freets vsprequests] in Ha2.
  assert (Ha2' : findOneByUserId admin
                   (mkDb (map (after_save (with_VSP u true)) (users db)) (freets db)
                      (setGrantedFirst name true ((vsprequests db) ++ [mkVSPRequest name justification false]))) = Some a2)
    by exact Ha2.
  rewrite (revoke_cases RegExp_test _ admin a2 name Ha2') in Hr.
  rewrite Hn2, Hlola in Hr. cbn [negb] in Hr.
  unfold VSPRequestCollection_findOneByUsername in Hr.
  cbn [vsprequests interpolated] in Hr.
  destruct (find (fun x => String.eqb (rq_username x) name) (vsprequests db)) as [x |] eqn:Hex.
  { rewrite (setGrantedFirst_app_some name true (vsprequests db) [mkVSPRequest name justification false] x Hex) in Hr.
    rewrite (find_app_none _ _ _
               (find_regex_setGrantedFirst_none _ name true (vsprequests db) Hnone)) in Hr.
    cbn [find rq_username interpolated] in Hr. rewrite Hrefl in Hr.
    cbn [granted] in Hr. discriminate Hr. }
  assert (Hset : forall g g',
            setGrantedFirst name g ((vsprequests db) ++ [mkVSPRequest name justification g']) =
            (vsprequests db) ++ [mkVSPRequest name justification g]).
  { intros g g'. rewrite (setGrantedFirst_app_none name g (vsprequests db) _ Hex).
    cbn [setGrantedFirst rq_username rq_content]. now rewrite String.eqb_refl. }
  assert (Hexact : forall g,
            find (fun x => String.eqb (rq_username x) name)
              ((vsprequests db) ++ [mkVSPRequest name justification g]) =
            Some (mkVSPRequest name justification g)).
  { intros g. rewrite (find_app_none _ (vsprequests db) _ Hex).
    cbn [find rq_username]. now rewrite String.eqb_refl. }
  rewrite (Hset true false) in Hr.
  rewrite (Hreq1 true) in Hr. rewrite ?Hrefl in Hr. cbn [granted] in Hr.
  assert (Hlook2 : find (fun d => RegExp_test name (username d))
                     (map (after_save (with_VSP u true)) (users db)) =
                   Some (with_VSP u true)).
  { apply find_username_after_save; [exact Hlook | exact Hid]. }
  assert (Hid2 : find (fun d => Nat.eqb (uid d) (uid u))
                   (map (after_save (with_VSP u true)) (users db)) =
                 Some (with_VSP u true)).
  { exact (findOneByUserId_after_save db (uid u) u true Hid). }
  rewrite (decide_succeeds name false _ (mkVSPRequest name justification true)
             (with_VSP u true) (with_VSP u true)) in Hr;
    [| exact (Hexact true) | exact Hlook2 | exact Hid2].
  injection Hr as _ _ _ _ <-.
  cbn [users freets vsprequests]. rewrite (Hset false true).
  assert (Hid3 : find (fun d => Nat.eqb (uid d) (uid u))
                   (map (after_save (with_VSP (with_VSP u true) false))
                      (map (after_save (with_VSP u true)) (users db))) =
                 Some (with_VSP (with_VSP u true) false)).
  { exact (findOneByUserId_after_save
             (mkDb (map (after_save (with_VSP u true)) (users db)) (freets db) [])
             (uid u) (with_VSP u true) false Hid2). }
  split; [| split; [| split]].
  - exists (with_VSP (with_VSP u true) false). split; [| reflexivity].
    unfold findOneByUserId. cbn [users]. rewrite <- Eid. exact Hid3.
  - reflexivity.
  - exact (Hexact false).
  - destruct (username_after_save
                (mkDb (map (after_save (with_VSP u true)) (users db)) (freets db)
                   ((vsprequests db) ++ [mkVSPRequest name justification false]))
                admin (uid u) a2 (with_VSP u true) false Ha2 Hid2) as [a3 [Ha3 Hn3]].
    cbn [set_users users freets vsprequests] in Ha3.
    assert (Ha3' : findOneByUserId admin
                     (mkDb (map (after_save (with_VSP (with_VSP u true) false))
                              (map (after_save (with_VSP u true)) (users db)))
                        (freets db) ((vsprequests db) ++ [mkVSPRequest name justification false])) = Some a3)
      by exact Ha3.
    rewrite (accept_cases RegExp_test _ admin a3 name Ha3').
    rewrite Hn3, Hn2, Hlola. cbn [negb].
    unfold VSPRequestCollection_findOneByUsername.
    cbn [vsprequests interpolated]. rewrite (Hreq1 false). rewrite ?Hrefl.
    cbn [granted].
    rewrite (decide_succeeds name true _ (mkVSPRequest name justification false)
               (with_VSP (with_VSP u true) false) (with_VSP (with_VSP u true) false)).
    + eexists. eexists. reflexivity.
    + exact (Hexact false).
    + apply (find_username_after_save (RegExp_test name) _ (with_VSP u true) false);
        [exact Hlook2 | exact Hid2].
    + exact Hid3.
Qed.

End WorkflowClaims.

(** ** The workflow on a concrete database *)

Lemma submit_dave :
  submit wordRegExp_test 2 "I report on science" db_lola_dave =
    (Sent 201 "Request successfully created."
       (mkVSPRequest "dave" "I report on science" false), db_pending).
Proof. vm_compute. reflexivity. Qed.

Lemma accept_dave :
  accept wordRegExp_test 1 "dave" db_pending =
    (Sent 200 "Request was successfully accepted."
       (mkVSPRequest "dave" "I report on science" true,
        mkUser 2 "dave" "pw2" true [] [] []), db_granted).
Proof. vm_compute. reflexivity. Qed.

(** Revoking leaves the very database that the submit produced. *)
Lemma revoke_dave :
  revoke wordRegExp_test 1 "dave" db_granted =
    (Sent 200 "VSP status was successfully revoked."
       (mkVSPRequest "dave" "I report on science" false,
        mkUser 2 "dave" "pw2" false [] [] []), db_pending).
Proof. vm_compute. reflexivity. Qed.



Lemma revoke_clears_flag_keeps_request_witness :
  exists p4 db4,
    accept wordRegExp_test 1 "dave" db_pending =
      (Sent 200 "Request was successfully accepted." p4, db4).
Proof.
  apply (proj2 (proj2 (proj2
           (revoke_clears_flag_keeps_request wordRegExp_test
              db_lola_dave db_pending db_granted db_pending 2 1
              (mkUser 2 "dave" "pw2" false [] [] []) "I report on science"
              201 200 200
              "Request successfully created."
              "Request was successfully accepted."
              "VSP status was successfully revoked."
              (mkVSPRequest "dave" "I report on science" false)
              (mkVSPRequest "dave" "I report on science" true,
               mkUser 2 "dave" "pw2" true [] [] [])
              (mkVSPRequest "dave" "I report on science" false,
               mkUser 2 "dave" "pw2" false [] [] [])
              eq_refl eq_refl submit_dave accept_dave revoke_dave)))).
Defined.

(** C3, counterexample: the revoked request is stored with granted=false
    like a pending one, and lola accepts it again at once. *)
Lemma accept_after_revoke_counterexample :
  ~ revoke_requires_new_submit wordRegExp_test.
Proof.
  intros H.
  destruct (H db_lola_dave db_pending db_granted db_pending 2 1
              (mkUser 2 "dave" "pw2" false [] [] []) "I report on science"
              201 200 200 _ _ _ _ _ _
              eq_refl submit_dave accept_dave revoke_dave) as [_ Hno].
  exact (Hno 1 _ _ _ _ accept_dave).
Qed.



(** ** The states of the counterexamples are reached by ordinary requests *)

(** alice follows bob, bob renames himself carl, alice renames herself
    bob: every request succeeds, and alice's own name is in her
    [following]. *)
Lemma db_own_name_followed_reached :
  runCalls [SignUp 1 "alice" "pw1"; SignUp 2 "bob" "pw2"; CallFollow 1 "bob";
            UpdateProfile 2 "carl" "pw2"; UpdateProfile 1 "bob" "pw1"] emptyDb =
  Some db_own_name_followed.
Proof. vm_compute. reflexivity. Qed.

(** A first alice follows bob and deletes her account; a second alice
    signs up and follows bob. *)
Lemma db_double_follower_reached :
  runCalls [SignUp 1 "alice" "pw1"; SignUp 2 "bob" "pw2"; CallFollow 1 "bob";
            DeleteAccount 1; SignUp 3 "alice" "pw3"; CallFollow 3 "bob"] emptyDb =
  Some db_double_follower.
Proof. vm_compute. reflexivity. Qed.

(* ================================================================== *)
(** * Further properties of the routes *)
(* ================================================================== *)

(** ** The social graph: what follow and unfollow write *)

Lemma find_map_key {A K : Type} (key : A -> K) (p : K -> bool) (g : A -> A)
  (l : list A) :
  (forall u, In u l -> key (g u) = key u) ->
  find (fun u => p (key u)) (map g l) = option_map g (find (fun u => p (key u)) l).
Proof.
  induction l as [| u l IH]; intros Hk; [reflexivity |]. simpl.
  rewrite (Hk u (or_introl eq_refl)).
  destruct (p (key u)); [reflexivity |].
  apply IH. intros v Hv. apply Hk. now right.
Qed.

Lemma removeFirst_push (l : list string) (x : string) :
  ~ In x l -> removeFirst (Array_push l x) x = l.
Proof.
  unfold Array_push. induction l as [| y l IH]; intros Hx.
  - unfold removeFirst. simpl. now rewrite String.eqb_refl.
  - simpl. rewrite removeFirst_cons.
    destruct (String.eqb y x) eqn:E.
    + apply String.eqb_eq in E. exfalso. apply Hx. now left.
    + f_equal. apply IH. intros H. apply Hx. now right.
Qed.

(** The document [u] once [target] is appended to the [following] of the
    actor and the actor's [name] to the [followers] of the target. *)
Lemma after_follow_unique (db : Db) (A B : User) (target : string) (u : User) :
  unique_ids db -> In A (users db) -> In B (users db) -> uid A <> uid B ->
  In u (users db) ->
  after_follow A B target u =
    if Nat.eqb (uid u) (uid A)
    then with_following u (Array_push (following u) target)
    else if Nat.eqb (uid u) (uid B)
         then with_followers u (Array_push (followers u) (username A))
         else u.
Proof.
  intros Hid HA HB Hne Hu. unfold after_follow.
  destruct (Nat.eqb (uid u) (uid B)) eqn:Eb.
  - apply Nat.eqb_eq in Eb.
    assert (u = B) by (now apply (NoDup_map_inj uid (users db) u B Hid)). subst u.
    cbn [uid]. destruct (Nat.eqb (uid B) (uid A)) eqn:Ea.
    + apply Nat.eqb_eq in Ea. congruence.
    + now destruct B.
  - destruct (Nat.eqb (uid u) (uid A)) eqn:Ea; [| reflexivity].
    apply Nat.eqb_eq in Ea.
    assert (u = A) by (now apply (NoDup_map_inj uid (users db) u A Hid)). subst u.
    now destruct A.
Qed.


Lemma follow_result (db : Db) (A B : User) (target : string) :
  unique_ids db ->
  findOneByUserId (uid A) db = Some A ->
  UserModel_findOne_username target db = Some B ->
  target <> "" ->
  ~ In target (following A) ->
  username A <> target ->
  follow (uid A) target db =
    (Sent 200 "Successfully followed."
       (with_following A (Array_push (following A) target)),
     followed A B target db).
Proof.
  intros Hid HA HB Ht Hnf Hself.
  rewrite (follow_cases db (uid A) A target HA).
  apply Array_includes_not_In in Hnf. rewrite Hnf.
  apply String.eqb_neq in Hself. rewrite Hself.
  apply String.eqb_neq in Ht. rewrite Ht, HB.
  pose proof (findOneByUserId_In _ _ _ HA) as [HAin _].
  pose proof (UserModel_findOne_username_In _ _ _ HB) as [HBin HBn].
  assert (Hne : uid A <> uid B).
  { intros E. apply String.eqb_neq in Hself. apply Hself. rewrite <- HBn.
    now rewrite (NoDup_map_inj uid (users db) A B Hid HAin HBin E). }
  unfold followed. do 2 f_equal. apply map_ext_in. intros u Hu.
  now apply (after_follow_unique db).
Qed.

(** After a follow that went through both lookups find the updated
    documents. *)
Lemma followed_lookups (db : Db) (A B : User) (target : string) :
  findOneByUserId (uid A) db = Some A ->
  UserModel_findOne_username target db = Some B ->
  uid A <> uid B ->
  findOneByUserId (uid A) (followed A B target db) =
    Some (with_following A (Array_push (following A) target)) /\
  UserModel_findOne_username target (followed A B target db) =
    Some (with_followers B (Array_push (followers B) (username A))).
Proof.
  intros HA HB Hne.
  set (g := fun u =>
              if Nat.eqb (uid u) (uid A)
              then with_following u (Array_push (following u) target)
              else if Nat.eqb (uid u) (uid B)
                   then with_followers u (Array_push (followers u) (username A))
                   else u).
  assert (Hguid : forall u, uid (g u) = uid u).
  { intros u. unfold g. destruct (Nat.eqb (uid u) (uid A)); [reflexivity |].
    now destruct (Nat.eqb (uid u) (uid B)). }
  assert (Hgname : forall u, username (g u) = username u).
  { intros u. unfold g. destruct (Nat.eqb (uid u) (uid A)); [reflexivity |].
    now destruct (Nat.eqb (uid u) (uid B)). }
  split.
  - unfold findOneByUserId, followed in *. cbn [set_users users]. fold g.
    rewrite (find_map_key uid (fun k => Nat.eqb k (uid A)) g (users db)
               (fun u _ => Hguid u)).
    rewrite HA. cbn [option_map]. unfold g. now rewrite Nat.eqb_refl.
  - unfold UserModel_findOne_username, followed in *. cbn [set_users users]. fold g.
    rewrite (find_map_key username (fun k => String.eqb k target) g (users db)
               (fun u _ => Hgname u)).
    rewrite HB. cbn [option_map]. unfold g.
    apply Nat.eqb_neq in Hne. rewrite Nat.eqb_sym in Hne.
    now rewrite Hne, Nat.eqb_refl.
Qed.

(** X1. With unique user ids, a follow of an existing user who is neither
    the actor nor already followed is answered 200 with the actor's
    updated document, and writes exactly two things: the target's
    username at the end of the actor's [following] and the actor's
    username at the end of the target's [followers]; every other document
    and every other field is left as it was.  Afterwards the lookup by
    the actor's id and the lookup by the target's username find the two
    updated documents. *)
Theorem follow_appends_edge (db : Db) (A B : User) (target : string) :
  unique_ids db ->
  findOneByUserId (uid A) db = Some A ->
  UserModel_findOne_username target db = Some B ->
  target <> "" ->
  ~ In target (following A) ->
  username A <> target ->
  follow (uid A) target db =
    (Sent 200 "Successfully followed."
       (with_following A (Array_push (following A) target)),
     followed A B target db) /\
  findOneByUserId (uid A) (followed A B target db) =
    Some (with_following A (Array_push (following A) target)) /\
  UserModel_findOne_username target (followed A B target db) =
    Some (with_followers B (Array_push (followers B) (username A))).
Proof.
  intros Hid HA HB Ht Hnf Hself.
  split; [now apply follow_result |].
  apply followed_lookups; try assumption.
  pose proof (findOneByUserId_In _ _ _ HA) as [HAin _].
  pose proof (UserModel_findOne_username_In _ _ _ HB) as [HBin HBn].
  intros E. apply Hself. rewrite <- HBn.
  now rewrite (NoDup_map_inj uid (users db) A B Hid HAin HBin E).
Qed.

Lemma db_alice_bob_unique_ids : unique_ids db_alice_bob.
Proof. repeat constructor; simpl; intuition discriminate. Qed.

Lemma follow_appends_edge_witness :
  follow 1 "bob" db_alice_bob =
    (Sent 200 "Successfully followed." (mkUser 1 "alice" "pw1" false [] [] ["bob"]),
     db_alice_follows_bob) /\
  findOneByUserId 1 db_alice_follows_bob =
    Some (mkUser 1 "alice" "pw1" false [] [] ["bob"]) /\
  UserModel_findOne_username "bob" db_alice_follows_bob =
    Some (mkUser 2 "bob" "pw2" false [] ["alice"] []).
Proof.
  apply (follow_appends_edge db_alice_bob alice0 bob0 "bob").
  - exact db_alice_bob_unique_ids.
  - reflexivity.
  - reflexivity.
  - discriminate.
  - simpl. tauto.
  - discriminate.
Defined.




(** What a follow that went through leaves is undone by the unfollow. *)
Lemma unfollow_after_follow (db : Db) (A B : User) (target : string) :
  graph_invariant db ->
  findOneByUserId (uid A) db = Some A ->
  UserModel_findOne_username target db = Some B ->
  target <> "" ->
  ~ In target (following A) ->
  username A <> target ->
  unfollow (uid A) target (followed A B target db) =
    (Sent 200 "Successfully unfollowed." A, db).
Proof.
  intros Hinv HA HB Ht Hnf Hself.
  pose proof Hinv as (Hid & Hname & Hedge & Hsym).
  pose proof (findOneByUserId_In _ _ _ HA) as [HAin _].
  pose proof (UserModel_findOne_username_In _ _ _ HB) as [HBin HBn].
  assert (Hne : uid A <> uid B).
  { intros E. apply Hself. rewrite <- HBn.
    now rewrite (NoDup_map_inj uid (users db) A B Hid HAin HBin E). }
  assert (Hnb : ~ In (username A) (followers B)).
  { intros Hin. apply Hnf. rewrite <- HBn. now apply (Hsym A B HAin HBin Hne). }
  set (g := fun u =>
              if Nat.eqb (uid u) (uid A)
              then with_following u (Array_push (following u) target)
              else if Nat.eqb (uid u) (uid B)
                   then with_followers u (Array_push (followers u) (username A))
                   else u).
  assert (Hguid : forall u, uid (g u) = uid u).
  { intros u. unfold g. destruct (Nat.eqb (uid u) (uid A)); [reflexivity |].
    now destruct (Nat.eqb (uid u) (uid B)). }
  assert (Hgname : forall u, username (g u) = username u).
  { intros u. unfold g. destruct (Nat.eqb (uid u) (uid A)); [reflexivity |].
    now destruct (Nat.eqb (uid u) (uid B)). }
  assert (HgA : g A = with_following A (Array_push (following A) target)).
  { unfold g. now rewrite Nat.eqb_refl. }
  assert (HgB : g B = with_followers B (Array_push (followers B) (username A))).
  { unfold g. apply Nat.eqb_neq in Hne. rewrite Nat.eqb_sym in Hne.
    now rewrite Hne, Nat.eqb_refl. }
  assert (HA1 : findOneByUserId (uid A) (followed A B target db) = Some (g A)).
  { unfold findOneByUserId, followed. cbn [set_users users]. fold g.
    rewrite (find_map_key uid (fun k => Nat.eqb k (uid A)) g (users db)
               (fun u _ => Hguid u)).
    unfold findOneByUserId in HA. now rewrite HA. }
  assert (HB1 : UserModel_findOne_username target (followed A B target db) = Some (g B)).
  { unfold UserModel_findOne_username, followed. cbn [set_users users]. fold g.
    rewrite (find_map_key username (fun k => String.eqb k target) g (users db)
               (fun u _ => Hgname u)).
    unfold UserModel_findOne_username in HB. now rewrite HB. }
  rewrite (unfollow_cases _ (uid A) (g A) target HA1).
  rewrite HgA at 1. cbn [following with_following].
  assert (Hin : Array_includes (Array_push (following A) target) target = true).
  { apply Array_includes_In. unfold Array_push. apply in_or_app. right. now left. }
  rewrite Hin. cbn [negb].
  apply String.eqb_neq in Ht. rewrite Ht, HB1.
  rewrite HgA. cbn [following with_following].
  rewrite (removeFirst_push _ _ Hnf).
  f_equal; [now destruct A |].
  unfold followed. fold g. cbn [set_users users freets vsprequests].
  rewrite map_map.
  match goal with
  | |- set_users _ (map ?f _) = _ =>
      assert (Hmap : map f (users db) = users db);
        [rewrite <- (map_id (users db)) at 2; apply map_ext_in
        | rewrite Hmap; now destruct db]
  end.
  intros u Hu.
  destruct (Nat.eqb (uid u) (uid A)) eqn:Ea.
  - apply Nat.eqb_eq in Ea.
    assert (u = A) by (now apply (NoDup_map_inj uid (users db) u A Hid)). subst u.
    rewrite HgA, HgB. unfold after_unfollow.
    cbn [uid username followers following with_following with_followers].
    apply Nat.eqb_neq in Hne. rewrite Hne. cbn [uid followers].
    rewrite Nat.eqb_refl, (removeFirst_push _ _ Hnf). now destruct A.
  - destruct (Nat.eqb (uid u) (uid B)) eqn:Eb.
    + apply Nat.eqb_eq in Eb.
      assert (u = B) by (now apply (NoDup_map_inj uid (users db) u B Hid)). subst u.
      rewrite HgB. unfold after_unfollow.
      cbn [uid username followers following with_following with_followers].
      rewrite Nat.eqb_refl. cbn [uid followers].
      rewrite Ea, (removeFirst_push _ _ Hnb). now destruct B.
    + assert (Hgu : g u = u) by (unfold g; now rewrite Ea, Eb).
      rewrite Hgu, HgB. unfold after_unfollow.
      cbn [uid username followers following with_following with_followers].
      now rewrite Eb, Ea.
Qed.

(** X3. From a state that satisfies the graph invariants, a follow that
    goes through followed by the unfollow of the same target restores the
    database exactly, and the unfollow answers with the actor's original
    document. *)
Theorem follow_then_unfollow_restores (db : Db) (A B : User) (target : string) :
  graph_invariant db ->
  findOneByUserId (uid A) db = Some A ->
  UserModel_findOne_username target db = Some B ->
  target <> "" ->
  ~ In target (following A) ->
  username A <> target ->
  unfollow (uid A) target (snd (follow (uid A) target db)) =
    (Sent 200 "Successfully unfollowed." A, db).
Proof.
  intros Hinv HA HB Ht Hnf Hself.
  rewrite (follow_result db A B target (proj1 Hinv) HA HB Ht Hnf Hself).
  cbn [snd]. now apply unfollow_after_follow.
Qed.

Lemma follow_then_unfollow_restores_witness :
  unfollow 1 "bob" (snd (follow 1 "bob" db_alice_bob)) =
    (Sent 200 "Successfully unfollowed." alice0, db_alice_bob).
Proof.
  apply (follow_then_unfollow_restores db_alice_bob alice0 bob0 "bob").
  - exact db_alice_bob_invariant.
  - reflexivity.
  - reflexivity.
  - discriminate.
  - simpl. tauto.
  - discriminate.
Defined.

(** *** What follow and unfollow leave alone *)

Lemma profile_after_save (db : Db) (A u : User) :
  unique_ids db -> In A (users db) -> In u (users db) ->
  profile (after_save A u) = profile u.
Proof.
  intros Hid HA Hu. unfold after_save.
  destruct (Nat.eqb (uid u) (uid A)) eqn:E; [| reflexivity].
  apply Nat.eqb_eq in E.
  assert (u = A) by (now apply (NoDup_map_inj uid (users db) u A Hid)). now subst u.
Qed.

Lemma profile_after_follow (db : Db) (A B : User) (target : string) (u : User) :
  unique_ids db -> In A (users db) -> In u (users db) ->
  profile (after_follow A B target u) = profile u.
Proof.
  intros Hid HA Hu. unfold after_follow. cbn zeta.
  assert (E1 : forall b : bool,
             uid (if b
                  then mkUser (uid u) (username u) (password u) (VSP u) (interests u)
                         (Array_push (followers B) (username A)) (following u)
                  else u) = uid u) by (now intros []).
  rewrite E1. destruct (Nat.eqb (uid u) (uid A)) eqn:E.
  - apply Nat.eqb_eq in E.
    assert (u = A) by (now apply (NoDup_map_inj uid (users db) u A Hid)). now subst u.
  - now destruct (Nat.eqb (uid u) (uid B)).
Qed.

Lemma profile_after_unfollow (db : Db) (A B : User) (target : string) (u : User) :
  unique_ids db -> In A (users db) -> In u (users db) ->
  profile (after_unfollow A B target u) = profile u.
Proof.
  intros Hid HA Hu. unfold after_unfollow. cbn zeta.
  assert (E1 : forall b : bool,
             uid (if b
                  then mkUser (uid u) (username u) (password u) (VSP u) (interests u)
                         (removeFirst (followers B) (username A)) (following u)
                  else u) = uid u) by (now intros []).
  rewrite E1. destruct (Nat.eqb (uid u) (uid A)) eqn:E.
  - apply Nat.eqb_eq in E.
    assert (u = A) by (now apply (NoDup_map_inj uid (users db) u A Hid)). now subst u.
  - now destruct (Nat.eqb (uid u) (uid B)).
Qed.

Lemma graph_frame_map (db : Db) (g : User -> User) :
  (forall u, In u (users db) -> profile (g u) = profile u) ->
  graph_frame db (set_users db (map g (users db))).
Proof.
  intros Hg. unfold graph_frame, set_users. cbn [users freets vsprequests].
  split; [| now split]. rewrite map_map. now apply map_ext_in.
Qed.

Lemma graph_frame_refl (db : Db) : graph_frame db db.
Proof. now unfold graph_frame. Qed.

Lemma runGraphOp_frame (op : GraphOp) (db : Db) :
  unique_ids db -> graph_frame db (runGraphOp op db).
Proof.
  intros Hid. destruct op as [actor target | actor target]; cbn [runGraphOp].
  - destruct (findOneByUserId actor db) as [A |] eqn:HA.
    + pose proof (findOneByUserId_In _ _ _ HA) as [HAin _].
      rewrite (follow_cases db actor A target HA).
      destruct (Array_includes (following A) target); [apply graph_frame_refl |].
      destruct (String.eqb (username A) target); [apply graph_frame_refl |].
      destruct (String.eqb target "").
      * apply graph_frame_map. intros u Hu. now apply (profile_after_save db).
      * destruct (UserModel_findOne_username target db) as [B |];
          [| apply graph_frame_refl].
        apply graph_frame_map. intros u Hu. now apply (profile_after_follow db).
    + rewrite (follow_no_actor db actor target HA). apply graph_frame_refl.
  - destruct (findOneByUserId actor db) as [A |] eqn:HA.
    + pose proof (findOneByUserId_In _ _ _ HA) as [HAin _].
      rewrite (unfollow_cases db actor A target HA).
      destruct (negb (Array_includes (following A) target)); [apply graph_frame_refl |].
      destruct (String.eqb target "").
      * apply graph_frame_map. intros u Hu. now apply (profile_after_save db).
      * destruct (UserModel_findOne_username target db) as [B |];
          [| apply graph_frame_refl].
        apply graph_frame_map. intros u Hu. now apply (profile_after_unfollow db).
    + rewrite (unfollow_no_actor db actor target HA). apply graph_frame_refl.
Qed.

Lemma graph_frame_unique_ids (db db' : Db) :
  graph_frame db db' -> unique_ids db -> unique_ids db'.
Proof.
  intros [Hp _] Hid. unfold unique_ids in *.
  assert (E : forall l, map uid l = map (fun p => fst (fst (fst (fst p)))) (map profile l)).
  { intros l. rewrite map_map. now apply map_ext. }
  rewrite E, Hp, <- E. exact Hid.
Qed.

(** X4. Whatever the sequence of follow and unfollow requests, answered or
    refused, and whoever sends them: no user document appears or
    disappears, no id, username, password, verification flag or interest
    list changes, and the freets and the verification requests stay as
    they were.  Only [followers] and [following] can differ. *)
Theorem graph_ops_touch_only_edges (ops : list GraphOp) (db : Db) :
  unique_ids db ->
  map profile (users (runGraphOps ops db)) = map profile (users db) /\
  freets (runGraphOps ops db) = freets db /\
  vsprequests (runGraphOps ops db) = vsprequests db.
Proof.
  revert db. induction ops as [| op ops IH]; intros db Hid.
  - now cbn.
  - unfold runGraphOps in *. cbn [fold_left].
    pose proof (runGraphOp_frame op db Hid) as Hstep.
    pose proof (graph_frame_unique_ids _ _ Hstep Hid) as Hid'.
    destruct (IH _ Hid') as (H1 & H2 & H3). destruct Hstep as (S1 & S2 & S3).
    repeat split; congruence.
Qed.

Lemma graph_ops_touch_only_edges_witness :
  let db' := runGraphOps [Follow 1 "bob"; Follow 2 "alice"; Unfollow 1 "bob";
                          Follow 1 "alice"; Follow 7 "bob"] db_alice_bob in
  map profile (users db') = map profile (users db_alice_bob) /\
  freets db' = freets db_alice_bob /\
  vsprequests db' = vsprequests db_alice_bob.
Proof.
  exact (graph_ops_touch_only_edges _ db_alice_bob db_alice_bob_unique_ids).
Defined.

(** ** Interests *)

Lemma map_after_save_replace (db : Db) (A A' : User) :
  unique_ids db -> In A (users db) ->
  uid A' = uid A -> followers A' = followers A ->
  set_users db (map (after_save A') (users db)) = replaceUser A' db.
Proof.
  intros Hid HA Eid Efol. unfold replaceUser. f_equal. apply map_ext_in.
  intros u Hu. unfold after_save. destruct (Nat.eqb (uid u) (uid A')) eqn:E; [| reflexivity].
  apply Nat.eqb_eq in E. rewrite Eid in E.
  assert (u = A) by (now apply (NoDup_map_inj uid (users db) u A Hid)). subst u.
  rewrite <- Efol, <- Eid. now destruct A'.
Qed.

Lemma replaceUser_same (db : Db) (A : User) :
  unique_ids db -> In A (users db) -> replaceUser A db = db.
Proof.
  intros Hid HA. unfold replaceUser, set_users.
  rewrite (map_ext_in _ (fun u => u)); [rewrite map_id; now destruct db |].
  intros u Hu. destruct (Nat.eqb (uid u) (uid A)) eqn:E; [| reflexivity].
  apply Nat.eqb_eq in E. symmetry. now apply (NoDup_map_inj uid (users db) u A Hid).
Qed.

Lemma findOneByUserId_replaceUser (db : Db) (A A' : User) :
  findOneByUserId (uid A) db = Some A -> uid A' = uid A ->
  findOneByUserId (uid A) (replaceUser A' db) = Some A'.
Proof.
  intros HA Eid. unfold findOneByUserId, replaceUser in *. cbn [set_users users].
  rewrite Eid.
  induction (users db) as [| u l IH]; [discriminate |].
  cbn [map find] in *. destruct (Nat.eqb (uid u) (uid A)) eqn:E.
  - now rewrite Eid, Nat.eqb_refl.
  - rewrite E. now apply IH.
Qed.

Lemma replaceUser_replaceUser (db : Db) (A' A'' : User) :
  uid A'' = uid A' -> replaceUser A'' (replaceUser A' db) = replaceUser A'' db.
Proof.
  intros E. unfold replaceUser, set_users. cbn [users freets vsprequests].
  f_equal. rewrite map_map. apply map_ext. intros u. rewrite E.
  destruct (Nat.eqb (uid u) (uid A')) eqn:Eu;
    [now rewrite Nat.eqb_refl | now rewrite Eu].
Qed.

Lemma unique_ids_replaceUser (db : Db) (A' : User) :
  unique_ids db -> unique_ids (replaceUser A' db).
Proof.
  unfold unique_ids, replaceUser. cbn [set_users users]. intros H.
  rewrite map_map. rewrite (map_ext _ uid); [exact H |].
  intros u. destruct (Nat.eqb (uid u) (uid A')) eqn:E; [| reflexivity].
  apply Nat.eqb_eq in E. now rewrite E.
Qed.

Lemma updateOne_addInterest (db : Db) (userId : ObjectId) (A : User) (keyword : string) :
  findOneByUserId userId db = Some A ->
  keyword <> "" ->
  updateOne userId (interestBody keyword) db =
    (Ok (with_interests A (Array_push (interests A) keyword)),
     set_users db
       (map (after_save (with_interests A (Array_push (interests A) keyword)))
            (users db))).
Proof.
  intros HA Hk. unfold updateOne, bind, get_db. rewrite HA.
  cbn [deref ret interestBody b_VSP b_password b_username b_interests
         b_deleteInterest b_following b_unfollow andb negb field_value].
  rewrite (truthy_Some keyword Hk). reflexivity.
Qed.

Lemma updateOne_deleteInterest (db : Db) (userId : ObjectId) (A : User) (keyword : string) :
  findOneByUserId userId db = Some A ->
  keyword <> "" ->
  updateOne userId (with_deleteInterest (interestBody keyword)) db =
    (Ok (with_interests A (removeFirst (interests A) keyword)),
     set_users db
       (map (after_save (with_interests A (removeFirst (interests A) keyword)))
            (users db))).
Proof.
  intros HA Hk. unfold updateOne, bind, get_db. rewrite HA.
  cbn [deref ret interestBody with_deleteInterest b_VSP b_password b_username
         b_interests b_deleteInterest b_following b_unfollow andb negb field_value].
  rewrite (truthy_Some keyword Hk). reflexivity.
Qed.

Lemma updateOne_emptyInterest (db : Db) (userId : ObjectId) (A : User) (del : bool) :
  findOneByUserId userId db = Some A ->
  updateOne userId
    (if del then with_deleteInterest (interestBody "") else interestBody "") db =
    (Ok A, set_users db (map (after_save A) (users db))).
Proof.
  intros HA. unfold updateOne, bind, get_db. rewrite HA. now destruct del.
Qed.

Lemma addInterest_cases (db : Db) (actor : ObjectId) (A : User) (keyword : string) :
  findOneByUserId actor db = Some A ->
  addInterest actor keyword db =
    if Array_includes (interests A) keyword
    then (Refused 409 "You have already added this interest.", db)
    else if String.eqb keyword "" then
      (Sent 200 "Successfully added interest." A,
       set_users db (map (after_save A) (users db)))
    else
      (Sent 200 "Successfully added interest."
         (with_interests A (Array_push (interests A) keyword)),
       set_users db
         (map (after_save (with_interests A (Array_push (interests A) keyword)))
              (users db))).
Proof.
  intros HA. unfold addInterest, patchInterests, runRoute.
  cbn [runValidators isUserLoggedIn session_userId].
  unfold isUserAlreadyAddedInterest.
  cbn [session_userId body interestBody b_interests includes_field].
  rewrite HA. cbn [includes_field].
  destruct (Array_includes (interests A) keyword); [reflexivity |].
  cbn [runValidators withSessionUser session_userId body]. unfold bind at 1.
  destruct (String.eqb keyword "") eqn:Ek.
  - apply String.eqb_eq in Ek. subst keyword.
    rewrite (updateOne_emptyInterest db actor A false HA). reflexivity.
  - apply String.eqb_neq in Ek.
    rewrite (updateOne_addInterest db actor A keyword HA Ek). reflexivity.
Qed.

Lemma removeInterest_cases (db : Db) (actor : ObjectId) (A : User) (keyword : string) :
  findOneByUserId actor db = Some A ->
  removeInterest actor keyword db =
    if negb (Array_includes (interests A) keyword)
    then (Refused 409 "You are trying to delete an interest you have not yet added.", db)
    else if String.eqb keyword "" then
      (Sent 200 "Successfully deleted interest." A,
       set_users db (map (after_save A) (users db)))
    else
      (Sent 200 "Successfully deleted interest."
         (with_interests A (removeFirst (interests A) keyword)),
       set_users db
         (map (after_save (with_interests A (removeFirst (interests A) keyword)))
              (users db))).
Proof.
  intros HA. unfold removeInterest, deleteInterests, runRoute.
  cbn [runValidators isUserLoggedIn session_userId].
  unfold isUserNotYetAddedInterest.
  cbn [session_userId body interestBody b_interests includes_field].
  rewrite HA. cbn [includes_field].
  destruct (Array_includes (interests A) keyword); [| reflexivity]. cbn [negb].
  cbn [runValidators withSessionUser session_userId body]. unfold bind at 1.
  destruct (String.eqb keyword "") eqn:Ek.
  - apply String.eqb_eq in Ek. subst keyword.
    rewrite (updateOne_emptyInterest db actor A true HA). reflexivity.
  - apply String.eqb_neq in Ek.
    rewrite (updateOne_deleteInterest db actor A keyword HA Ek). reflexivity.
Qed.

(** X5. Adding an interest, with unique user ids: a keyword already in the
    user's list is refused with 409 and nothing changes; a new nonempty
    keyword is answered 200 and is appended at the end of that user's
    list, every other document and field staying as it was; an empty
    keyword is answered 200 "Successfully added interest." although
    nothing is added. *)
Theorem addInterest_outcomes (db : Db) (A : User) (keyword : string) :
  unique_ids db ->
  findOneByUserId (uid A) db = Some A ->
  (In keyword (interests A) ->
   addInterest (uid A) keyword db =
     (Refused 409 "You have already added this interest.", db)) /\
  (~ In keyword (interests A) -> keyword <> "" ->
   addInterest (uid A) keyword db =
     (Sent 200 "Successfully added interest."
        (with_interests A (Array_push (interests A) keyword)),
      replaceUser (with_interests A (Array_push (interests A) keyword)) db)) /\
  (~ In "" (interests A) ->
   addInterest (uid A) "" db = (Sent 200 "Successfully added interest." A, db)).
Proof.
  intros Hid HA. pose proof (findOneByUserId_In _ _ _ HA) as [HAin _].
  split; [| split].
  - intros Hin. rewrite (addInterest_cases db (uid A) A keyword HA).
    apply Array_includes_In in Hin. now rewrite Hin.
  - intros Hnin Hk. rewrite (addInterest_cases db (uid A) A keyword HA).
    apply Array_includes_not_In in Hnin. rewrite Hnin.
    apply String.eqb_neq in Hk. rewrite Hk.
    now rewrite (map_after_save_replace db A _ Hid HAin).
  - intros Hnin. rewrite (addInterest_cases db (uid A) A "" HA).
    apply Array_includes_not_In in Hnin. rewrite Hnin. cbn [String.eqb].
    rewrite (map_after_save_replace db A A Hid HAin eq_refl eq_refl).
    now rewrite (replaceUser_same db A Hid HAin).
Qed.

Lemma db_rust_scenario_unique_ids : unique_ids db_rust_scenario.
Proof. repeat constructor; simpl; intuition discriminate. Qed.

Lemma addInterest_outcomes_witness :
  addInterest 1 "rust" db_rust_scenario =
    (Refused 409 "You have already added this interest.", db_rust_scenario) /\
  addInterest 1 "go" db_rust_scenario =
    (Sent 200 "Successfully added interest."
       (mkUser 1 "alice" "pw1" false ["rust"; "go"] [] []),
     mkDb [mkUser 1 "alice" "pw1" false ["rust"; "go"] [] [];
           mkUser 2 "bob" "pw2" false [] [] [];
           mkUser 3 "carol" "pw3" false [] [] []]
          (freets db_rust_scenario) []) /\
  addInterest 1 "" db_rust_scenario =
    (Sent 200 "Successfully added interest."
       (mkUser 1 "alice" "pw1" false ["rust"] [] []), db_rust_scenario).
Proof.
  split; [| split].
  - apply (proj1 (addInterest_outcomes db_rust_scenario
                    (mkUser 1 "alice" "pw1" false ["rust"] [] []) "rust"
                    db_rust_scenario_unique_ids eq_refl)).
    simpl. tauto.
  - apply (proj1 (proj2 (addInterest_outcomes db_rust_scenario
                           (mkUser 1 "alice" "pw1" false ["rust"] [] []) "go"
                           db_rust_scenario_unique_ids eq_refl))).
    + simpl. intros [E | []]. discriminate E.
    + discriminate.
  - apply (proj2 (proj2 (addInterest_outcomes db_rust_scenario
                           (mkUser 1 "alice" "pw1" false ["rust"] [] []) "rust"
                           db_rust_scenario_unique_ids eq_refl))).
    simpl. intros [E | []]. discriminate E.
Defined.

(** X6. Deleting an interest, with unique user ids: a keyword that is not
    in the user's list is refused with 409 and nothing changes; a listed
    nonempty keyword is answered 200 and its first occurrence is removed
    from that user's list, every other document and field staying as it
    was. *)
Theorem removeInterest_outcomes (db : Db) (A : User) (keyword : string) :
  unique_ids db ->
  findOneByUserId (uid A) db = Some A ->
  (~ In keyword (interests A) ->
   removeInterest (uid A) keyword db =
     (Refused 409 "You are trying to delete an interest you have not yet added.", db)) /\
  (In keyword (interests A) -> keyword <> "" ->
   removeInterest (uid A) keyword db =
     (Sent 200 "Successfully deleted interest."
        (with_interests A (removeFirst (interests A) keyword)),
      replaceUser (with_interests A (removeFirst (interests A) keyword)) db)).
Proof.
  intros Hid HA. pose proof (findOneByUserId_In _ _ _ HA) as [HAin _]. split.
  - intros Hnin. rewrite (removeInterest_cases db (uid A) A keyword HA).
    apply Array_includes_not_In in Hnin. now rewrite Hnin.
  - intros Hin Hk. rewrite (removeInterest_cases db (uid A) A keyword HA).
    apply Array_includes_In in Hin. rewrite Hin. cbn [negb].
    apply String.eqb_neq in Hk. rewrite Hk.
    now rewrite (map_after_save_replace db A _ Hid HAin).
Qed.

Lemma removeInterest_outcomes_witness :
  removeInterest 1 "go" db_rust_scenario =
    (Refused 409 "You are trying to delete an interest you have not yet added.",
     db_rust_scenario) /\
  removeInterest 1 "rust" db_rust_scenario =
    (Sent 200 "Successfully deleted interest." alice0,
     mkDb [alice0; mkUser 2 "bob" "pw2" false [] [] [];
           mkUser 3 "carol" "pw3" false [] [] []]
          (freets db_rust_scenario) []).
Proof.
  split.
  - apply (proj1 (removeInterest_outcomes db_rust_scenario
                    (mkUser 1 "alice" "pw1" false ["rust"] [] []) "go"
                    db_rust_scenario_unique_ids eq_refl)).
    simpl. intros [E | []]. discriminate E.
  - apply (proj2 (removeInterest_outcomes db_rust_scenario
                    (mkUser 1 "alice" "pw1" false ["rust"] [] []) "rust"
                    db_rust_scenario_unique_ids eq_refl)).
    + simpl. tauto.
    + discriminate.
Defined.

(** X7. With unique user ids, adding a new nonempty interest and then
    deleting it restores the database exactly; the deletion answers with
    the user's original document. *)
Theorem add_then_remove_interest_restores (db : Db) (A : User) (keyword : string) :
  unique_ids db ->
  findOneByUserId (uid A) db = Some A ->
  ~ In keyword (interests A) ->
  keyword <> "" ->
  removeInterest (uid A) keyword (snd (addInterest (uid A) keyword db)) =
    (Sent 200 "Successfully deleted interest." A, db).
Proof.
  intros Hid HA Hnin Hk. pose proof (findOneByUserId_In _ _ _ HA) as [HAin _].
  rewrite (addInterest_cases db (uid A) A keyword HA).
  pose proof Hnin as Hinc. apply Array_includes_not_In in Hinc. rewrite Hinc.
  pose proof Hk as Hkb. apply String.eqb_neq in Hkb. rewrite Hkb. cbn [snd].
  set (A1 := with_interests A (Array_push (interests A) keyword)).
  rewrite (map_after_save_replace db A A1 Hid HAin eq_refl eq_refl).
  assert (HA1 : findOneByUserId (uid A) (replaceUser A1 db) = Some A1)
    by (now apply findOneByUserId_replaceUser).
  rewrite (removeInterest_cases _ (uid A) A1 keyword HA1).
  assert (Hin1 : Array_includes (interests A1) keyword = true).
  { apply Array_includes_In. cbn. apply in_or_app. right. now left. }
  rewrite Hin1, Hkb. cbn [negb].
  assert (E : with_interests A1 (removeFirst (interests A1) keyword) = A).
  { unfold A1. cbn [interests with_interests uid username password VSP followers
                      following].
    rewrite (removeFirst_push _ _ Hnin). now destruct A. }
  rewrite E. f_equal.
  pose proof (findOneByUserId_In _ _ _ HA1) as [HA1in _].
  rewrite (map_after_save_replace (replaceUser A1 db) A1 A
             (unique_ids_replaceUser db A1 Hid) HA1in eq_refl eq_refl).
  rewrite (replaceUser_replaceUser db A1 A eq_refl).
  now apply replaceUser_same.
Qed.

Lemma add_then_remove_interest_restores_witness :
  removeInterest 1 "go" (snd (addInterest 1 "go" db_rust_scenario)) =
    (Sent 200 "Successfully deleted interest."
       (mkUser 1 "alice" "pw1" false ["rust"] [] []), db_rust_scenario).
Proof.
  apply (add_then_remove_interest_restores db_rust_scenario
           (mkUser 1 "alice" "pw1" false ["rust"] [] []) "go"
           db_rust_scenario_unique_ids eq_refl).
  - simpl. intros [E | []]. discriminate E.
  - discriminate.
Defined.

Lemma addInterest_no_actor (db : Db) (actor : ObjectId) (keyword : string) :
  findOneByUserId actor db = None ->
  addInterest actor keyword db = (Crashed TypeError, db).
Proof.
  intros HA. unfold addInterest, patchInterests, runRoute.
  cbn [runValidators isUserLoggedIn session_userId].
  unfold isUserAlreadyAddedInterest. cbn [session_userId]. now rewrite HA.
Qed.

Lemma removeInterest_no_actor (db : Db) (actor : ObjectId) (keyword : string) :
  findOneByUserId actor db = None ->
  removeInterest actor keyword db = (Crashed TypeError, db).
Proof.
  intros HA. unfold removeInterest, deleteInterests, runRoute.
  cbn [runValidators isUserLoggedIn session_userId].
  unfold isUserNotYetAddedInterest. cbn [session_userId]. now rewrite HA.
Qed.

Lemma NoDup_push (l : list string) (x : string) :
  NoDup l -> ~ In x l -> NoDup (Array_push l x).
Proof.
  intros Hl Hx. unfold Array_push.
  apply (Permutation_NoDup (Permutation_cons_append l x)). now constructor.
Qed.

Lemma unique_interests_after_save (db : Db) (A' : User) :
  unique_interests db -> NoDup (interests A') ->
  unique_interests (set_users db (map (after_save A') (users db))).
Proof.
  intros Hdb HA' u' Hu'. cbn [set_users users] in Hu'.
  apply in_map_iff in Hu' as (u & <- & Hu). unfold after_save.
  destruct (Nat.eqb (uid u) (uid A')); [exact HA' | now apply Hdb].
Qed.

(** X8. No request to add or to delete an interest, answered or refused,
    makes any user list an interest twice: interest lists without
    duplicates stay without duplicates. *)
Theorem interests_stay_distinct (db : Db) (actor : ObjectId) (keyword : string) :
  unique_interests db ->
  unique_interests (snd (addInterest actor keyword db)) /\
  unique_interests (snd (removeInterest actor keyword db)).
Proof.
  intros Hdb. destruct (findOneByUserId actor db) as [A |] eqn:HA.
  - pose proof (findOneByUserId_In _ _ _ HA) as [HAin _].
    pose proof (Hdb A HAin) as HAnd. split.
    + rewrite (addInterest_cases db actor A keyword HA).
      destruct (Array_includes (interests A) keyword) eqn:Hinc; [exact Hdb |].
      destruct (String.eqb keyword ""); cbn [snd].
      * now apply unique_interests_after_save.
      * apply unique_interests_after_save; [exact Hdb |].
        cbn [interests with_interests]. apply NoDup_push; [exact HAnd |].
        intros Hin. apply Array_includes_In in Hin. congruence.
    + rewrite (removeInterest_cases db actor A keyword HA).
      destruct (negb (Array_includes (interests A) keyword)); [exact Hdb |].
      destruct (String.eqb keyword ""); cbn [snd].
      * now apply unique_interests_after_save.
      * apply unique_interests_after_save; [exact Hdb |].
        cbn [interests with_interests]. now apply removeFirst_NoDup.
  - rewrite (addInterest_no_actor db actor keyword HA),
            (removeInterest_no_actor db actor keyword HA). now split.
Qed.

Lemma interests_stay_distinct_witness :
  unique_interests (snd (addInterest 1 "go" db_rust_scenario)) /\
  unique_interests (snd (removeInterest 1 "rust" db_rust_scenario)).
Proof.
  assert (H : unique_interests db_rust_scenario).
  { intros u Hu. simpl in Hu.
    destruct Hu as [<- | [<- | [<- | []]]]; repeat constructor; simpl; tauto. }
  split.
  - exact (proj1 (interests_stay_distinct db_rust_scenario 1 "go" H)).
  - exact (proj2 (interests_stay_distinct db_rust_scenario 1 "rust" H)).
Defined.

(** ** Recommendations *)

Lemma recommend_spec_sound (db : Db) (user a : User) :
  In a (recommend_spec user db) -> suggestible db user a.
Proof.
  intros H. pose proof (recommend_spec_not_followed db user a H) as Hnf.
  unfold recommend_spec in H. apply distinctAuthors_incl in H.
  apply in_flat_map in H as [f [Hf Ha]]. apply filter_In in Hf as [Hf Hkeep].
  apply andb_prop in Hkeep as [_ Hm]. unfold bodyMatches in Hm.
  apply existsb_exists in Hm as [i [Hi Hinc]].
  apply (proj1 (sortByDateModifiedDesc_In f (freets db))) in Hf.
  exists f, i. repeat split; try assumption.
  unfold authorOf in Ha. destruct (findOneByUserId (authorId f) db) as [b |].
  - destruct Ha as [-> | []]. reflexivity.
  - destruct Ha.
Qed.

Lemma recommend_spec_complete (db : Db) (user a : User) :
  suggestible db user a -> In (username a) (map username (recommend_spec user db)).
Proof.
  intros (f & i & Hf & Ha & Hi & Hinc & Hnf). unfold recommend_spec.
  apply (proj1 (distinctAuthors_usernames _ _)). apply in_map.
  apply (proj2 (in_flat_map _ _ _)).
  exists f. split; [| rewrite (authorOf_Some db f a Ha); now left].
  apply (proj2 (filter_In _ _ _)).
  split; [now apply (proj2 (sortByDateModifiedDesc_In f (freets db))) |].
  apply andb_true_intro. split.
  - apply negb_true_iff. unfold authorFollowed. rewrite (authorOf_Some db f a Ha).
    cbn [existsb]. rewrite orb_false_r. now apply Array_includes_not_In.
  - unfold bodyMatches. apply (proj2 (existsb_exists _ _)). now exists i.
Qed.

(** X9. For a user with interests, in a database where every freet's
    author exists, the recommendation is answered 200 without changing
    the database, and the list it returns is sound, complete and without
    repetition: every listed user is the stored author of some freet
    whose content contains one of the requester's interests and is not
    followed by the requester; every such author's username is listed;
    no username is listed twice. *)
Theorem recommend_sound_complete (db : Db) (userId : ObjectId) (user : User) :
  findOneByUserId userId db = Some user ->
  interests user <> [] ->
  authors_exist db ->
  exists l,
    recommend userId db =
      (Sent 200 "Accounts have been retrieved successfully." l, db) /\
    NoDup (map username l) /\
    (forall a, In a l -> suggestible db user a) /\
    (forall a, suggestible db user a -> In (username a) (map username l)).
Proof.
  intros Hu Hi Ha. exists (recommend_spec user db).
  split; [now apply recommend_answer |].
  split; [apply distinctAuthors_NoDup |].
  split; intros a.
  - apply recommend_spec_sound.
  - apply recommend_spec_complete.
Qed.

Lemma db_rust_scenario_authors_exist : authors_exist db_rust_scenario.
Proof.
  intros f Hf. simpl in Hf. destruct Hf as [<- | [<- | []]]; discriminate.
Qed.

Lemma recommend_sound_complete_witness :
  exists l,
    recommend 1 db_rust_scenario =
      (Sent 200 "Accounts have been retrieved successfully." l, db_rust_scenario) /\
    NoDup (map username l) /\
    (forall a, In a l ->
       suggestible db_rust_scenario (mkUser 1 "alice" "pw1" false ["rust"] [] []) a) /\
    (forall a,
       suggestible db_rust_scenario (mkUser 1 "alice" "pw1" false ["rust"] [] []) a ->
       In (username a) (map username l)).
Proof.
  apply (recommend_sound_complete db_rust_scenario 1
           (mkUser 1 "alice" "pw1" false ["rust"] [] [])).
  - reflexivity.
  - discriminate.
  - exact db_rust_scenario_authors_exist.
Defined.

(** ** Accounts *)

Lemma isWord_nonempty (s : string) : isWord s = true -> s <> "".
Proof.
  unfold isWord. intros H. apply andb_prop in H as [H _].
  apply negb_true_iff in H. now apply String.eqb_neq.
Qed.

Lemma isNonBlank_nonempty (s : string) : isNonBlank s = true -> s <> "".
Proof.
  unfold isNonBlank. intros H. apply andb_prop in H as [H _].
  apply negb_true_iff in H. now apply String.eqb_neq.
Qed.

Lemma wordRegExp_test_refl (s : string) : wordRegExp_test s s = true.
Proof. unfold wordRegExp_test. apply String.eqb_refl. Qed.

Section AccountRoutes.

Variable RegExp_test : string -> string -> bool.

Local Abbreviation findUser := (findOneByUsername RegExp_test).

(** The outcome of a sign-up, in the order the route decides. *)
Lemma signUp_cases (db : Db) (newId : ObjectId) (name pass : string) :
  signUp RegExp_test newId name pass db =
    if negb (isWord name)
    then (Refused 400 "Username must be a nonempty alphanumeric string.", db)
    else match findUser (Some name) db with
         | Some _ => (Refused 409 "An account with this username already exists.", db)
         | None =>
             if negb (isNonBlank pass)
             then (Refused 400 "Password must be a nonempty string.", db)
             else
               (Sent 201
                  (String.append
                     "Your account was created successfully. You have been logged in as "
                     name)
                  (mkUser newId name pass false [] [] []),
                set_users db
                  (Array_push (users db) (mkUser newId name pass false [] [] [])))
         end.
Proof.
  unfold signUp, postUser, runRoute.
  cbn [runValidators isUserLoggedOut session_userId].
  unfold isValidUsername, isUsernameNotAlreadyInUse, isValidPassword.
  cbn [body credentialsBody b_username b_password interpolated session_userId].
  destruct (isWord name) eqn:Hw; [| reflexivity]. cbn [negb].
  destruct (findUser (Some name) db); [reflexivity |].
  destruct (isNonBlank pass) eqn:Hp; [| reflexivity]. cbn [negb].
  unfold UserCollection_addOne, bind, get_db, put_db, ret.
  rewrite (truthy_Some name (isWord_nonempty name Hw)).
  rewrite (truthy_Some pass (isNonBlank_nonempty pass Hp)).
  reflexivity.
Qed.

(** The outcome of a profile update, in the order the route decides. *)
Lemma updateProfile_cases (db : Db) (userId : ObjectId) (A : User) (name pass : string) :
  findOneByUserId userId db = Some A ->
  updateProfile RegExp_test userId name pass db =
    if negb (isWord name)
    then (Refused 400 "Username must be a nonempty alphanumeric string.", db)
    else if match findUser (Some name) db with
            | Some u => negb (Nat.eqb (uid u) userId)
            | None => false
            end
    then (Refused 409 "An account with this username already exists.", db)
    else if negb (isNonBlank pass)
    then (Refused 400 "Password must be a nonempty string.", db)
    else
      (Sent 200 "Your profile was updated successfully."
         (with_username (with_password A pass) name),
       set_users db
         (map (after_save (with_username (with_password A pass) name)) (users db))).
Proof.
  intros HA. unfold updateProfile, putUser, runRoute.
  cbn [runValidators isUserLoggedIn session_userId].
  unfold isValidUsername, isUsernameNotAlreadyInUse, isValidPassword.
  cbn [body credentialsBody b_username b_password interpolated session_userId].
  destruct (isWord name) eqn:Hw; [| reflexivity]. cbn [negb].
  assert (Hrest :
    match
      match
        (if negb (isNonBlank pass)
         then Ok (Reject 400 "Password must be a nonempty string.")
         else Ok Next)
      with
      | Ok Next => Ok Next
      | other => other
      end
    with
    | Ok Next =>
        match
          withSessionUser (mkRequest (Some userId) (credentialsBody name pass))
            (fun userId0 =>
               user <- updateOne userId0
                         (body (mkRequest (Some userId) (credentialsBody name pass))) ;;
               ret (Sent 200 "Your profile was updated successfully." user)) db
        with
        | (Ok r, db') => (r, db')
        | (Throw e, db') => (Crashed e, db')
        end
    | Ok (Reject status error) => (Refused status error, db)
    | Ok Silent => (NoResponse, db)
    | Throw e => (Crashed e, db)
    end =
    if negb (isNonBlank pass)
    then (Refused 400 "Password must be a nonempty string.", db)
    else
      (Sent 200 "Your profile was updated successfully."
         (with_username (with_password A pass) name),
       set_users db
         (map (after_save (with_username (with_password A pass) name)) (users db)))).
  { destruct (isNonBlank pass) eqn:Hp; [| reflexivity]. cbn [negb].
    cbn [withSessionUser session_userId body]. unfold bind at 1.
    unfold updateOne, bind, get_db. rewrite HA.
    cbn [deref ret credentialsBody b_VSP b_password b_username b_interests
           b_deleteInterest b_following b_unfollow andb negb field_value].
    rewrite (truthy_Some name (isWord_nonempty name Hw)).
    rewrite (truthy_Some pass (isNonBlank_nonempty pass Hp)).
    reflexivity. }
  destruct (findUser (Some name) db) as [u |].
  - destruct (Nat.eqb (uid u) userId); [exact Hrest | reflexivity].
  - exact Hrest.
Qed.

End AccountRoutes.

Lemma deleteAccount_eq (db : Db) (userId : ObjectId) :
  deleteAccount userId db =
    (Sent 200 "Your account has been deleted successfully." tt,
     mkDb (deleteFirstUser userId (users db))
          (filter (fun f => negb (Nat.eqb (authorId f) userId)) (freets db))
          (vsprequests db)).
Proof. reflexivity. Qed.

Lemma filter_all_in {A : Type} (p : A -> bool) (l : list A) :
  (forall x, In x l -> p x = true) -> filter p l = l.
Proof.
  induction l as [| a l IH]; [reflexivity |]. intros H. cbn [filter].
  rewrite (H a (or_introl eq_refl)). f_equal. apply IH.
  intros x Hx. apply H. now right.
Qed.

Lemma deleteFirstUser_filter (userId : ObjectId) (l : list User) :
  NoDup (map uid l) ->
  deleteFirstUser userId l = filter (fun u => negb (Nat.eqb (uid u) userId)) l.
Proof.
  induction l as [| u l IH]; [reflexivity |]. cbn [map deleteFirstUser filter].
  intros Hnd. inversion Hnd as [| x xs Hnotin Hnd' ]; subst.
  destruct (Nat.eqb (uid u) userId) eqn:E; cbn [negb].
  - apply Nat.eqb_eq in E. symmetry. apply filter_all_in. intros v Hv.
    apply negb_true_iff. apply Nat.eqb_neq. intros Ev. apply Hnotin.
    rewrite E, <- Ev. now apply in_map.
  - f_equal. now apply IH.
Qed.

Lemma NoDup_map_filter {A K : Type} (g : A -> K) (p : A -> bool) (l : list A) :
  NoDup (map g l) -> NoDup (map g (filter p l)).
Proof.
  induction l as [| a l IH]; [trivial |]. cbn [map filter]. intros H.
  inversion H as [| x xs Hnotin Hnd]; subst.
  destruct (p a); [| now apply IH]. cbn [map]. constructor; [| now apply IH].
  intros Hin. apply Hnotin. apply in_map_iff in Hin as (z & Hz & Hzin).
  apply filter_In in Hzin as [Hzin _]. rewrite <- Hz. now apply in_map.
Qed.

Lemma NoDup_rename (l : list User) (userId : ObjectId) (v : string) :
  NoDup (map uid l) ->
  NoDup (map (fun u => toLowerCase (username u)) l) ->
  (forall y, In y l -> toLowerCase (username y) <> v) ->
  NoDup (map (fun y => if Nat.eqb (uid y) userId then v
                       else toLowerCase (username y)) l).
Proof.
  induction l as [| y l IH]; [constructor |]. cbn [map]. intros Hid Hn Hv.
  inversion Hid as [| x xs Hid1 Hid2]; subst.
  inversion Hn as [| x xs Hn1 Hn2]; subst.
  constructor.
  - intros Hin. apply in_map_iff in Hin as (z & Hz & Hzin).
    destruct (Nat.eqb (uid y) userId) eqn:Ey, (Nat.eqb (uid z) userId) eqn:Ez.
    + apply Nat.eqb_eq in Ey, Ez. apply Hid1. rewrite Ey, <- Ez. now apply in_map.
    + apply (Hv z); [now right | exact Hz].
    + apply (Hv y); [now left | now symmetry].
    + apply Hn1. rewrite <- Hz.
      now apply (in_map (fun u => toLowerCase (username u))).
  - apply IH; try assumption. intros z Hz. apply Hv. now right.
Qed.

Lemma updateProfile_no_actor (R : string -> string -> bool) (db : Db)
  (userId : ObjectId) (name pass : string) :
  findOneByUserId userId db = None ->
  snd (updateProfile R userId name pass db) = db.
Proof.
  intros HA. unfold updateProfile, putUser, runRoute.
  destruct (runValidators _ _ db) as [[| s e |] | e]; try reflexivity.
  cbn [withSessionUser session_userId body]. unfold bind at 1.
  unfold updateOne, bind, get_db. now rewrite HA.
Qed.

(** X10. Sign-up with an id that no document has, profile update and
    account deletion, answered or refused, keep the accounts well formed:
    ids stay unique and no two usernames become equal up to case. *)
Theorem accounts_stay_unique (db : Db) :
  accounts_invariant db ->
  (forall newId name pass,
     ~ In newId (map uid (users db)) ->
     accounts_invariant (snd (signUp wordRegExp_test newId name pass db))) /\
  (forall userId name pass,
     accounts_invariant (snd (updateProfile wordRegExp_test userId name pass db))) /\
  (forall userId, accounts_invariant (snd (deleteAccount userId db))).
Proof.
  intros [Hid Hn]. split; [| split].
  - intros newId name pass Hfresh. rewrite signUp_cases.
    destruct (negb (isWord name)); [now split |].
    destruct (findOneByUsername wordRegExp_test (Some name) db) eqn:Hf; [now split |].
    destruct (negb (isNonBlank pass)); [now split |]. cbn [snd].
    unfold accounts_invariant, unique_ids, unique_usernames_nocase, Array_push.
    cbn [set_users users]. rewrite !map_app. cbn [map uid username]. split.
    + apply (Permutation_NoDup (Permutation_cons_append _ _)). now constructor.
    + apply (Permutation_NoDup (Permutation_cons_append _ _)).
      constructor; [| exact Hn]. intros Hin.
      apply in_map_iff in Hin as (z & Hz & Hzin).
      pose proof (find_none _ _ Hf z Hzin) as Hno. cbn [interpolated] in Hno.
      unfold wordRegExp_test in Hno. apply String.eqb_neq in Hno. now apply Hno.
  - intros userId name pass.
    destruct (findOneByUserId userId db) as [A |] eqn:HA;
      [| now rewrite (updateProfile_no_actor _ db userId name pass HA)].
    pose proof (findOneByUserId_In _ _ _ HA) as [HAin HAid].
    rewrite (updateProfile_cases wordRegExp_test db userId A name pass HA).
    destruct (negb (isWord name)); [now split |].
    destruct (findOneByUsername wordRegExp_test (Some name) db) as [u |] eqn:Hf.
    + destruct (Nat.eqb (uid u) userId) eqn:Eu; cbn [negb]; [| now split].
      destruct (negb (isNonBlank pass)); [now split |]. cbn [snd].
      apply find_some in Hf as [Huin Hmatch]. cbn [interpolated] in Hmatch.
      unfold wordRegExp_test in Hmatch. apply String.eqb_eq in Hmatch.
      apply Nat.eqb_eq in Eu.
      assert (u = A)
        by (apply (NoDup_map_inj uid (users db) u A Hid Huin HAin); congruence).
      subst u.
      unfold accounts_invariant, unique_ids, unique_usernames_nocase.
      cbn [set_users users]. rewrite !map_map. split.
      * rewrite (map_ext _ uid); [exact Hid |].
        intros y. unfold after_save. now destruct (Nat.eqb (uid y) _).
      * rewrite (map_ext_in _ (fun y => toLowerCase (username y))); [exact Hn |].
        intros y Hy. unfold after_save.
        cbn [uid username with_username with_password].
        destruct (Nat.eqb (uid y) (uid A)) eqn:Ey; [| reflexivity].
        apply Nat.eqb_eq in Ey.
        assert (y = A) by (now apply (NoDup_map_inj uid (users db) y A Hid)).
        subst y. cbn [username]. now symmetry.
    + destruct (negb (isNonBlank pass)); [now split |]. cbn [snd].
      unfold accounts_invariant, unique_ids, unique_usernames_nocase.
      cbn [set_users users]. rewrite !map_map. split.
      * rewrite (map_ext _ uid); [exact Hid |].
        intros y. unfold after_save. now destruct (Nat.eqb (uid y) _).
      * rewrite (map_ext _ (fun y => if Nat.eqb (uid y) (uid A) then toLowerCase name
                                     else toLowerCase (username y))).
        -- apply NoDup_rename; try assumption. intros y Hy E.
           pose proof (find_none _ _ Hf y Hy) as Hno. cbn [interpolated] in Hno.
           unfold wordRegExp_test in Hno. apply String.eqb_neq in Hno. now apply Hno.
        -- intros y. unfold after_save.
           cbn [uid username with_username with_password].
           now destruct (Nat.eqb (uid y) (uid A)).
  - intros userId. rewrite deleteAccount_eq. cbn [snd].
    unfold accounts_invariant, unique_ids, unique_usernames_nocase. cbn [users].
    rewrite (deleteFirstUser_filter userId (users db) Hid).
    split; now apply NoDup_map_filter.
Qed.

Lemma db_alice_bob_accounts : accounts_invariant db_alice_bob.
Proof.
  split; [exact db_alice_bob_unique_ids |].
  unfold unique_usernames_nocase. vm_compute.
  repeat constructor; simpl; intuition discriminate.
Qed.

Lemma accounts_stay_unique_witness :
  accounts_invariant (snd (signUp wordRegExp_test 3 "Bobby" "pw3" db_alice_bob)) /\
  accounts_invariant (snd (updateProfile wordRegExp_test 1 "ALICE" "pw4" db_alice_bob)) /\
  accounts_invariant (snd (deleteAccount 2 db_alice_bob)).
Proof.
  destruct (accounts_stay_unique db_alice_bob db_alice_bob_accounts) as (H1 & H2 & H3).
  split; [| split].
  - apply H1. simpl. intros [E | [E | []]]; discriminate E.
  - apply H2.
  - apply H3.
Defined.

Lemma find_filter {A : Type} (p q : A -> bool) (l : list A) :
  (forall x, p x = true -> q x = true) ->
  find p (filter q l) = find p l.
Proof.
  intros Hpq. induction l as [| a l IH]; [reflexivity |]. cbn [filter find].
  destruct (q a) eqn:Eq.
  - cbn [find]. now rewrite IH.
  - destruct (p a) eqn:Ep; [| exact IH]. rewrite (Hpq a Ep) in Eq. discriminate.
Qed.

(** X11. Deleting an account is always answered 200.  With unique ids it
    removes the user's document and every freet the user wrote, and
    nothing else: all other users stay as they are, their [followers]
    and [following] entries that name the deleted user included, and so
    do all verification requests, the deleted user's own included.  The
    id no longer finds a user, and if every freet had its author before,
    every remaining freet still has. *)
Theorem deleteAccount_cascade (db : Db) (userId : ObjectId) :
  unique_ids db ->
  fst (deleteAccount userId db) =
    Sent 200 "Your account has been deleted successfully." tt /\
  users (snd (deleteAccount userId db)) =
    filter (fun u => negb (Nat.eqb (uid u) userId)) (users db) /\
  freets (snd (deleteAccount userId db)) =
    filter (fun f => negb (Nat.eqb (authorId f) userId)) (freets db) /\
  vsprequests (snd (deleteAccount userId db)) = vsprequests db /\
  findOneByUserId userId (snd (deleteAccount userId db)) = None /\
  (authors_exist db -> authors_exist (snd (deleteAccount userId db))).
Proof.
  intros Hid. rewrite deleteAccount_eq. cbn [fst snd users freets vsprequests].
  rewrite (deleteFirstUser_filter userId (users db) Hid).
  split; [reflexivity |]. split; [reflexivity |]. split; [reflexivity |].
  split; [reflexivity |]. split.
  - unfold findOneByUserId. cbn [users].
    destruct (find _ _) as [u |] eqn:Hf; [| reflexivity].
    apply find_some in Hf as [Hin Hu]. apply filter_In in Hin as [_ Hkeep].
    rewrite Hu in Hkeep. discriminate.
  - intros Ha f Hf. cbn [freets] in Hf. apply filter_In in Hf as [Hf Hkeep].
    unfold findOneByUserId. cbn [users]. rewrite find_filter.
    + exact (Ha f Hf).
    + intros u Hu. apply Nat.eqb_eq in Hu. rewrite Hu. exact Hkeep.
Qed.

Lemma deleteAccount_cascade_witness :
  fst (deleteAccount 2 db_rust_scenario) =
    Sent 200 "Your account has been deleted successfully." tt /\
  users (snd (deleteAccount 2 db_rust_scenario)) =
    [mkUser 1 "alice" "pw1" false ["rust"] [] [];
     mkUser 3 "carol" "pw3" false [] [] []] /\
  freets (snd (deleteAccount 2 db_rust_scenario)) =
    [mkFreet 11 3 "I love go" 101 [] [] false] /\
  vsprequests (snd (deleteAccount 2 db_rust_scenario)) = [] /\
  findOneByUserId 2 (snd (deleteAccount 2 db_rust_scenario)) = None /\
  (authors_exist db_rust_scenario ->
   authors_exist (snd (deleteAccount 2 db_rust_scenario))).
Proof.
  exact (deleteAccount_cascade db_rust_scenario 2 db_rust_scenario_unique_ids).
Defined.


Lemma find_none_intro {A : Type} (p : A -> bool) (l : list A) :
  (forall x, In x l -> p x = false) -> find p l = None.
Proof.
  induction l as [| a l IH]; [reflexivity |]. intros H. cbn [find].
  rewrite (H a (or_introl eq_refl)). apply IH. intros x Hx. apply H. now right.
Qed.



(** ** The verification flag and the request body *)

(** X13. The routes hand the request body to [updateOne] as it is, and
    [updateOne] reads the fields [VSP] and [revoke] from it: a signed-in
    user who sends PATCH /api/users/interests with [VSP] set sets the
    own verification flag, to [true] without [revoke] and to [false]
    with it.  No administrator and no verification request is involved,
    the answer is 200 "Successfully added interest.", and no interest is
    added. *)
Theorem body_VSP_sets_own_flag (db : Db) (A : User) (b : Body) (rv : bool) :
  unique_ids db ->
  findOneByUserId (uid A) db = Some A ->
  includes_field (interests A) (b_interests b) = false ->
  patchInterests (mkRequest (Some (uid A)) (with_VSP_flags b rv)) db =
    (Sent 200 "Successfully added interest." (with_VSP A (negb rv)),
     replaceUser (with_VSP A (negb rv)) db).
Proof.
  intros Hid HA Hnew. pose proof (findOneByUserId_In _ _ _ HA) as [HAin _].
  unfold patchInterests, runRoute.
  cbn [runValidators isUserLoggedIn session_userId].
  unfold isUserAlreadyAddedInterest.
  cbn [session_userId body with_VSP_flags b_interests].
  rewrite HA, Hnew.
  cbn [runValidators withSessionUser session_userId body]. unfold bind at 1.
  rewrite (updateOne_VSP db (uid A) A b rv HA). cbn [ret].
  now rewrite (map_after_save_replace db A _ Hid HAin).
Qed.

Lemma body_VSP_sets_own_flag_witness :
  patchInterests (mkRequest (Some 2) (with_VSP_flags emptyBody false)) db_lola_dave =
    (Sent 200 "Successfully added interest." (mkUser 2 "dave" "pw2" true [] [] []),
     mkDb [mkUser 1 "lola" "pw1" false [] [] [];
           mkUser 2 "dave" "pw2" true [] [] []] [] []).
Proof.
  apply (body_VSP_sets_own_flag db_lola_dave (mkUser 2 "dave" "pw2" false [] [] [])
           emptyBody false).
  - repeat constructor; simpl; intuition discriminate.
  - reflexivity.
  - reflexivity.
Defined.

(** ** The ledger of endorsements and denouncements *)

Lemma FreetCollection_findOne_In (db : Db) (freetId : ObjectId) (f : Freet) :
  FreetCollection_findOne freetId db = Some f ->
  In f (freets db) /\ fid f = freetId.
Proof.
  unfold FreetCollection_findOne. intros H. apply find_some in H as [Hin Hid].
  split; [exact Hin | now apply Nat.eqb_eq].
Qed.

Lemma replaceFreet_same (db : Db) (f : Freet) :
  unique_fids db -> In f (freets db) -> replaceFreet f db = db.
Proof.
  intros Hid Hf. unfold replaceFreet, set_freets.
  rewrite (map_ext_in _ (fun g => g)); [rewrite map_id; now destruct db |].
  intros g Hg. destruct (Nat.eqb (fid g) (fid f)) eqn:E; [| reflexivity].
  apply Nat.eqb_eq in E. symmetry. now apply (NoDup_map_inj fid (freets db) g f Hid).
Qed.

Lemma FreetCollection_findOne_replaceFreet (db : Db) (f f' : Freet) :
  FreetCollection_findOne (fid f) db = Some f -> fid f' = fid f ->
  FreetCollection_findOne (fid f) (replaceFreet f' db) = Some f'.
Proof.
  intros Hf Eid. unfold FreetCollection_findOne, replaceFreet in *.
  cbn [set_freets freets]. rewrite Eid.
  induction (freets db) as [| g l IH]; [discriminate |].
  cbn [map find] in *. destruct (Nat.eqb (fid g) (fid f)) eqn:E.
  - now rewrite Eid, Nat.eqb_refl.
  - rewrite E. now apply IH.
Qed.

Lemma replaceFreet_replaceFreet (db : Db) (f' f'' : Freet) :
  fid f'' = fid f' -> replaceFreet f'' (replaceFreet f' db) = replaceFreet f'' db.
Proof.
  intros E. unfold replaceFreet, set_freets. cbn [users freets vsprequests].
  f_equal. rewrite map_map. apply map_ext. intros g. rewrite E.
  destruct (Nat.eqb (fid g) (fid f')) eqn:Eg;
    [now rewrite Nat.eqb_refl | now rewrite Eg].
Qed.

Lemma findOneByUserId_replaceFreet (db : Db) (f' : Freet) (userId : ObjectId) :
  findOneByUserId userId (replaceFreet f' db) = findOneByUserId userId db.
Proof. reflexivity. Qed.

Lemma ledgerMutation_eq (op : LedgerOp) (db : Db) (freetId userId : ObjectId)
  (f : Freet) (u : User) :
  FreetCollection_findOne freetId db = Some f ->
  findOneByUserId userId db = Some u ->
  ledgerMutation op freetId userId db =
    let f' :=
      match op with
      | Endorse => with_endorsements f (Array_push (endorsements f) (username u))
      | Unendorse => with_endorsements f (removeFirst (endorsements f) (username u))
      | Denounce => with_denouncements f (Array_push (denouncements f) (username u))
      | Undenounce => with_denouncements f (removeFirst (denouncements f) (username u))
      end in
    (Ok f', replaceFreet f' db).
Proof.
  intros Hf Hu.
  destruct op; cbn [ledgerMutation];
    unfold addOneEndorsement, deleteOneEndorsement, addOneDenouncement,
      deleteOneDenouncement, bind, get_db;
    rewrite Hf; cbn [deref ret]; rewrite Hu; reflexivity.
Qed.

(** X14. With unique freet ids, [addOneEndorsement] for a user whose name
    is not among the freet's endorsements appends the name to them and
    changes nothing else, neither the denouncements nor any other
    document; [deleteOneEndorsement] then restores the database exactly
    and returns the original freet.  The same holds of
    [addOneDenouncement] and [deleteOneDenouncement] with the two lists
    exchanged. *)
Theorem ledger_add_then_delete_restores (db : Db) (freetId userId : ObjectId)
  (f : Freet) (u : User) :
  unique_fids db ->
  FreetCollection_findOne freetId db = Some f ->
  findOneByUserId userId db = Some u ->
  (~ In (username u) (endorsements f) ->
   addOneEndorsement freetId userId db =
     (Ok (with_endorsements f (endorsements f ++ [username u])),
      replaceFreet (with_endorsements f (endorsements f ++ [username u])) db) /\
   deleteOneEndorsement freetId userId
     (replaceFreet (with_endorsements f (endorsements f ++ [username u])) db) =
     (Ok f, db)) /\
  (~ In (username u) (denouncements f) ->
   addOneDenouncement freetId userId db =
     (Ok (with_denouncements f (denouncements f ++ [username u])),
      replaceFreet (with_denouncements f (denouncements f ++ [username u])) db) /\
   deleteOneDenouncement freetId userId
     (replaceFreet (with_denouncements f (denouncements f ++ [username u])) db) =
     (Ok f, db)).
Proof.
  intros Hid Hf Hu. pose proof (FreetCollection_findOne_In _ _ _ Hf) as [Hfin Hfid].
  subst freetId. split; intros Hnin.
  - split; [exact (ledgerMutation_eq Endorse db (fid f) userId f u Hf Hu) |].
    set (f1 := with_endorsements f (endorsements f ++ [username u])).
    assert (Hf1 : FreetCollection_findOne (fid f) (replaceFreet f1 db) = Some f1)
      by (now apply FreetCollection_findOne_replaceFreet).
    pose proof (ledgerMutation_eq Unendorse _ (fid f) userId f1 u Hf1 Hu) as Hd.
    cbn [ledgerMutation] in Hd. rewrite Hd. cbn zeta.
    assert (E : with_endorsements f1 (removeFirst (endorsements f1) (username u)) = f).
    { unfold f1. cbn [endorsements with_endorsements fid authorId content
                        dateModified denouncements fact].
      fold (Array_push (endorsements f) (username u)).
      rewrite (removeFirst_push _ _ Hnin). now destruct f. }
    rewrite E, (replaceFreet_replaceFreet db f1 f eq_refl).
    now rewrite (replaceFreet_same db f Hid Hfin).
  - split; [exact (ledgerMutation_eq Denounce db (fid f) userId f u Hf Hu) |].
    set (f1 := with_denouncements f (denouncements f ++ [username u])).
    assert (Hf1 : FreetCollection_findOne (fid f) (replaceFreet f1 db) = Some f1)
      by (now apply FreetCollection_findOne_replaceFreet).
    pose proof (ledgerMutation_eq Undenounce _ (fid f) userId f1 u Hf1 Hu) as Hd.
    cbn [ledgerMutation] in Hd. rewrite Hd. cbn zeta.
    assert (E : with_denouncements f1 (removeFirst (denouncements f1) (username u)) = f).
    { unfold f1. cbn [denouncements with_denouncements fid authorId content
                        dateModified endorsements fact].
      fold (Array_push (denouncements f) (username u)).
      rewrite (removeFirst_push _ _ Hnin). now destruct f. }
    rewrite E, (replaceFreet_replaceFreet db f1 f eq_refl).
    now rewrite (replaceFreet_same db f Hid Hfin).
Qed.

Lemma db_fact_verified_unique_fids : unique_fids db_fact_verified.
Proof. repeat constructor; simpl; intuition discriminate. Qed.

Lemma ledger_add_then_delete_restores_witness :
  (addOneEndorsement 10 1 db_fact_verified =
     (Ok (mkFreet 10 1 "water boils at 100 degrees" 100 ["alice"] [] true),
      mkDb [mkUser 1 "alice" "pw1" true [] [] []]
           [mkFreet 10 1 "water boils at 100 degrees" 100 ["alice"] [] true] []) /\
   deleteOneEndorsement 10 1
     (mkDb [mkUser 1 "alice" "pw1" true [] [] []]
           [mkFreet 10 1 "water boils at 100 degrees" 100 ["alice"] [] true] []) =
     (Ok (mkFreet 10 1 "water boils at 100 degrees" 100 [] [] true), db_fact_verified)) /\
  (addOneDenouncement 10 1 db_fact_verified =
     (Ok (mkFreet 10 1 "water boils at 100 degrees" 100 [] ["alice"] true),
      mkDb [mkUser 1 "alice" "pw1" true [] [] []]
           [mkFreet 10 1 "water boils at 100 degrees" 100 [] ["alice"] true] []) /\
   deleteOneDenouncement 10 1
     (mkDb [mkUser 1 "alice" "pw1" true [] [] []]
           [mkFreet 10 1 "water boils at 100 degrees" 100 [] ["alice"] true] []) =
     (Ok (mkFreet 10 1 "water boils at 100 degrees" 100 [] [] true), db_fact_verified)).
Proof.
  destruct (ledger_add_then_delete_restores db_fact_verified 10 1
              (mkFreet 10 1 "water boils at 100 degrees" 100 [] [] true)
              (mkUser 1 "alice" "pw1" true [] [] [])
              db_fact_verified_unique_fids eq_refl eq_refl) as [He Hd].
  split; [apply He | apply Hd]; simpl; tauto.
Defined.

(** X15. The four guards of the ledger decide by the list the operation
    works on.  Once [addOneEndorsement] has run for a user and a freet,
    [isUserAlreadyEndorsed] refuses a second endorsement with 409 and
    [isUserNotYetEndorsed] lets the removal through, while the two
    denouncement guards answer as before; an endorsement that
    [isUserAlreadyEndorsed] let through keeps a list of endorsements
    that had no duplicates free of duplicates.  The same holds with
    endorsements and denouncements exchanged. *)
Theorem ledger_guards_follow_ledger (db : Db) (freetId userId : ObjectId)
  (f : Freet) (u : User) :
  FreetCollection_findOne freetId db = Some f ->
  findOneByUserId userId db = Some u ->
  (forall f1 db1,
     addOneEndorsement freetId userId db = (Ok f1, db1) ->
     isUserAlreadyEndorsed (ledgerRequest userId freetId) db1 =
       Ok (Reject 409 "You have already endorsed this freet.") /\
     isUserNotYetEndorsed (ledgerRequest userId freetId) db1 = Ok Next /\
     isUserAlreadyDenounced (ledgerRequest userId freetId) db1 =
       isUserAlreadyDenounced (ledgerRequest userId freetId) db /\
     isUserNotYetDenounced (ledgerRequest userId freetId) db1 =
       isUserNotYetDenounced (ledgerRequest userId freetId) db /\
     (isUserAlreadyEndorsed (ledgerRequest userId freetId) db = Ok Next ->
      NoDup (endorsements f) -> NoDup (endorsements f1))) /\
  (forall f1 db1,
     addOneDenouncement freetId userId db = (Ok f1, db1) ->
     isUserAlreadyDenounced (ledgerRequest userId freetId) db1 =
       Ok (Reject 409 "You have already denounced this freet.") /\
     isUserNotYetDenounced (ledgerRequest userId freetId) db1 = Ok Next /\
     isUserAlreadyEndorsed (ledgerRequest userId freetId) db1 =
       isUserAlreadyEndorsed (ledgerRequest userId freetId) db /\
     isUserNotYetEndorsed (ledgerRequest userId freetId) db1 =
       isUserNotYetEndorsed (ledgerRequest userId freetId) db /\
     (isUserAlreadyDenounced (ledgerRequest userId freetId) db = Ok Next ->
      NoDup (denouncements f) -> NoDup (denouncements f1))).
Proof.
  intros Hf Hu. pose proof (FreetCollection_findOne_In _ _ _ Hf) as [Hfin Hfid].
  subst freetId.
  assert (Hin : forall l : list string,
             Array_includes (Array_push l (username u)) (username u) = true).
  { intros l. apply Array_includes_In. apply in_or_app. right. now left. }
  split; intros f1 db1 Hadd.
  - pose proof (ledgerMutation_eq Endorse db (fid f) userId f u Hf Hu) as Heq.
    cbn [ledgerMutation] in Heq. cbn zeta in Heq. rewrite Heq in Hadd.
    injection Hadd as <- <-.
    unfold isUserAlreadyEndorsed, isUserNotYetEndorsed, isUserAlreadyDenounced,
      isUserNotYetDenounced, findSessionUser, ledgerRequest.
    cbn [body b_freetId session_userId].
    rewrite (FreetCollection_findOne_replaceFreet db f
               (with_endorsements f (Array_push (endorsements f) (username u)))
               Hf eq_refl).
    rewrite findOneByUserId_replaceFreet, Hf, Hu.
    cbn [endorsements denouncements with_endorsements]. rewrite Hin. cbn [negb].
    repeat (split; [reflexivity |]).
    intros Hpass Hnd. apply NoDup_push; [exact Hnd |].
    intros Hc. apply Array_includes_In in Hc. rewrite Hc in Hpass. discriminate.
  - pose proof (ledgerMutation_eq Denounce db (fid f) userId f u Hf Hu) as Heq.
    cbn [ledgerMutation] in Heq. cbn zeta in Heq. rewrite Heq in Hadd.
    injection Hadd as <- <-.
    unfold isUserAlreadyEndorsed, isUserNotYetEndorsed, isUserAlreadyDenounced,
      isUserNotYetDenounced, findSessionUser, ledgerRequest.
    cbn [body b_freetId session_userId].
    rewrite (FreetCollection_findOne_replaceFreet db f
               (with_denouncements f (Array_push (denouncements f) (username u)))
               Hf eq_refl).
    rewrite findOneByUserId_replaceFreet, Hf, Hu.
    cbn [endorsements denouncements with_denouncements]. rewrite Hin. cbn [negb].
    repeat (split; [reflexivity |]).
    intros Hpass Hnd. apply NoDup_push; [exact Hnd |].
    intros Hc. apply Array_includes_In in Hc. rewrite Hc in Hpass. discriminate.
Qed.

Lemma ledger_guards_follow_ledger_witness :
  isUserAlreadyEndorsed (ledgerRequest 1 10) (snd (addOneEndorsement 10 1 db_fact_verified)) =
    Ok (Reject 409 "You have already endorsed this freet.") /\
  isUserNotYetEndorsed (ledgerRequest 1 10) (snd (addOneEndorsement 10 1 db_fact_verified)) =
    Ok Next /\
  isUserAlreadyDenounced (ledgerRequest 1 10) (snd (addOneDenouncement 10 1 db_fact_verified)) =
    Ok (Reject 409 "You have already denounced this freet.").
Proof.
  destruct (ledger_guards_follow_ledger db_fact_verified 10 1
              (mkFreet 10 1 "water boils at 100 degrees" 100 [] [] true)
              (mkUser 1 "alice" "pw1" true [] [] []) eq_refl eq_refl) as [He Hd].
  destruct (He _ _ eq_refl) as (H1 & H2 & _).
  destruct (Hd _ _ eq_refl) as (H3 & _).
  split; [exact H1 |]. split; [exact H2 | exact H3].
Defined.

(** ** The verification workflow: administrator, listings, deletion *)

Lemma pending_after_grant (n : string) (rs : list VSPRequest) (r' : VSPRequest) :
  find (fun x => String.eqb (rq_username x) n) rs = Some r' ->
  granted r' = false ->
  exists l1 l2,
    filter (fun r => negb (granted r)) rs = l1 ++ r' :: l2 /\
    filter (fun r => negb (granted r)) (setGrantedFirst n true rs) = l1 ++ l2.
Proof.
  induction rs as [| x rs IH]; [discriminate |]. cbn [find setGrantedFirst filter].
  intros Hf Hg. destruct (String.eqb (rq_username x) n) eqn:E.
  - injection Hf as ->. exists [], (filter (fun r => negb (granted r)) rs).
    cbn [filter granted negb app]. now rewrite Hg.
  - destruct (IH Hf Hg) as (l1 & l2 & H1 & H2). cbn [filter].
    destruct (negb (granted x)).
    + exists (x :: l1), l2. cbn [app]. now rewrite H1, H2.
    + now exists l1, l2.
Qed.

Section WorkflowFurther.

Variable RegExp_test : string -> string -> bool.

Local Abbreviation findRequest := (VSPRequestCollection_findOneByUsername RegExp_test).
Local Abbreviation findUser := (findOneByUsername RegExp_test).

(** X16. The administrator is whoever is signed in under the username
    [lola], compared exactly.  For any other signed-in user the five
    administrator routes answer 401 and change nothing, whatever the
    body.  For the user named [lola] the two listings answer 200 with
    exactly the requests that are not granted and exactly the users whose
    flag is set, and a deletion is answered 200 and removes the first
    request with exactly the given username, if there is one, leaving
    users and freets as they are. *)
Theorem admin_is_the_user_named_lola (db : Db) (userId : ObjectId) (user : User)
  (b : Body) :
  findOneByUserId userId db = Some user ->
  (username user <> "lola" ->
   putVspRequest RegExp_test (mkRequest (Some userId) b) db =
     (Refused 401 "You do not have permission to do this.", db) /\
   deleteVspStatus RegExp_test (mkRequest (Some userId) b) db =
     (Refused 401 "You do not have permission to do this.", db) /\
   deleteVspRequest (mkRequest (Some userId) b) db =
     (Refused 401 "You do not have permission to do this.", db) /\
   getVspRequests (mkRequest (Some userId) b) db =
     (Refused 401 "You do not have permission to do this.", db) /\
   getVSPs (mkRequest (Some userId) b) db =
     (Refused 401 "You do not have permission to do this.", db)) /\
  (username user = "lola" ->
   getVspRequests (mkRequest (Some userId) b) db =
     (Sent 200 "VSP requests successfully retrieved."
        (filter (fun r => negb (granted r)) (vsprequests db)), db) /\
   getVSPs (mkRequest (Some userId) b) db =
     (Sent 200 "VSPs successfully retrieved." (filter VSP (users db)), db) /\
   forall name,
     deleteRequest userId name db =
       (Sent 200 "Request was deleted successfully." tt,
        mkDb (users db) (freets db) (deleteFirst name (vsprequests db)))).
Proof.
  intros Hu. split; intros Hname.
  - apply String.eqb_neq in Hname.
    unfold putVspRequest, deleteVspStatus, deleteVspRequest, getVspRequests, getVSPs,
      runRoute.
    cbn [runValidators isUserLoggedIn session_userId]. unfold isUserAdmin.
    cbn [session_userId]. rewrite Hu, Hname. repeat split.
  - apply String.eqb_eq in Hname.
    unfold deleteRequest, deleteVspRequest, getVspRequests, getVSPs, runRoute.
    cbn [runValidators isUserLoggedIn session_userId]. unfold isUserAdmin.
    cbn [session_userId]. rewrite Hu, Hname. repeat split.
Qed.

(** X17. The two listings follow the workflow.  A submit that goes
    through adds its request at the end of the pending requests and
    leaves the verified users as they were.  After an accept that goes
    through the updated user is among the verified users and, when the
    lookup by exact username and the one by pattern find the same
    request, that request and no other has left the pending requests.
    After a revoke that goes through the request is back among the
    pending requests and no verified user has the id of the revoked
    one. *)
Theorem listings_follow_workflow :
  (forall db db1 userId user justification status message r,
     findOneByUserId userId db = Some user ->
     submit RegExp_test userId justification db = (Sent status message r, db1) ->
     getAll db1 = getAll db ++ [r] /\ getAllVSPs db1 = getAllVSPs db) /\
  (forall db db1 admin name status message r u,
     accept RegExp_test admin name db = (Sent status message (r, u), db1) ->
     In u (getAllVSPs db1) /\
     (VSPRequestModel_findOne (Some name) db = findRequest (Some name) db ->
      exists r0 l1 l2,
        rq_username r0 = name /\
        getAll db = l1 ++ r0 :: l2 /\ getAll db1 = l1 ++ l2)) /\
  (forall db db1 admin name status message r u,
     revoke RegExp_test admin name db = (Sent status message (r, u), db1) ->
     In r (getAll db1) /\
     forall v, In v (getAllVSPs db1) -> uid v <> uid u).
Proof.
  split; [| split].
  - intros db db1 userId user justification status message r Hu H.
    destruct (submit_Sent RegExp_test db db1 userId user justification status message r
                Hu H) as (_ & _ & -> & ->).
    unfold getAll, getAllVSPs. cbn [vsprequests users].
    rewrite filter_app. cbn [filter granted negb]. now split.
  - intros db db1 admin name status message r u H.
    destruct (findOneByUserId admin db) as [a |] eqn:Ha;
      [| rewrite (accept_no_admin RegExp_test db admin name Ha) in H; discriminate H].
    rewrite (accept_cases RegExp_test db admin a name Ha) in H.
    destruct (negb (String.eqb (username a) "lola")); [discriminate H |].
    destruct (findRequest (Some name) db) as [r0 |] eqn:Hr0; [| discriminate H].
    destruct (granted r0) eqn:Hg; [discriminate H |].
    apply decide_Sent in H as (r' & u1 & u0 & Hr' & Hu1 & Hu0 & -> & -> & ->).
    split.
    + unfold getAllVSPs. cbn [users]. apply filter_In. split; [| reflexivity].
      pose proof (findOneByUserId_In _ _ _ Hu0) as [_ E].
      assert (Hu0' : findOneByUserId (uid u0) db = Some u0) by (rewrite E; exact Hu0).
      pose proof (findOneByUserId_after_save db (uid u0) u0 true Hu0') as Hsaved.
      apply findOneByUserId_In in Hsaved as [Hin _]. exact Hin.
    + intros Hsame. rewrite Hr' in Hsame. injection Hsame as ->.
      cbn [VSPRequestModel_findOne] in Hr'.
      destruct (pending_after_grant name (vsprequests db) r0 Hr' Hg)
        as (l1 & l2 & H1 & H2).
      exists r0, l1, l2. unfold getAll. cbn [vsprequests].
      split; [| now split].
      apply find_some in Hr' as [_ E]. now apply String.eqb_eq in E.
  - intros db db1 admin name status message r u H.
    destruct (findOneByUserId admin db) as [a |] eqn:Ha;
      [| rewrite (revoke_no_admin RegExp_test db admin name Ha) in H; discriminate H].
    rewrite (revoke_cases RegExp_test db admin a name Ha) in H.
    destruct (negb (String.eqb (username a) "lola")); [discriminate H |].
    destruct (findRequest (Some name) db) as [r0 |] eqn:Hr0; [| discriminate H].
    destruct (granted r0) eqn:Hg; [| discriminate H].
    apply decide_Sent in H as (r' & u1 & u0 & Hr' & Hu1 & Hu0 & -> & -> & ->).
    split.
    + unfold getAll. cbn [vsprequests]. apply filter_In. split; [| reflexivity].
      cbn [VSPRequestModel_findOne] in Hr'.
      pose proof (find_exact_setGrantedFirst name false _ r' Hr') as Hfound.
      apply find_some in Hfound as [Hin _].
      apply find_some in Hr' as [_ E]. apply String.eqb_eq in E.
      now rewrite E in Hin.
    + intros v Hv. unfold getAllVSPs in Hv. cbn [users] in Hv.
      apply filter_In in Hv as [Hv Hflag].
      apply in_map_iff in Hv as (y & <- & Hy). unfold after_save in *.
      cbn [uid with_VSP] in *.
      destruct (Nat.eqb (uid y) (uid u0)) eqn:E; [discriminate Hflag |].
      now apply Nat.eqb_neq.
Qed.

End WorkflowFurther.

Lemma admin_is_the_user_named_lola_witness :
  putVspRequest wordRegExp_test (mkRequest (Some 2) (usernameBody "dave")) db_pending =
    (Refused 401 "You do not have permission to do this.", db_pending) /\
  getVspRequests (mkRequest (Some 1) emptyBody) db_pending =
    (Sent 200 "VSP requests successfully retrieved."
       [mkVSPRequest "dave" "I report on science" false], db_pending) /\
  getVSPs (mkRequest (Some 1) emptyBody) db_granted =
    (Sent 200 "VSPs successfully retrieved." [mkUser 2 "dave" "pw2" true [] [] []],
     db_granted) /\
  deleteRequest 1 "dave" db_granted =
    (Sent 200 "Request was deleted successfully." tt,
     mkDb [mkUser 1 "lola" "pw1" false [] [] [];
           mkUser 2 "dave" "pw2" true [] [] []] [] []).
Proof.
  split; [| split; [| split]].
  - apply (proj1 (admin_is_the_user_named_lola wordRegExp_test db_pending 2
                    (mkUser 2 "dave" "pw2" false [] [] []) (usernameBody "dave")
                    eq_refl)).
    discriminate.
  - apply (proj2 (admin_is_the_user_named_lola wordRegExp_test db_pending 1
                    (mkUser 1 "lola" "pw1" false [] [] []) emptyBody eq_refl)).
    reflexivity.
  - apply (proj2 (admin_is_the_user_named_lola wordRegExp_test db_granted 1
                    (mkUser 1 "lola" "pw1" false [] [] []) emptyBody eq_refl)).
    reflexivity.
  - apply (proj2 (admin_is_the_user_named_lola wordRegExp_test db_granted 1
                    (mkUser 1 "lola" "pw1" false [] [] []) emptyBody eq_refl)).
    reflexivity.
Defined.

Lemma listings_follow_workflow_witness :
  (getAll db_pending = getAll db_lola_dave ++ [mkVSPRequest "dave" "I report on science" false] /\
   getAllVSPs db_pending = getAllVSPs db_lola_dave) /\
  In (mkUser 2 "dave" "pw2" true [] [] []) (getAllVSPs db_granted) /\
  In (mkVSPRequest "dave" "I report on science" false) (getAll db_pending).
Proof.
  destruct (listings_follow_workflow wordRegExp_test) as (Hs & Ha & Hr).
  split; [| split].
  - exact (Hs _ _ _ _ _ _ _ _
             (eq_refl : findOneByUserId 2 db_lola_dave =
                        Some (mkUser 2 "dave" "pw2" false [] [] []))
             submit_dave).
  - exact (proj1 (Ha _ _ _ _ _ _ _ _ accept_dave)).
  - exact (proj1 (Hr _ _ _ _ _ _ _ _ revoke_dave)).
Defined.

Lemma deleteRequest_by_lola (db : Db) (admin : ObjectId) (a : User) (name : string) :
  findOneByUserId admin db = Some a ->
  username a = "lola" ->
  deleteRequest admin name db =
    (Sent 200 "Request was deleted successfully." tt,
     mkDb (users db) (freets db) (deleteFirst name (vsprequests db))).
Proof.
  intros Ha Hname. apply String.eqb_eq in Hname.
  unfold deleteRequest, deleteVspRequest, runRoute.
  cbn [runValidators isUserLoggedIn session_userId]. unfold isUserAdmin.
  cbn [session_userId]. now rewrite Ha, Hname.
Qed.

Lemma deleteFirst_push (n : string) (rs : list VSPRequest) (r : VSPRequest) :
  find (fun x => String.eqb (rq_username x) n) rs = None ->
  rq_username r = n ->
  deleteFirst n (Array_push rs r) = rs.
Proof.
  intros Hnone Hr. unfold Array_push.
  induction rs as [| x rs IH]; cbn [app deleteFirst find] in *.
  - apply String.eqb_eq in Hr. now rewrite Hr.
  - destruct (String.eqb (rq_username x) n); [discriminate |]. f_equal. now apply IH.
Qed.

Lemma db_request_without_account_reached :
  snd (deleteAccount 2 db_pending) = db_request_without_account.
Proof. reflexivity. Qed.

Section WorkflowEdges.

Variable RegExp_test : string -> string -> bool.

Local Abbreviation findRequest := (VSPRequestCollection_findOneByUsername RegExp_test).
Local Abbreviation findUser := (findOneByUsername RegExp_test).

(** X18. An accept is not undone when it fails half way.  When the
    pending request of a username is found but no account matches that
    username, as after the requester deleted the account, the accept
    first marks the request granted and then fails on the missing user
    with a TypeError: no response is sent, the request stays granted
    although nobody became verified, and a second accept is refused with
    409 "Request already granted.". *)
Theorem accept_without_account_grants_then_crashes (db : Db) (admin : ObjectId)
  (a : User) (name : string) (r : VSPRequest) :
  findOneByUserId admin db = Some a ->
  username a = "lola" ->
  findRequest (Some name) db = Some r ->
  VSPRequestModel_findOne (Some name) db = Some r ->
  granted r = false ->
  findUser (Some name) db = None ->
  accept RegExp_test admin name db =
    (Crashed TypeError,
     mkDb (users db) (freets db) (setGrantedFirst name true (vsprequests db))) /\
  VSPRequestModel_findOne (Some name)
    (mkDb (users db) (freets db) (setGrantedFirst name true (vsprequests db))) =
    Some (mkVSPRequest name (rq_content r) true) /\
  accept RegExp_test admin name
    (mkDb (users db) (freets db) (setGrantedFirst name true (vsprequests db))) =
    (AlreadyGranted,
     mkDb (users db) (freets db) (setGrantedFirst name true (vsprequests db))).
Proof.
  intros Ha Hlola Hr Hexact Hg Hnouser.
  assert (Hrn : rq_username r = name).
  { cbn [VSPRequestModel_findOne] in Hexact. apply find_some in Hexact as [_ E].
    now apply String.eqb_eq in E. }
  apply String.eqb_eq in Hlola.
  split; [| split].
  - rewrite (accept_cases RegExp_test db admin a name Ha), Hlola, Hr, Hg.
    cbn [negb]. unfold decide. rewrite Hexact, Hrn.
    unfold findOneByUsername in *. cbn [set_vsprequests users] in *.
    now rewrite Hnouser.
  - cbn [VSPRequestModel_findOne vsprequests] in *.
    rewrite (find_exact_setGrantedFirst name true _ r Hexact). now rewrite Hrn.
  - rewrite (accept_cases RegExp_test
               (mkDb (users db) (freets db) (setGrantedFirst name true (vsprequests db)))
               admin a name Ha), Hlola.
    cbn [negb]. unfold VSPRequestCollection_findOneByUsername in *.
    cbn [VSPRequestModel_findOne vsprequests] in *.
    now rewrite (find_both_setGrantedFirst _ name true _ r Hr Hexact).
Qed.

(** X19. A request that was just submitted is removed again by the
    administrator's deletion under the submitter's username, which
    restores the database exactly, provided the pattern built from that
    username matches the username itself. *)
Theorem submit_then_deleteRequest_restores (db db1 : Db) (userId admin : ObjectId)
  (user a : User) (justification : string) (status : nat) (message : string)
  (r : VSPRequest) :
  findOneByUserId userId db = Some user ->
  findOneByUserId admin db = Some a ->
  username a = "lola" ->
  RegExp_test (username user) (username user) = true ->
  submit RegExp_test userId justification db = (Sent status message r, db1) ->
  deleteRequest admin (username user) db1 =
    (Sent 200 "Request was deleted successfully." tt, db).
Proof.
  intros Hu Ha Hlola Hself H.
  destruct (submit_Sent RegExp_test db db1 userId user justification status message r
              Hu H) as (_ & Hnone & -> & ->).
  rewrite (deleteRequest_by_lola
             (mkDb (users db) (freets db)
                (vsprequests db ++ [mkVSPRequest (username user) justification false]))
             admin a (username user) Ha Hlola).
  cbn [users freets vsprequests]. f_equal.
  fold (Array_push (vsprequests db) (mkVSPRequest (username user) justification false)).
  rewrite deleteFirst_push; [now destruct db | | reflexivity].
  apply find_none_intro. intros x Hx.
  unfold VSPRequestCollection_findOneByUsername in Hnone. cbn [interpolated] in Hnone.
  pose proof (find_none _ _ Hnone x Hx) as Hno. cbn beta in Hno.
  apply String.eqb_neq. intros E. rewrite E, Hself in Hno. discriminate.
Qed.

End WorkflowEdges.

Lemma accept_without_account_grants_then_crashes_witness :
  accept wordRegExp_test 1 "dave" db_request_without_account =
    (Crashed TypeError,
     mkDb [mkUser 1 "lola" "pw1" false [] [] []] []
          [mkVSPRequest "dave" "I report on science" true]) /\
  VSPRequestModel_findOne (Some "dave")
    (mkDb [mkUser 1 "lola" "pw1" false [] [] []] []
          [mkVSPRequest "dave" "I report on science" true]) =
    Some (mkVSPRequest "dave" "I report on science" true) /\
  accept wordRegExp_test 1 "dave"
    (mkDb [mkUser 1 "lola" "pw1" false [] [] []] []
          [mkVSPRequest "dave" "I report on science" true]) =
    (AlreadyGranted,
     mkDb [mkUser 1 "lola" "pw1" false [] [] []] []
          [mkVSPRequest "dave" "I report on science" true]).
Proof.
  exact (accept_without_account_grants_then_crashes wordRegExp_test
           db_request_without_account 1 (mkUser 1 "lola" "pw1" false [] [] []) "dave"
           (mkVSPRequest "dave" "I report on science" false)
           eq_refl eq_refl eq_refl eq_refl eq_refl eq_refl).
Defined.

Lemma submit_then_deleteRequest_restores_witness :
  deleteRequest 1 "dave" db_pending =
    (Sent 200 "Request was deleted successfully." tt, db_lola_dave).
Proof.
  exact (submit_then_deleteRequest_restores wordRegExp_test db_lola_dave db_pending 2 1
           (mkUser 2 "dave" "pw2" false [] [] []) (mkUser 1 "lola" "pw1" false [] [] [])
           "I report on science" 201 "Request successfully created."
           (mkVSPRequest "dave" "I report on science" false)
           eq_refl eq_refl eq_refl eq_refl submit_dave).
Defined.

(** ** Sessions *)

(** X20. Without a session every route that is guarded by
    [isUserLoggedIn] answers 403 "You must be logged in to complete this
    action." and leaves the database as it is, whatever the body; with a
    session, sign-in and sign-up answer 403 "You are already signed in."
    and change nothing either. *)
Theorem routes_check_the_session (R : string -> string -> bool) (b : Body) (db : Db) :
  (deleteSession (mkRequest None b) db = (MustSignIn, db) /\
   putUser R (mkRequest None b) db = (MustSignIn, db) /\
   deleteUser (mkRequest None b) db = (MustSignIn, db) /\
   patchFollowers (mkRequest None b) db = (MustSignIn, db) /\
   deleteFollowers (mkRequest None b) db = (MustSignIn, db) /\
   patchInterests (mkRequest None b) db = (MustSignIn, db) /\
   deleteInterests (mkRequest None b) db = (MustSignIn, db) /\
   getRecommended (mkRequest None b) db = (MustSignIn, db) /\
   postVspRequest R (mkRequest None b) db = (MustSignIn, db) /\
   putVspRequest R (mkRequest None b) db = (MustSignIn, db) /\
   deleteVspStatus R (mkRequest None b) db = (MustSignIn, db) /\
   deleteVspRequest (mkRequest None b) db = (MustSignIn, db) /\
   getVspRequests (mkRequest None b) db = (MustSignIn, db) /\
   getVSPs (mkRequest None b) db = (MustSignIn, db)) /\
  (forall userId newId,
     postSession R (mkRequest (Some userId) b) db = (AlreadySignedIn, db) /\
     postUser R newId (mkRequest (Some userId) b) db = (AlreadySignedIn, db)).
Proof. split; [repeat split | intros userId newId; split; reflexivity]. Qed.

(** ** Renaming *)



(** ** Revoking *)

Section RevokeOutcome.

Variable RegExp_test : string -> string -> bool.

Local Abbreviation findRequest := (VSPRequestCollection_findOneByUsername RegExp_test).

(** X22. A revoke that goes through found a granted request under the
    username.  It leaves the request stored with [granted] false and the
    user stored with the flag cleared, both as sent in the answer, and,
    when the lookup by exact username and the one by pattern find the
    same request, a second revoke is refused with 409 "Request has not
    yet been granted.". *)
Theorem revoke_only_granted_then_pending (db db' : Db) (admin : ObjectId)
  (name : string) (status : nat) (message : string) (r : VSPRequest) (u : User) :
  revoke RegExp_test admin name db = (Sent status message (r, u), db') ->
  (exists r0, findRequest (Some name) db = Some r0 /\ granted r0 = true) /\
  (granted r = false /\ VSPRequestModel_findOne (Some name) db' = Some r /\
   VSP u = false /\ findOneByUserId (uid u) db' = Some u) /\
  (VSPRequestModel_findOne (Some name) db = findRequest (Some name) db ->
   revoke RegExp_test admin name db' = (NotYetGranted, db')).
Proof.
  intros H.
  destruct (findOneByUserId admin db) as [a |] eqn:Ha;
    [| rewrite (revoke_no_admin RegExp_test db admin name Ha) in H; discriminate H].
  rewrite (revoke_cases RegExp_test db admin a name Ha) in H.
  destruct (String.eqb (username a) "lola") eqn:Hadmin; [| discriminate H].
  cbn [negb] in H.
  destruct (findRequest (Some name) db) as [r0 |] eqn:Hr0; [| discriminate H].
  destruct (granted r0) eqn:Hg; [| discriminate H].
  apply decide_Sent in H as (r' & u1 & u0 & Hr' & Hu1 & Hu0 & -> & -> & ->).
  split; [| split].
  - exists r0. now split.
  - repeat split.
    + cbn [VSPRequestModel_findOne vsprequests] in *.
      rewrite (find_exact_setGrantedFirst name false _ r' Hr').
      apply find_some in Hr' as [_ Hr']. apply String.eqb_eq in Hr'. now rewrite Hr'.
    + cbn [uid with_VSP].
      pose proof (findOneByUserId_In _ _ _ Hu0) as [_ E].
      assert (Hu0' : findOneByUserId (uid u0) db = Some u0) by (rewrite E; exact Hu0).
      exact (findOneByUserId_after_save
               (mkDb (users db) (freets db) (setGrantedFirst name false (vsprequests db)))
               (uid u0) u0 false Hu0').
  - intros Hsame.
    destruct (username_after_save db admin (uid u1) a u0 false Ha Hu0)
      as [a' [Ha' Hname]].
    rewrite (revoke_cases RegExp_test _ admin a' name).
    + rewrite Hname, Hadmin. cbn [negb].
      unfold VSPRequestCollection_findOneByUsername in *.
      cbn [VSPRequestModel_findOne] in *. cbn [vsprequests].
      rewrite Hr' in Hsame. injection Hsame as ->.
      now rewrite (find_both_setGrantedFirst _ name false _ r0 Hr0 Hr').
    + exact Ha'.
Qed.

End RevokeOutcome.

Lemma revoke_only_granted_then_pending_witness :
  revoke wordRegExp_test 1 "dave" db_pending = (NotYetGranted, db_pending).
Proof.
  apply (proj2 (proj2
           (revoke_only_granted_then_pending wordRegExp_test db_granted db_pending
              1 "dave" 200 "VSP status was successfully revoked."
              (mkVSPRequest "dave" "I report on science" false)
              (mkUser 2 "dave" "pw2" false [] [] [])
              revoke_dave))).
  reflexivity.
Defined.

(** ** Bodies without the expected field *)

(** X23. A body that lacks the field the route works on: for a signed-in
    user whose document exists, with unique ids, PATCH /followers and
    PATCH /interests answer 200 with their success message and the
    unchanged document and leave the database as it is, while
    DELETE /followers and DELETE /interests refuse with 409, as for a
    user never followed and an interest never added. *)
Theorem requests_without_the_field (db : Db) (A : User) :
  unique_ids db ->
  findOneByUserId (uid A) db = Some A ->
  patchFollowers (mkRequest (Some (uid A)) emptyBody) db =
    (Sent 200 "Successfully followed." A, db) /\
  patchInterests (mkRequest (Some (uid A)) emptyBody) db =
    (Sent 200 "Successfully added interest." A, db) /\
  deleteFollowers (mkRequest (Some (uid A)) emptyBody) db =
    (Refused 409 "You cannot unfollow a user you have never followed.", db) /\
  deleteInterests (mkRequest (Some (uid A)) emptyBody) db =
    (Refused 409 "You are trying to delete an interest you have not yet added.", db).
Proof.
  intros Hid HA. pose proof (findOneByUserId_In _ _ _ HA) as [HAin _].
  assert (Hupd : updateOne (uid A) emptyBody db = (Ok A, db)).
  { unfold updateOne, bind, get_db. rewrite HA.
    cbn [deref ret emptyBody b_VSP b_password b_username b_interests
           b_deleteInterest b_following b_unfollow andb negb truthy].
    unfold save_user, ret. f_equal.
    fold (after_save A).
    rewrite (map_after_save_replace db A A Hid HAin eq_refl eq_refl).
    now apply replaceUser_same. }
  unfold patchFollowers, patchInterests, deleteFollowers, deleteInterests, runRoute.
  cbn [runValidators isUserLoggedIn session_userId].
  unfold isUserAlreadyFollowingTargetUser, isUserTryingToFollowSelf,
    isUserAlreadyAddedInterest, isUserNotYetFollowingTargetUser,
    isUserNotYetAddedInterest.
  cbn [session_userId body emptyBody b_following b_interests includes_field
         strictEq_field negb].
  rewrite HA.
  cbn [runValidators withSessionUser session_userId body]. unfold bind at 1 2.
  fold emptyBody. rewrite Hupd. repeat split.
Qed.

Lemma requests_without_the_field_witness :
  patchFollowers (mkRequest (Some 1) emptyBody) db_alice_bob =
    (Sent 200 "Successfully followed." alice0, db_alice_bob) /\
  patchInterests (mkRequest (Some 1) emptyBody) db_alice_bob =
    (Sent 200 "Successfully added interest." alice0, db_alice_bob) /\
  deleteFollowers (mkRequest (Some 1) emptyBody) db_alice_bob =
    (Refused 409 "You cannot unfollow a user you have never followed.", db_alice_bob) /\
  deleteInterests (mkRequest (Some 1) emptyBody) db_alice_bob =
    (Refused 409 "You are trying to delete an interest you have not yet added.",
     db_alice_bob).
Proof.
  exact (requests_without_the_field db_alice_bob alice0 db_alice_bob_unique_ids eq_refl).
Defined.
